(** * The AI client of the GitHub automation scripts

    A shallow embedding of [.github/scripts/ai_utils.py] (class [AIClient]):
    configuration loading, provider registry, prompt templates, model and
    parameter resolution, the dispatcher [call_ai] and the usage tracker.

    Conventions of the embedding.
    - A Python [dict] is an association list in insertion order, read with
      [dict_lookup] and written with [dict_set].
    - The documents loaded with [yaml.safe_load] are typed by the schema the
      source reads them with ([Configuration], [Template]): a file whose
      content does not have that shape is outside the model. Values typed
      [Any] in the source are [PyVal]s.
    - A Python exception is a value [exn]; a computation that may raise
      returns [exn + A]; code that also mutates [self] or prints lives in
      the monad [M].
    - Everything outside the process (files, environment variables, the
      provider SDKs) is a field of [world].
    - Python floats are modelled by exact rationals: rounding and overflow
      of the cost arithmetic are not part of the model. *)

From Stdlib Require Import ZArith QArith Qround String Ascii List Bool Lia.
From stdpp Require Import base tactics option list strings pretty.

Open Scope string_scope.
Open Scope list_scope.
Set Warnings "-register-all".

(** ** Python values *)

(** Values of type [Any]: template variables and call parameters. *)
Inductive PyVal : Type :=
| VNone
| VBool (b : bool)
| VInt (z : Z)
| VFloat (q : Q)
| VStr (s : string)
| VList (l : list PyVal)
| VDict (d : list (string * PyVal)).

(** A [dict] with string keys, in insertion order. *)
Abbreviation dict V := (list (string * V)).

(** [d.get(k)]: the binding written last wins, as in a dict display. *)
Fixpoint dict_lookup {V} (k : string) (d : dict V) : option V :=
  match d with
  | [] => None
  | (k', v) :: d' =>
      match dict_lookup k d' with
      | Some x => Some x
      | None => if String.eqb k k' then Some v else None
      end
  end.

(** [k in d] *)
Definition dict_mem {V} (k : string) (d : dict V) : bool :=
  match dict_lookup k d with Some _ => true | None => false end.

(** [d[k] = v]: an existing key keeps its place, a new key goes last. *)
Definition dict_set {V} (k : string) (v : V) (d : dict V) : dict V :=
  if dict_mem k d
  then map (fun kv => if String.eqb k (fst kv) then (fst kv, v) else kv) d
  else d ++ [(k, v)].

(** [{**base, **over}] and [base.update(over)] *)
Definition dict_merge {V} (base over : dict V) : dict V :=
  fold_left (fun acc kv => dict_set (fst kv) (snd kv) acc) over base.

(** [list(d.keys())] *)
Definition dict_keys {V} (d : dict V) : list string := map fst d.

(** ** Exceptions *)

(** The subclasses of [Exception] the source names or the interpreter
    raises in it; [OtherException] stands for any other subclass, such as
    the errors of the YAML parser and of the provider SDKs. *)
Inductive exn_class : Type :=
| FileNotFoundError
| ValueError
| KeyError
| TypeError
| AttributeError
| IndexError
| OtherException (name : string).

(** An exception with its [str(e)]. *)
Record exn : Type := Exn { exn_type : exn_class; exn_str : string }.

(** The test of [except (KeyError, TypeError)]. *)
Definition is_KeyError_or_TypeError (e : exn) : bool :=
  match exn_type e with
  | KeyError | TypeError => true
  | _ => false
  end.

(** The truth value of an optional string: [None] and [''] are falsy. *)
Definition str_truthy (s : option string) : bool :=
  match s with
  | Some s => negb (String.eqb s "")
  | None => false
  end.

(** [x or y] *)
Definition py_or (x y : option string) : option string :=
  if str_truthy x then x else y.

(** ** The documents and the outside world *)

(** A value of [providers.<id>.pricing.<model>]: prices per 1000 tokens. *)
Record Pricing : Type := {
  price_input : option Q;
  price_output : option Q
}.

(** A value of [providers]. A key that the document leaves out is
    represented like the empty mapping, which is what each access in the
    source makes of it ([.get(key, {})], or a subscript whose [KeyError] is
    caught); [default_model] is [None] when left out. *)
Record ProviderConfig : Type := {
  default_model : option string;
  models : dict string;
  parameters : dict (dict PyVal);
  pricing : dict Pricing
}.

(** A value of [task_models]. *)
Record TaskModel : Type := { complexity : option string }.

(** The configuration document [ai_config.yml]. *)
Record Configuration : Type := {
  provider_priority : list string;
  providers : dict ProviderConfig;
  task_models : dict TaskModel;
  fallback : dict string
}.

(** A prompt template document [prompts/<task>.yml]. *)
Record Template : Type := {
  system_prompt : option string;
  user_prompt : option string;
  template_parameters : dict PyVal
}.

(** What is at a path: nothing, or a file on which [open] followed by
    [yaml.safe_load] raises or yields a document. *)
Inductive file_state (A : Type) : Type :=
| Absent
| Present (loaded : exn + A).
Arguments Absent {A}.
Arguments Present {A} loaded.

(** An element of [messages]. *)
Record message : Type := { role : string; msg_content : string }.

(** The keyword arguments of [client.chat.completions.create]. *)
Record openai_params : Type := {
  op_model : string;
  op_messages : list message;
  op_max_tokens : PyVal;
  op_temperature : PyVal;
  op_response_format : option PyVal
}.

(** The keyword arguments of [client.messages.create]. *)
Record anthropic_params : Type := {
  ap_model : string;
  ap_messages : list message;
  ap_max_tokens : PyVal;
  ap_temperature : PyVal;
  ap_system : option string
}.

(** [response.usage] of the OpenAI SDK. *)
Record completion_usage : Type := {
  cu_prompt_tokens : Z;
  cu_completion_tokens : Z;
  cu_total_tokens : Z
}.

(** The response of [chat.completions.create]: for each choice its
    [message.content], and the optional [usage]. *)
Record openai_response : Type := {
  choices : list (option string);
  or_usage : option completion_usage
}.

(** A block of an Anthropic response: only a text block has [.text]. *)
Inductive content_block : Type :=
| TextBlock (text : string)
| OtherBlock.

(** The response of [messages.create]. *)
Record anthropic_response : Type := {
  ar_content : list content_block;
  input_tokens : Z;
  output_tokens : Z
}.

(** A provider handle, as stored in [self.clients]. *)
Inductive handle : Type :=
| OpenAIClient (api_key : string)
| AnthropicClient (api_key : string).

(** Everything the client reads from outside the process. *)
Record world : Type := {
  (** [Path(__file__).parent] *)
  script_dir : string;
  (** [os.environ.get] *)
  environ : string -> option string;
  (** the file at a path, read as a configuration *)
  config_files : string -> file_state Configuration;
  (** the file at a path, read as a prompt template *)
  template_files : string -> file_state Template;
  (** [OpenAI(api_key=...)]: the exception it raises, if any *)
  OpenAI_new : string -> option exn;
  (** [Anthropic(api_key=...)]: the exception it raises, if any *)
  Anthropic_new : string -> option exn;
  (** [client.chat.completions.create] with the keyword arguments [params] for the client of a key *)
  chat_completions_create : string -> openai_params -> exn + openai_response;
  (** [client.messages.create] with the keyword arguments [params] for the client of a key *)
  messages_create : string -> anthropic_params -> exn + anthropic_response;
  (** [str(v)] for a float, a list or a dict *)
  str_compound : PyVal -> string;
  (** [s.format] with keyword arguments [vars], for a format string [s] that starts with a
      replacement field using a conversion, a format spec, an attribute or
      an index *)
  format_extended : string -> dict PyVal -> exn + string
}.

(** ** Strings and [str.format] *)

(** [repr(s)] of a string without quotes, backslashes or control
    characters. *)
Definition py_repr_str (s : string) : string := "'" +:+ s +:+ "'".

(** [str(v)] *)
Definition py_str (w : world) (v : PyVal) : string :=
  match v with
  | VStr s => s
  | VNone => "None"
  | VBool true => "True"
  | VBool false => "False"
  | VInt z => pretty z
  | VFloat _ | VList _ | VDict _ => str_compound w v
  end.

(** A decimal digit. *)
Definition is_digit (c : ascii) : bool :=
  (48 <=? nat_of_ascii c)%nat && (nat_of_ascii c <=? 57)%nat.

(** The value of the replacement field [{name}] when [format] receives
    keyword arguments only: an empty or numeric name indexes the empty
    tuple of positional arguments. *)
Definition format_field (w : world) (vars : dict PyVal) (name : string)
  : exn + string :=
  if String.eqb name "" then
    inl (Exn IndexError "Replacement index 0 out of range for positional args tuple")
  else if forallb is_digit (list_ascii_of_string name) then
    inl (Exn IndexError
           ("Replacement index " +:+ name +:+ " out of range for positional args tuple"))
  else
    match dict_lookup name vars with
    | Some v => inr (py_str w v)
    | None => inl (Exn KeyError (py_repr_str name))
    end.

(** [s] in front of the text [r] yields, if it yields one. *)
Definition prepend (s : string) (r : exn + string) : exn + string :=
  match r with
  | inl e => inl e
  | inr t => inr (s +:+ t)
  end.

(** The scanner of [str.format], left to right. [field] is [None] in
    literal text and [Some name] inside a replacement field whose name read
    so far is [name]. *)
Fixpoint format_scan (w : world) (vars : dict PyVal) (field : option string)
  (s : string) : exn + string :=
  match field with
  | None =>
      match s with
      | "" => inr ""
      | String "{" (String "{" r) => prepend "{" (format_scan w vars None r)
      | String "{" "" => inl (Exn ValueError "Single '{' encountered in format string")
      | String "{" r => format_scan w vars (Some "") r
      | String "}" (String "}" r) => prepend "}" (format_scan w vars None r)
      | String "}" _ => inl (Exn ValueError "Single '}' encountered in format string")
      | String c r => prepend (String c "") (format_scan w vars None r)
      end
  | Some name =>
      match s with
      | "" => inl (Exn ValueError "expected '}' before end of string")
      | String "}" r =>
          match format_field w vars name with
          | inl e => inl e
          | inr v => prepend v (format_scan w vars None r)
          end
      | String "{" _ => inl (Exn ValueError "unexpected '{' in field name")
      | String c r =>
          if existsb (Ascii.eqb c) ["!"; ":"; "."; "["]%char
          then format_extended w ("{" +:+ name +:+ s) vars
          else format_scan w vars (Some (name +:+ String c "")) r
      end
  end.

(** [s.format] with the keyword arguments [vars] *)
Definition py_format (w : world) (s : string) (vars : dict PyVal) : exn + string :=
  format_scan w vars None s.

(** ** Paths *)

(** [s.endswith(suffix)] *)
Definition ends_with (s suffix : string) : bool :=
  String.prefix (String.rev suffix) (String.rev s).

(** [dir / name], for a relative [name] *)
Definition path_join (dir name : string) : string :=
  if String.eqb dir "." then name
  else if ends_with dir "/" then dir +:+ name
  else dir +:+ "/" +:+ name.

(** A reversed path without its last component and separator. *)
Fixpoint drop_last_component (rev_path : list ascii) : list ascii :=
  match rev_path with
  | [] => []
  | c :: r => if Ascii.eqb c "/" then r else drop_last_component r
  end.

(** [Path(p).parent], for a path written with single separators and
    without a trailing one. *)
Definition path_parent (p : string) : string :=
  let chars := list_ascii_of_string p in
  if existsb (Ascii.eqb "/") chars then
    match rev (drop_last_component (rev chars)) with
    | [] => "/"
    | d => string_of_list_ascii d
    end
  else ".".

(** ** The client object and its monad *)

(** [self.usage_stats] *)
Record UsageStats : Type := {
  requests : Z;
  tokens_used : Z;
  estimated_cost : Q
}.

(** The attributes of an [AIClient]. *)
Record AIClient : Type := {
  config_path : string;
  config : Configuration;
  prompts_dir : string;
  clients : dict handle;
  active_provider : option string;
  usage_stats : UsageStats
}.

(** Assignments to the attributes that change after construction. *)
Definition set_clients (c : dict handle) (self : AIClient) : AIClient :=
  {| config_path := config_path self; config := config self;
     prompts_dir := prompts_dir self; clients := c;
     active_provider := active_provider self; usage_stats := usage_stats self |}.

Definition set_active_provider (p : option string) (self : AIClient) : AIClient :=
  {| config_path := config_path self; config := config self;
     prompts_dir := prompts_dir self; clients := clients self;
     active_provider := p; usage_stats := usage_stats self |}.

Definition set_usage_stats (u : UsageStats) (self : AIClient) : AIClient :=
  {| config_path := config_path self; config := config self;
     prompts_dir := prompts_dir self; clients := clients self;
     active_provider := active_provider self; usage_stats := u |}.

(** The mutable state of a run: the client and what was printed. *)
Record state : Type := { self : AIClient; stdout : list string }.

(** A computation over a state [S] that returns or raises. The state is
    kept when an exception is raised: Python does not undo assignments. *)
Definition M (S A : Type) : Type := S -> (exn + A) * S.

Definition ret {S A} (a : A) : M S A := fun s => (inr a, s).

Definition bind {S A B} (m : M S A) (k : A -> M S B) : M S B :=
  fun s =>
    match m s with
    | (inl e, s') => (inl e, s')
    | (inr a, s') => k a s'
    end.

Definition lift {S A} (r : exn + A) : M S A := fun s => (r, s).

Definition gets {S A} (f : S -> A) : M S A := fun s => (inr (f s), s).

Definition modify {S} (f : S -> S) : M S unit := fun s => (inr tt, f s).

(** [try: body / except Exception as e: handler e] *)
Definition try_except {S A} (body : M S A) (handler : exn -> M S A) : M S A :=
  fun s =>
    match body s with
    | (inl e, s') => handler e s'
    | (inr a, s') => (inr a, s')
    end.

(** [for x in l: body x] *)
Fixpoint for_each {S X} (l : list X) (body : X -> M S unit) : M S unit :=
  match l with
  | [] => ret tt
  | x :: l' => bind (body x) (fun _ => for_each l' body)
  end.

Declare Scope monad_scope.
Delimit Scope monad_scope with monad.
Notation "x <- m ;; k" := (bind m (fun x => k))
  (at level 100, m at next level, right associativity) : monad_scope.
Notation "m ;; k" := (bind m (fun _ => k))
  (at level 100, right associativity) : monad_scope.

(** Sequencing of computations that only return or raise. *)
Definition and_then {A B} (r : exn + A) (k : A -> exn + B) : exn + B :=
  match r with
  | inl e => inl e
  | inr a => k a
  end.
Notation "'let?' x := r 'in' k" := (and_then r (fun x => k))
  (at level 100, x name, r at next level, right associativity).

(** [print(line)] when the state is the standard output alone. *)
Definition print_out (line : string) : M (list string) unit :=
  modify (fun out => out ++ [line]).

(** [print(line)] *)
Definition print (line : string) : M state unit :=
  modify (fun st => {| self := self st; stdout := stdout st ++ [line] |}).

(** An assignment to an attribute of [self]. *)
Definition update_self (f : AIClient -> AIClient) : M state unit :=
  modify (fun st => {| self := f (self st); stdout := stdout st |}).

(** [d[k]] *)
Definition subscript {V} (d : dict V) (k : string) : exn + V :=
  match dict_lookup k d with
  | Some v => inr v
  | None => inl (Exn KeyError (py_repr_str k))
  end.

(** What [open] followed by [yaml.safe_load] does at a path. *)
Definition open_yaml {A} (files : string -> file_state A) (path : string) : exn + A :=
  match files path with
  | Absent =>
      inl (Exn FileNotFoundError
             ("[Errno 2] No such file or directory: " +:+ py_repr_str path))
  | Present loaded => loaded
  end.

(** [path.exists()] *)
Definition exists_ {A} (files : string -> file_state A) (path : string) : bool :=
  match files path with
  | Absent => false
  | Present _ => true
  end.

(** ** The methods of [AIClient] *)

Local Open Scope monad_scope.

(** The configuration [_load_config] returns when loading fails. *)
Definition minimal_fallback_config : Configuration :=
  {| provider_priority := ["openai"; "anthropic"];
     providers :=
       [("openai",
          {| default_model := Some "gpt-4o-mini"; models := [];
             parameters := []; pricing := [] |});
        ("anthropic",
          {| default_model := Some "claude-3-5-haiku-20241022"; models := [];
             parameters := []; pricing := [] |})];
     task_models := [];
     fallback := [("on_failure", "rule_based")] |}.

(** The rendered prompt, as [render_prompt] returns it. *)
Record prompt_data : Type := {
  pd_system : string;
  pd_user : string;
  pd_template : Template
}.

(** The [usage] entry of a call result. *)
Record Usage : Type := {
  prompt_tokens : Z;
  completion_tokens : Z;
  total_tokens : Z
}.

(** The dict [call_ai] returns; an entry the dict does not have is [None]
    in [cr_usage], [cr_error] and [cr_task], while [cr_content] and
    [cr_model] are entries that hold Python's [None] when they are [None]. *)
Record CallResult : Type := {
  cr_content : option string;
  cr_model : option string;
  cr_provider : string;
  cr_usage : option Usage;
  cr_error : option string;
  cr_task : option string
}.

(** The dict [get_usage_summary] returns. *)
Record UsageSummary : Type := {
  requests_made : Z;
  summary_total_tokens : Z;
  estimated_cost_usd : Q;
  summary_active_provider : option string;
  available_providers : list string
}.

(** [round(x, 4)]: to the nearest multiple of 1/10000, ties to even. *)
Definition py_round4 (x : Q) : Q :=
  let t := (x * 10000)%Q in
  let f := Qfloor t in
  let r := (t - inject_Z f)%Q in
  let n :=
    match (r ?= 1 # 2)%Q with
    | Lt => f
    | Gt => (f + 1)%Z
    | Eq => if Z.even f then f else (f + 1)%Z
    end in
  (inject_Z n / 10000)%Q.

Section Methods.

Variable w : world.

(** [AIClient._find_config_file] *)
Definition _find_config_file : exn + string :=
  let config_file := path_join (script_dir w) "ai_config.yml" in
  if negb (exists_ (config_files w) config_file) then
    inl (Exn FileNotFoundError ("AI config file not found: " +:+ config_file))
  else inr config_file.

(** [AIClient._load_config], reading [self.config_path] *)
Definition _load_config (config_path : string) : M (list string) Configuration :=
  try_except
    (config <- lift (open_yaml (config_files w) config_path) ;;
     (if ends_with config_path "ai_config.yml"
      then print_out "âœ“ AI configuration loaded"
      else ret tt) ;;
     ret config)
    (fun e =>
       print_out ("Error loading config: " +:+ exn_str e) ;;
       ret minimal_fallback_config).

(** The body of the loop of [_setup_clients], for one [provider]. *)
Definition setup_provider (provider : string) : M state unit :=
  if String.eqb provider "openai" then
    let api_key := environ w "OPENAI_API_KEY" in
    match api_key with
    | Some key =>
        if str_truthy api_key then
          try_except
            (lift (match OpenAI_new w key with
                   | Some e => inl e
                   | None => inr (OpenAIClient key)
                   end) ;;
             update_self (fun self =>
               set_clients (dict_set "openai" (OpenAIClient key) (clients self)) self) ;;
             active <- gets (fun st => active_provider (self st)) ;;
             (if negb (str_truthy active)
              then update_self (set_active_provider (Some "openai"))
              else ret tt) ;;
             print "âœ“ OpenAI client initialized")
            (fun e => print ("Warning: OpenAI client failed: " +:+ exn_str e))
        else ret tt
    | None => ret tt
    end
  else if String.eqb provider "anthropic" then
    let api_key := environ w "ANTHROPIC_API_KEY" in
    match api_key with
    | Some key =>
        if str_truthy api_key then
          try_except
            (lift (match Anthropic_new w key with
                   | Some e => inl e
                   | None => inr (AnthropicClient key)
                   end) ;;
             update_self (fun self =>
               set_clients (dict_set "anthropic" (AnthropicClient key) (clients self)) self) ;;
             active <- gets (fun st => active_provider (self st)) ;;
             (if negb (str_truthy active)
              then update_self (set_active_provider (Some "anthropic"))
              else ret tt) ;;
             print "âœ“ Anthropic client initialized")
            (fun e => print ("Warning: Anthropic client failed: " +:+ exn_str e))
        else ret tt
    | None => ret tt
    end
  else ret tt.

(** [AIClient._setup_clients] *)
Definition _setup_clients : M state unit :=
  cfg <- gets (fun st => config (self st)) ;;
  for_each (provider_priority cfg) setup_provider ;;
  active <- gets (fun st => active_provider (self st)) ;;
  if negb (str_truthy active)
  then print "Warning: No AI providers available. Using fallback behavior."
  else ret tt.

(** [AIClient.__init__]. The attribute [usage_stats] is assigned last;
    while [_setup_clients] runs, which does not read it, the model holds
    its later value. *)
Definition __init__ (config_path : option string) : M (list string) AIClient :=
  config_path <- (if str_truthy config_path
                  then ret (default "" config_path)
                  else lift _find_config_file) ;;
  config <- _load_config config_path ;;
  let prompts_dir := path_join (path_parent config_path) "prompts" in
  let self0 :=
    {| config_path := config_path; config := config; prompts_dir := prompts_dir;
       clients := []; active_provider := None;
       usage_stats := {| requests := 0; tokens_used := 0; estimated_cost := 0 |} |} in
  fun out =>
    match _setup_clients {| self := self0; stdout := out |} with
    | (inl e, st) => (inl e, stdout st)
    | (inr _, st) =>
        (inr (set_usage_stats
                {| requests := 0; tokens_used := 0; estimated_cost := 0 |}
                (self st)),
         stdout st)
    end.

(** [AIClient.load_prompt_template] *)
Definition load_prompt_template (self : AIClient) (template_name : string)
  : exn + Template :=
  let template_file := path_join (prompts_dir self) (template_name +:+ ".yml") in
  if negb (exists_ (template_files w) template_file) then
    inl (Exn FileNotFoundError ("Prompt template not found: " +:+ template_file))
  else
    match open_yaml (template_files w) template_file with
    | inr template => inr template
    | inl e =>
        inl (Exn ValueError
               ("Error loading template " +:+ template_name +:+ ": " +:+ exn_str e))
    end.

(** [AIClient.render_prompt] *)
Definition render_prompt (self : AIClient) (template_name : string)
  (variables : dict PyVal) : exn + prompt_data :=
  let? template := load_prompt_template self template_name in
  let? system_prompt :=
    py_format w (default "" (system_prompt template)) variables in
  let? user_prompt :=
    py_format w (default "" (user_prompt template)) variables in
  inr {| pd_system := system_prompt; pd_user := user_prompt;
         pd_template := template |}.

(** [AIClient.get_model_for_task]; the result [inr None] is Python's
    [None]. *)
Definition get_model_for_task (self : AIClient) (task_name : string)
  (provider : option string) : exn + option string :=
  let provider := py_or provider (active_provider self) in
  if negb (str_truthy provider)
     || negb (dict_mem (default "" provider) (providers (config self)))
  then inr None
  else
    let task_config :=
      default {| complexity := None |}
              (dict_lookup task_name (task_models (config self))) in
    let complexity := default "standard" (complexity task_config) in
    let? provider_config := subscript (providers (config self)) (default "" provider) in
    inr (match dict_lookup complexity (models provider_config) with
         | Some model => Some model
         | None => default_model provider_config
         end).

(** The [defaults] of [get_model_parameters]. *)
Definition defaults : dict PyVal :=
  [("max_tokens", VInt 1500); ("temperature", VFloat (3 # 10)); ("timeout", VInt 30)].

(** [AIClient.get_model_parameters] *)
Definition get_model_parameters (self : AIClient) (model provider : string)
  : dict PyVal :=
  let provider_parameters :=
    match dict_lookup provider (providers (config self)) with
    | Some provider_config => parameters provider_config
    | None => []
    end in
  let parameters := default [] (dict_lookup model provider_parameters) in
  dict_merge defaults parameters.

(** [d[k]] for an entry of a pricing record *)
Definition price (entry : option Q) (k : string) : exn + Q :=
  match entry with
  | Some p => inr p
  | None => inl (Exn KeyError (py_repr_str k))
  end.

(** [AIClient.estimate_cost] *)
Definition estimate_cost (self : AIClient) (provider model : string)
  (input_tokens output_tokens : Z) : exn + Q :=
  match
    (let? provider_config := subscript (providers (config self)) provider in
     let? pricing := subscript (pricing provider_config) model in
     let? input_price := price (price_input pricing) "input" in
     let input_cost := (inject_Z input_tokens / 1000 * input_price)%Q in
     let? output_price := price (price_output pricing) "output" in
     let output_cost := (inject_Z output_tokens / 1000 * output_price)%Q in
     inr (input_cost + output_cost)%Q)
  with
  | inr cost => inr cost
  | inl e => if is_KeyError_or_TypeError e then inr 0%Q else inl e
  end.

(** [AIClient._fallback_response] *)
Definition _fallback_response (task_name : string) : CallResult :=
  {| cr_content := None;
     cr_model := None;
     cr_provider := "fallback";
     cr_usage := None;
     cr_error := Some "AI provider not available";
     cr_task := Some task_name |}.

(** [d.get(k, v)] on the call parameters *)
Definition param (params : dict PyVal) (k : string) (v : PyVal) : PyVal :=
  default v (dict_lookup k params).

(** The keyword arguments [_make_api_call] builds for OpenAI. *)
Definition openai_request (model : string) (prompt : prompt_data)
  (params : dict PyVal) : openai_params :=
  let messages :=
    (if negb (String.eqb (pd_system prompt) "")
     then [{| role := "system"; msg_content := pd_system prompt |}]
     else [])
    ++ [{| role := "user"; msg_content := pd_user prompt |}] in
  {| op_model := model;
     op_messages := messages;
     op_max_tokens := param params "max_tokens" (VInt 1500);
     op_temperature := param params "temperature" (VFloat (3 # 10));
     op_response_format := dict_lookup "response_format" params |}.

(** The keyword arguments [_make_api_call] builds for Anthropic. *)
Definition anthropic_request (model : string) (prompt : prompt_data)
  (params : dict PyVal) : anthropic_params :=
  {| ap_model := model;
     ap_messages := [{| role := "user"; msg_content := pd_user prompt |}];
     ap_max_tokens := param params "max_tokens" (VInt 1500);
     ap_temperature := param params "temperature" (VFloat (3 # 10));
     ap_system :=
       if negb (String.eqb (pd_system prompt) "")
       then Some (pd_system prompt) else None |}.

(** [l[0]] *)
Definition first_item {A} (l : list A) : exn + A :=
  match l with
  | x :: _ => inr x
  | [] => inl (Exn IndexError "list index out of range")
  end.

(** [client.chat.completions.create]: only an OpenAI client has [chat]. *)
Definition create_chat_completion (client : handle) (request : openai_params)
  : exn + openai_response :=
  match client with
  | OpenAIClient key => chat_completions_create w key request
  | AnthropicClient _ =>
      inl (Exn AttributeError "'Anthropic' object has no attribute 'chat'")
  end.

(** [client.messages.create]: only an Anthropic client has [messages]. *)
Definition create_message (client : handle) (request : anthropic_params)
  : exn + anthropic_response :=
  match client with
  | AnthropicClient key => messages_create w key request
  | OpenAIClient _ =>
      inl (Exn AttributeError "'OpenAI' object has no attribute 'messages'")
  end.

(** [AIClient._make_api_call] *)
Definition _make_api_call (self : AIClient) (provider model : string)
  (prompt : prompt_data) (params : dict PyVal) : exn + CallResult :=
  if String.eqb provider "openai" then
    let? client := subscript (clients self) "openai" in
    let? response := create_chat_completion client (openai_request model prompt params) in
    let? content := first_item (choices response) in
    let? usage :=
      match or_usage response with
      | Some u => inr u
      | None =>
          inl (Exn AttributeError "'NoneType' object has no attribute 'prompt_tokens'")
      end in
    inr {| cr_content := content;
           cr_model := Some model;
           cr_provider := provider;
           cr_usage := Some {| prompt_tokens := cu_prompt_tokens usage;
                               completion_tokens := cu_completion_tokens usage;
                               total_tokens := cu_total_tokens usage |};
           cr_error := None;
           cr_task := None |}
  else if String.eqb provider "anthropic" then
    let? client := subscript (clients self) "anthropic" in
    let? response := create_message client (anthropic_request model prompt params) in
    let? block := first_item (ar_content response) in
    let? text :=
      match block with
      | TextBlock text => inr text
      | OtherBlock => inl (Exn AttributeError "object has no attribute 'text'")
      end in
    inr {| cr_content := Some text;
           cr_model := Some model;
           cr_provider := provider;
           cr_usage := Some {| prompt_tokens := input_tokens response;
                               completion_tokens := output_tokens response;
                               total_tokens :=
                                 (input_tokens response + output_tokens response)%Z |};
           cr_error := None;
           cr_task := None |}
  else inl (Exn ValueError ("Unsupported provider: " +:+ provider)).

(** [self.usage_stats['requests'] += 1] *)
Definition add_request (self : AIClient) : AIClient :=
  let u := usage_stats self in
  set_usage_stats
    {| requests := requests u + 1; tokens_used := tokens_used u;
       estimated_cost := estimated_cost u |} self.

(** [self.usage_stats['tokens_used'] += n] *)
Definition add_tokens (n : Z) (self : AIClient) : AIClient :=
  let u := usage_stats self in
  set_usage_stats
    {| requests := requests u; tokens_used := tokens_used u + n;
       estimated_cost := estimated_cost u |} self.

(** [self.usage_stats['estimated_cost'] += cost] *)
Definition add_cost (cost : Q) (self : AIClient) : AIClient :=
  let u := usage_stats self in
  set_usage_stats
    {| requests := requests u; tokens_used := tokens_used u;
       estimated_cost := (estimated_cost u + cost)%Q |} self.

(** [AIClient.call_ai] *)
Definition call_ai (task_name : string) (template_variables : dict PyVal)
  (provider : option string) : M state CallResult :=
  self0 <- gets self ;;
  let provider := py_or provider (active_provider self0) in
  if negb (str_truthy provider)
     || negb (dict_mem (default "" provider) (clients self0))
  then ret (_fallback_response task_name)
  else
    let provider := default "" provider in
    try_except
      (self1 <- gets self ;;
       prompt <- lift (render_prompt self1 task_name template_variables) ;;
       model <- lift (get_model_for_task self1 task_name (Some provider)) ;;
       if negb (str_truthy model) then ret (_fallback_response task_name)
       else
         let model := default "" model in
         let params := get_model_parameters self1 model provider in
         let template_params := template_parameters (pd_template prompt) in
         let params := dict_merge params template_params in
         result <- lift (_make_api_call self1 provider model prompt params) ;;
         update_self add_request ;;
         match cr_usage result with
         | Some usage =>
             update_self (add_tokens (total_tokens usage)) ;;
             self2 <- gets self ;;
             cost <- lift (estimate_cost self2 provider model
                             (prompt_tokens usage) (completion_tokens usage)) ;;
             update_self (add_cost cost)
         | None => ret tt
         end ;;
         ret result)
      (fun e =>
         print ("AI call failed for " +:+ task_name +:+ ": " +:+ exn_str e) ;;
         ret (_fallback_response task_name)).

(** [AIClient.get_usage_summary] *)
Definition get_usage_summary (self : AIClient) : UsageSummary :=
  {| requests_made := requests (usage_stats self);
     summary_total_tokens := tokens_used (usage_stats self);
     estimated_cost_usd := py_round4 (estimated_cost (usage_stats self));
     summary_active_provider := active_provider self;
     available_providers := dict_keys (clients self) |}.

(** *** The call that [call_ai] dispatches *)

(** What the body of [call_ai] has computed when it reaches
    [_make_api_call]: either no model resolved, or the rendered prompt, the
    model and the resolved parameters. *)
Inductive prepared : Type :=
| NoModel
| Ready (prompt : prompt_data) (model : string) (params : dict PyVal).

Definition prepare_call (self : AIClient) (task_name : string)
  (template_variables : dict PyVal) (provider : string) : exn + prepared :=
  let? prompt := render_prompt self task_name template_variables in
  let? model := get_model_for_task self task_name (Some provider) in
  if negb (str_truthy model) then inr NoModel
  else
    let model := default "" model in
    inr (Ready prompt model
           (dict_merge (get_model_parameters self model provider)
                       (template_parameters (pd_template prompt)))).

(** The provider [call_ai] works with: the argument, or the active one. *)
Definition effective_provider (self : AIClient) (provider : option string)
  : option string :=
  let provider := py_or provider (active_provider self) in
  if negb (str_truthy provider)
     || negb (dict_mem (default "" provider) (clients self))
  then None
  else provider.

End Methods.




(** ** Definitions used to state the properties *)

(** The credential of a provider: the value of its environment variable,
    when the variable is set and not empty. *)
Definition credential (w : world) (provider : string) : option string :=
  let variable :=
    if String.eqb provider "openai" then Some "OPENAI_API_KEY"
    else if String.eqb provider "anthropic" then Some "ANTHROPIC_API_KEY"
    else None in
  match variable with
  | Some name =>
      match environ w name with
      | Some key => if String.eqb key "" then None else Some key
      | None => None
      end
  | None => None
  end.

(** The outcome of constructing the handle of a provider from a key. *)
Definition construct (w : world) (provider key : string) : exn + handle :=
  if String.eqb provider "openai" then
    match OpenAI_new w key with
    | Some e => inl e
    | None => inr (OpenAIClient key)
    end
  else
    match Anthropic_new w key with
    | Some e => inl e
    | None => inr (AnthropicClient key)
    end.

(** The handle a provider gets: its credential is present and the
    construction succeeds. *)
Definition handle_of (w : world) (provider : string) : option handle :=
  match credential w provider with
  | Some key =>
      match construct w provider key with
      | inr h => Some h
      | inl _ => None
      end
  | None => None
  end.

(** The provider gets a handle. *)
Definition activates (w : world) (provider : string) : bool :=
  match handle_of w provider with Some _ => true | None => false end.

(** What [_setup_clients] prints for one provider: nothing without a
    credential, otherwise one line for the construction it attempted. *)
Definition report (w : world) (provider : string) : list string :=
  match credential w provider with
  | Some key =>
      let name := if String.eqb provider "openai" then "OpenAI" else "Anthropic" in
      match construct w provider key with
      | inr _ => ["âœ“ " +:+ name +:+ " client initialized"]
      | inl e => ["Warning: " +:+ name +:+ " client failed: " +:+ exn_str e]
      end
  | None => []
  end.

(** The registry after the providers [ps] were set up in order. *)
Definition registry_after (w : world) (ps : list string) (clients : dict handle)
  : dict handle :=
  fold_left
    (fun acc p =>
       match handle_of w p with
       | Some h => dict_set p h acc
       | None => acc
       end)
    ps clients.

(** The first provider of [ps] that activates. *)
Definition first_active (w : world) (ps : list string) : option string :=
  head (List.filter (activates w) ps).

(** The state after a step of the registry loop. *)
Definition after_provider (w : world) (p : string) (st : state) : state :=
  {| self :=
       set_active_provider
         (if str_truthy (active_provider (self st)) then active_provider (self st)
          else if activates w p then Some p else active_provider (self st))
         (set_clients
            (match handle_of w p with
             | Some h => dict_set p h (clients (self st))
             | None => clients (self st)
             end)
            (self st));
     stdout := stdout st ++ report w p |}.

(** The state after the providers [ps] went through the registry loop. *)
Definition after_providers (w : world) (ps : list string) (st : state) : state :=
  fold_left (fun s p => after_provider w p s) ps st.

(** A provider the registry knows how to construct. *)
Definition known_provider (p : string) : Prop := p = "openai" \/ p = "anthropic".

(** The client as [__init__] has it when it calls [_setup_clients]. *)
Definition empty_registry (c : AIClient) : AIClient :=
  set_active_provider None (set_clients [] c).

(** The line [_setup_clients] prints when no provider is active. *)
Definition no_provider_warning : string :=
  "Warning: No AI providers available. Using fallback behavior.".

(** *** Construction *)

(** The path [__init__] loads the configuration from. *)
Definition resolved_config_path (w : world) (config_path : option string)
  : exn + string :=
  if str_truthy config_path then inr (default "" config_path)
  else _find_config_file w.

(** The configuration [_load_config] returns for a path. *)
Definition loaded_config (w : world) (path : string) : Configuration :=
  match open_yaml (config_files w) path with
  | inr cfg => cfg
  | inl _ => minimal_fallback_config
  end.

(** What [_load_config] prints for a path. *)
Definition load_report (w : world) (path : string) : list string :=
  match open_yaml (config_files w) path with
  | inr _ =>
      if ends_with path "ai_config.yml" then ["âœ“ AI configuration loaded"] else []
  | inl e => ["Error loading config: " +:+ exn_str e]
  end.

(** The usage statistics of a new client. *)
Definition no_usage : UsageStats :=
  {| requests := 0; tokens_used := 0; estimated_cost := 0 |}.

(** The client when [__init__] calls [_setup_clients]. *)
Definition initial_self (w : world) (path : string) : AIClient :=
  {| config_path := path; config := loaded_config w path;
     prompts_dir := path_join (path_parent path) "prompts";
     clients := []; active_provider := None; usage_stats := no_usage |}.

(** The invariant of the registry: only the two known providers have a
    handle, and the active provider, when set, is one that has a handle. *)
Definition registry_ok (c : AIClient) : Prop :=
  (forall p, dict_mem p (clients c) = true -> known_provider p) /\
  (active_provider c = None \/
   exists p, active_provider c = Some p /\ known_provider p /\
             dict_mem p (clients c) = true).

(** The test of the last branch of [_make_api_call]. *)
Definition unsupported (provider : string) : bool :=
  negb (String.eqb provider "openai") && negb (String.eqb provider "anthropic").

(** *** Dispatch *)

(** The line [call_ai] prints when it catches [e]. *)
Definition failure_line (task_name : string) (e : exn) : string :=
  "AI call failed for " +:+ task_name +:+ ": " +:+ exn_str e.

(** The state after [line] was printed. *)
Definition log (line : string) (st : state) : state :=
  {| self := self st; stdout := stdout st ++ [line] |}.

(** The cost [call_ai] adds for a usage. *)
Definition cost_of (self : AIClient) (provider model : string) (u : Usage) : Q :=
  match estimate_cost self provider model (prompt_tokens u) (completion_tokens u) with
  | inr cost => cost
  | inl _ => 0%Q
  end.

(** The state after [call_ai] has tracked the usage of a result. *)
Definition tracked (provider model : string) (result : CallResult) (st : state)
  : state :=
  match cr_usage result with
  | Some u =>
      let counted := add_tokens (total_tokens u) (add_request (self st)) in
      {| self := add_cost (cost_of counted provider model u) counted;
         stdout := stdout st |}
  | None => {| self := add_request (self st); stdout := stdout st |}
  end.

(** The SDK call of the provider raises [e] on the request [call_ai]
    sends. *)
Definition api_raises (w : world) (self : AIClient) (provider model : string)
  (prompt : prompt_data) (params : dict PyVal) (e : exn) : Prop :=
  (provider = "openai" /\
   exists client, dict_lookup "openai" (clients self) = Some client /\
     create_chat_completion w client (openai_request model prompt params) = inl e)
  \/
  (provider = "anthropic" /\
   exists client, dict_lookup "anthropic" (clients self) = Some client /\
     create_message w client (anthropic_request model prompt params) = inl e).



(** *** Model and parameter resolution, as the specification words them *)

(** The complexity tag of a task: [task_models[task].complexity], or
    ["standard"]. *)
Definition task_complexity (cfg : Configuration) (task_name : string) : string :=
  match dict_lookup task_name (task_models cfg) with
  | Some tm => default "standard" (complexity tm)
  | None => "standard"
  end.

(** No model for an unset or unknown provider; otherwise
    [providers[provider].models[complexity]], or the provider's default
    model when the tag has no entry. *)
Definition resolve_model (cfg : Configuration) (task_name : string)
  (provider : option string) : option string :=
  match provider with
  | None => None
  | Some p =>
      if String.eqb p "" then None
      else
        match dict_lookup p (providers cfg) with
        | None => None
        | Some pc =>
            match dict_lookup (task_complexity cfg task_name) (models pc) with
            | Some m => Some m
            | None => default_model pc
            end
        end
  end.

(** The provider/model-specific parameter overrides of the configuration. *)
Definition model_overrides (cfg : Configuration) (provider model : string)
  : dict PyVal :=
  match dict_lookup provider (providers cfg) with
  | Some pc => default [] (dict_lookup model (parameters pc))
  | None => []
  end.

(** Three layers, the highest first: a key takes its value from the first
    layer that has it. *)
Definition layered (k : string) (top middle bottom : dict PyVal) : option PyVal :=
  match dict_lookup k top with
  | Some v => Some v
  | None =>
      match dict_lookup k middle with
      | Some v => Some v
      | None => dict_lookup k bottom
      end
  end.

(** *** A sample deployment *)

Definition sample_config : Configuration :=
  {| provider_priority := ["openai"; "anthropic"];
     providers :=
       [("openai",
          {| default_model := Some "gpt-4o-mini";
             models := [("standard", "gpt-4o-mini"); ("deep", "gpt-4o")];
             parameters := [("gpt-4o-mini", [("temperature", VFloat (1 # 2))])];
             pricing :=
               [("gpt-4o-mini",
                  {| price_input := Some (15 # 100000);
                     price_output := Some (60 # 100000) |})] |});
        ("anthropic",
          {| default_model := Some "claude-3-5-haiku-20241022";
             models := [("deep", "claude-3-5-sonnet-20241022")];
             parameters := []; pricing := [] |})];
     task_models :=
       [("pr_analysis", {| complexity := Some "standard" |});
        ("release_analysis", {| complexity := Some "deep" |})];
     fallback := [("on_failure", "rule_based")] |}.

Definition sample_template : Template :=
  {| system_prompt := Some "You review pull requests of {repo}.";
     user_prompt := Some "Analyze: {pr_title}";
     template_parameters := [("max_tokens", VInt 800)] |}.

Definition sample_variables : dict PyVal :=
  [("repo", VStr "debian_template_build"); ("pr_title", VStr "Fix preseed")].

(** Both credentials are set; OpenAI answers, reporting a total that is not
    the sum of its two counts; Anthropic is unreachable. *)
Definition sample_world : world :=
  {| script_dir := "/repo/.github/scripts";
     environ := fun name =>
       if String.eqb name "OPENAI_API_KEY" then Some "sk-openai"
       else if String.eqb name "ANTHROPIC_API_KEY" then Some "sk-anthropic"
       else None;
     config_files := fun path =>
       if String.eqb path "/repo/.github/scripts/ai_config.yml"
       then Present (inr sample_config) else Absent;
     template_files := fun path =>
       if String.eqb path "/repo/.github/scripts/prompts/pr_analysis.yml"
       then Present (inr sample_template) else Absent;
     OpenAI_new := fun _ => None;
     Anthropic_new := fun _ => None;
     chat_completions_create := fun _ _ =>
       inr {| choices := [Some "Looks good."];
              or_usage := Some {| cu_prompt_tokens := 3; cu_completion_tokens := 4;
                                  cu_total_tokens := 9 |} |};
     messages_create := fun _ _ =>
       inl (Exn (OtherException "APIConnectionError") "Connection error.");
     str_compound := fun _ => "";
     format_extended := fun _ _ => inl (Exn ValueError "Invalid format specifier") |}.

(** The sample deployment without credentials. *)
Definition world_without_credentials : world :=
  {| script_dir := script_dir sample_world;
     environ := fun _ => None;
     config_files := config_files sample_world;
     template_files := template_files sample_world;
     OpenAI_new := OpenAI_new sample_world;
     Anthropic_new := Anthropic_new sample_world;
     chat_completions_create := chat_completions_create sample_world;
     messages_create := messages_create sample_world;
     str_compound := str_compound sample_world;
     format_extended := format_extended sample_world |}.

(** The sample deployment without its configuration file. *)
Definition world_without_config : world :=
  {| script_dir := script_dir sample_world;
     environ := environ sample_world;
     config_files := fun _ => Absent;
     template_files := template_files sample_world;
     OpenAI_new := OpenAI_new sample_world;
     Anthropic_new := Anthropic_new sample_world;
     chat_completions_create := chat_completions_create sample_world;
     messages_create := messages_create sample_world;
     str_compound := str_compound sample_world;
     format_extended := format_extended sample_world |}.

(** The sample deployment when the OpenAI constructor rejects the key. *)
Definition world_openai_rejected : world :=
  {| script_dir := script_dir sample_world;
     environ := environ sample_world;
     config_files := config_files sample_world;
     template_files := template_files sample_world;
     OpenAI_new := fun _ => Some (Exn (OtherException "OpenAIError") "invalid api key");
     Anthropic_new := Anthropic_new sample_world;
     chat_completions_create := chat_completions_create sample_world;
     messages_create := messages_create sample_world;
     str_compound := str_compound sample_world;
     format_extended := format_extended sample_world |}.

(** The client [__init__] builds in the sample deployment. *)
Definition sample_client : AIClient :=
  {| config_path := "/repo/.github/scripts/ai_config.yml";
     config := sample_config;
     prompts_dir := "/repo/.github/scripts/prompts";
     clients := [("openai", OpenAIClient "sk-openai");
                 ("anthropic", AnthropicClient "sk-anthropic")];
     active_provider := Some "openai";
     usage_stats := no_usage |}.

Definition sample_state : state := {| self := sample_client; stdout := [] |}.

(** *** Format strings *)

(** A character that may stand in the name of a replacement field that only
    names a variable. *)
Definition plain_char (c : ascii) : bool :=
  negb (existsb (Ascii.eqb c) ["{"; "}"; "!"; ":"; "."; "["]%char).

(** Text without braces. *)
Definition literal_text (s : string) : bool :=
  forallb (fun c => negb (Ascii.eqb c "{" || Ascii.eqb c "}"))
          (list_ascii_of_string s).

(** The name of a keyword argument, as a replacement field holds it. *)
Definition plain_name (name : string) : bool :=
  negb (String.eqb name "")
  && negb (forallb is_digit (list_ascii_of_string name))
  && forallb plain_char (list_ascii_of_string name).

(** *** Further definitions for the properties of the client *)

(** The two prices the configuration has for a provider and a model. *)
Definition configured_prices (cfg : Configuration) (provider model : string)
  : option (Q * Q) :=
  match dict_lookup provider (providers cfg) with
  | Some pc =>
      match dict_lookup model (pricing pc) with
      | Some pr =>
          match price_input pr, price_output pr with
          | Some i, Some o => Some (i, o)
          | _, _ => None
          end
      | None => None
      end
  | None => None
  end.




(** Text with every brace doubled. *)
Fixpoint escape_braces (s : string) : string :=
  match s with
  | "" => ""
  | String c r =>
      if Ascii.eqb c "{" then String "{" (String "{" (escape_braces r))
      else if Ascii.eqb c "}" then String "}" (String "}" (escape_braces r))
      else String c (escape_braces r)
  end.

(** The client [__init__] builds when the OpenAI constructor rejects the
    key. *)
Definition anthropic_only_client : AIClient :=
  {| config_path := "/repo/.github/scripts/ai_config.yml";
     config := sample_config;
     prompts_dir := "/repo/.github/scripts/prompts";
     clients := [("anthropic", AnthropicClient "sk-anthropic")];
     active_provider := Some "anthropic";
     usage_stats := no_usage |}.

(** A client with handles whose configuration names no provider. *)
Definition unconfigured_client : AIClient :=
  {| config_path := "/repo/.github/scripts/ai_config.yml";
     config := {| provider_priority := ["openai"; "anthropic"]; providers := [];
                  task_models := []; fallback := [] |};
     prompts_dir := "/repo/.github/scripts/prompts";
     clients := [("openai", OpenAIClient "sk-openai")];
     active_provider := Some "openai";
     usage_stats := no_usage |}.

(** The sample deployment with a template file that cannot be parsed. *)
Definition world_unreadable_template : world :=
  {| script_dir := script_dir sample_world;
     environ := environ sample_world;
     config_files := config_files sample_world;
     template_files := fun path =>
       if String.eqb path "/repo/.github/scripts/prompts/pr_analysis.yml"
       then Present (inl (Exn (OtherException "ScannerError")
                              "mapping values are not allowed here"))
       else Absent;
     OpenAI_new := OpenAI_new sample_world;
     Anthropic_new := Anthropic_new sample_world;
     chat_completions_create := chat_completions_create sample_world;
     messages_create := messages_create sample_world;
     str_compound := str_compound sample_world;
     format_extended := format_extended sample_world |}.

(** * The scripts that use the client *)

(** ** Strings *)

(** The line feed. *)
Definition LF : string := String (ascii_of_nat 10) "".

(** [needle in hay] *)
Fixpoint contains (needle hay : string) : bool :=
  String.prefix needle hay
  || match hay with
     | "" => false
     | String _ rest => contains needle rest
     end.

(** [s.startswith(prefix)] *)
Definition starts_with (s prefix : string) : bool := String.prefix prefix s.

(** [sep.join(parts)] *)
Fixpoint join (sep : string) (parts : list string) : string :=
  match parts with
  | [] => ""
  | [part] => part
  | part :: rest => part +:+ sep +:+ join sep rest
  end.

(** [any(word in text for word in words)] *)
Definition any_in (words : list string) (text : string) : bool :=
  existsb (fun word => contains word text) words.

(** ** [ai_release_analyzer.py]: the rule-based analysis *)

(** What the analysis reads of a [git.Commit]. *)
Record commit : Type := { commit_message : string; commit_summary : string }.

(** The dict [rule_based_analysis] returns. *)
Record release_analysis : Type := {
  should_release : bool;
  version_bump : string;
  reasoning : string;
  breaking_changes : list string;
  new_features : list string;
  bug_fixes : list string;
  changelog_entry : string
}.

(** The local variables of the loop over the commits. *)
Record classification : Type := {
  cl_version_bump : string;
  cl_breaking_changes : list string;
  cl_new_features : list string;
  cl_bug_fixes : list string
}.

Definition breaking_words : list string :=
  ["breaking"; "remove"; "drop support"; "!:"].

Definition feature_words : list string :=
  ["feat:"; "feature"; "add support"; "new"].

Definition fix_words : list string := ["fix:"; "bug"; "repair"; "correct"].

(** A list is truthy when it is not empty; [None] is falsy. *)
Definition list_truthy {A} (l : option (list A)) : bool :=
  match l with
  | Some (_ :: _) => true
  | _ => false
  end.

(** One section of the changelog entry: a heading and at most five items. *)
Definition changelog_part (heading : string) (items : list string) : string :=
  heading +:+ LF +:+ join LF (map (fun c => "- " +:+ c) (firstn 5 items)).

Section RuleBasedAnalysis.

(** [str.lower] *)
Variable lower : string -> string.

(** The body of the loop of [rule_based_analysis], for one commit. *)
Definition classify_commit (acc : classification) (c : commit) : classification :=
  let msg := lower (commit_message c) in
  if any_in breaking_words msg then
    {| cl_version_bump := "major";
       cl_breaking_changes := cl_breaking_changes acc ++ [commit_summary c];
       cl_new_features := cl_new_features acc;
       cl_bug_fixes := cl_bug_fixes acc |}
  else if any_in feature_words msg then
    {| cl_version_bump :=
         if negb (String.eqb (cl_version_bump acc) "major") then "minor"
         else cl_version_bump acc;
       cl_breaking_changes := cl_breaking_changes acc;
       cl_new_features := cl_new_features acc ++ [commit_summary c];
       cl_bug_fixes := cl_bug_fixes acc |}
  else if any_in fix_words msg then
    {| cl_version_bump := cl_version_bump acc;
       cl_breaking_changes := cl_breaking_changes acc;
       cl_new_features := cl_new_features acc;
       cl_bug_fixes := cl_bug_fixes acc ++ [commit_summary c] |}
  else acc.

(** [AIReleaseAnalyzer.rule_based_analysis] *)
Definition rule_based_analysis (commits : list commit)
  (changed_files : dict (list string)) : M (list string) release_analysis :=
  (print_out "🔧 Using rule-based analysis" ;;
   let found :=
     fold_left classify_commit commits
       {| cl_version_bump := "patch"; cl_breaking_changes := [];
          cl_new_features := []; cl_bug_fixes := [] |} in
   let version_bump :=
     if list_truthy (dict_lookup "vars" changed_files)
        || list_truthy (dict_lookup "defaults" changed_files)
     then if String.eqb (cl_version_bump found) "patch" then "minor"
          else cl_version_bump found
     else cl_version_bump found in
   let should_release := (0 <? length commits)%nat in
   let changelog_parts :=
     (match cl_breaking_changes found with
      | [] => []
      | _ => [changelog_part "### Breaking Changes" (cl_breaking_changes found)]
      end)
     ++ (match cl_new_features found with
         | [] => []
         | _ => [changelog_part "### Added" (cl_new_features found)]
         end)
     ++ (match cl_bug_fixes found with
         | [] => []
         | _ => [changelog_part "### Fixed" (cl_bug_fixes found)]
         end) in
   let changelog_entry :=
     match changelog_parts with
     | [] => "### Changed" +:+ LF +:+ "- Minor updates and improvements"
     | _ => join (LF +:+ LF) changelog_parts
     end in
   ret {| should_release := should_release;
          version_bump := version_bump;
          reasoning := "Found " +:+ pretty (length commits) +:+ " commits with "
                       +:+ version_bump +:+ " level changes";
          breaking_changes := firstn 5 (cl_breaking_changes found);
          new_features := firstn 5 (cl_new_features found);
          bug_fixes := firstn 5 (cl_bug_fixes found);
          changelog_entry := changelog_entry |})%monad.

(** The value [rule_based_analysis] returns. *)
Definition rule_based_result (commits : list commit)
  (changed_files : dict (list string)) : exn + release_analysis :=
  fst (rule_based_analysis commits changed_files []).

(** A commit whose message has a breaking word. *)
Definition is_breaking (c : commit) : bool :=
  any_in breaking_words (lower (commit_message c)).

(** A commit counted as a feature: a feature word and no breaking word. *)
Definition is_feature (c : commit) : bool :=
  negb (is_breaking c) && any_in feature_words (lower (commit_message c)).

(** A commit counted as a fix: a fix word and neither of the others. *)
Definition is_fix (c : commit) : bool :=
  negb (is_breaking c)
  && negb (any_in feature_words (lower (commit_message c)))
  && any_in fix_words (lower (commit_message c)).

End RuleBasedAnalysis.

(** [str.lower] on ASCII text. *)
Definition ascii_lower_char (c : ascii) : ascii :=
  let n := nat_of_ascii c in
  if (65 <=? n)%nat && (n <=? 90)%nat then ascii_of_nat (n + 32) else c.

Fixpoint ascii_lower (s : string) : string :=
  match s with
  | "" => ""
  | String c r => String (ascii_lower_char c) (ascii_lower r)
  end.

Definition sample_commits : list commit :=
  [{| commit_message := "feat: add support for Debian 13" +:+ LF;
      commit_summary := "feat: add support for Debian 13" |};
   {| commit_message := "Remove the legacy preseed template" +:+ LF +:+ LF
                        +:+ "BREAKING: preseed_legacy is gone" +:+ LF;
      commit_summary := "Remove the legacy preseed template" |};
   {| commit_message := "fix: correct the grub timeout" +:+ LF;
      commit_summary := "fix: correct the grub timeout" |};
   {| commit_message := "docs: typo" +:+ LF; commit_summary := "docs: typo" |}].

(** ** [ai_pr_analyzer.py]: the basic analysis and the labels *)

(** What the scripts read of a file of a pull request. *)
Record pr_file : Type := {
  filename : string;
  file_status : string;
  file_patch : option string;
  file_additions : Z;
  file_deletions : Z
}.

(** The analysis of a pull request: the dict [basic_analysis] returns. *)
Record pr_analysis : Type := {
  summary : string;
  change_type : string;
  risk_level : string;
  testing_recommendations : list string;
  code_quality_notes : list string;
  compatibility_notes : list string;
  documentation_needs : list string;
  suggested_reviewers : list string;
  estimated_review_time : string
}.

Definition critical_files : list string :=
  ["tasks/main.yml"; "defaults/main.yml"; "meta/main.yml"].

(** [x in l] for a list of strings *)
Definition in_list (x : string) (l : list string) : bool :=
  existsb (String.eqb x) l.

Section BasicAnalysis.

(** [str.lower] *)
Variable lower : string -> string.

(** The change type [basic_analysis] reads off the title. *)
Definition title_change_type (title : string) : string :=
  if contains "fix" (lower title) then "bugfix"
  else if contains "feat" (lower title) || contains "add" (lower title) then "feature"
  else if contains "break" (lower title) || contains "!" title then "breaking"
  else "enhancement".

(** The risk level [basic_analysis] reads off the files: three tests in
    turn, a later one overriding an earlier one. *)
Definition files_risk_level (files : list pr_file) : string :=
  let risk_level := "low" in
  let risk_level :=
    if existsb (fun f => in_list (filename f) critical_files) files
    then "medium" else risk_level in
  let risk_level :=
    if existsb (fun f => starts_with (filename f) "defaults/") files
    then "high" else risk_level in
  let risk_level :=
    if (10 <? length files)%nat then "high" else risk_level in
  risk_level.

(** [AIPRAnalyzer.basic_analysis]; [title] is [self.pr.title] and
    [get_files] what [self.pr.get_files()] yields or raises. *)
Definition basic_analysis (title : string) (get_files : exn + list pr_file)
  : M (list string) pr_analysis :=
  (print_out "🔧 Using basic analysis" ;;
   files <- lift get_files ;;
   let change_type := title_change_type title in
   let risk_level := files_risk_level files in
   ret {| summary := "PR modifies " +:+ pretty (length files) +:+ " files with "
                     +:+ change_type +:+ " changes";
          change_type := change_type;
          risk_level := risk_level;
          testing_recommendations :=
            ["Run molecule tests with multiple OS versions";
             "Test idempotency (run role twice)";
             "Verify on target platforms";
             "Check for syntax errors with ansible-lint"];
          code_quality_notes :=
            ["Manual review recommended for critical files";
             "Verify YAML syntax and formatting";
             "Check for Ansible best practices"];
          compatibility_notes := [];
          documentation_needs :=
            ["Update README if new variables added";
             "Document any breaking changes";
             "Update examples if behavior changed"];
          suggested_reviewers := ["ansible-experts"; "platform-team"];
          estimated_review_time := "15-30" |})%monad.

End BasicAnalysis.

Definition change_type_map : dict string :=
  [("bugfix", "bug"); ("feature", "enhancement");
   ("breaking", "breaking-change"); ("chore", "maintenance")].

(** The list [labels_to_add] that [add_labels] builds. *)
Definition labels_to_add (analysis : pr_analysis) : list string :=
  (match dict_lookup (change_type analysis) change_type_map with
   | Some label => [label]
   | None => []
   end)
  ++ (if String.eqb (risk_level analysis) "high" then ["needs-careful-review"]
      else if String.eqb (risk_level analysis) "medium" then ["review-required"]
      else [])
  ++ (match documentation_needs analysis with
      | [] => []
      | _ => ["documentation"]
      end).

(** The GitHub side of [add_labels]: the names of the labels of the
    repository, or the exception [get_labels] raises, and the exception
    [add_to_labels] raises for a label, if any. *)
Record github : Type := {
  get_labels : exn + list string;
  add_to_labels : string -> option exn
}.

(** The labels of the pull request and what was printed. *)
Record pr_state : Type := { pr_labels : list string; pr_stdout : list string }.

Definition pr_print (line : string) : M pr_state unit :=
  modify (fun st => {| pr_labels := pr_labels st; pr_stdout := pr_stdout st ++ [line] |}).

(** [self.pr.add_to_labels(label)] *)
Definition pr_add_to_labels (gh : github) (label : string) : M pr_state unit :=
  match add_to_labels gh label with
  | Some e => lift (inl e)
  | None =>
      modify (fun st => {| pr_labels := pr_labels st ++ [label];
                           pr_stdout := pr_stdout st |})
  end.

(** The loop of [add_labels]; it returns [added_labels]. *)
Fixpoint add_existing_labels (gh : github) (repo_labels labels added_labels : list string)
  : M pr_state (list string) :=
  match labels with
  | [] => ret added_labels
  | label :: rest =>
      if in_list label repo_labels then
        bind (pr_add_to_labels gh label)
             (fun _ => add_existing_labels gh repo_labels rest (added_labels ++ [label]))
      else add_existing_labels gh repo_labels rest added_labels
  end.

(** [AIPRAnalyzer.add_labels] *)
Definition add_labels (gh : github) (analysis : pr_analysis) : M pr_state unit :=
  let labels := labels_to_add analysis in
  try_except
    (repo_labels <- lift (get_labels gh) ;;
     added_labels <- add_existing_labels gh repo_labels labels [] ;;
     match added_labels with
     | [] => ret tt
     | _ => pr_print ("✅ Added labels: " +:+ join ", " added_labels)
     end)%monad
    (fun e => pr_print ("Warning: Could not add labels: " +:+ exn_str e)).

Definition sample_files : list pr_file :=
  [{| filename := "tasks/main.yml"; file_status := "modified";
      file_patch := Some "@@ -1 +1 @@"; file_additions := 1; file_deletions := 1 |};
   {| filename := "README.md"; file_status := "modified";
      file_patch := None; file_additions := 3; file_deletions := 0 |}].

(** The state after [added] was attached to the pull request and [out]
    printed. *)
Definition pr_after (st : pr_state) (added out : list string) : pr_state :=
  {| pr_labels := pr_labels st ++ added; pr_stdout := pr_stdout st ++ out |}.

(** A repository with the usual labels, and one whose API refuses the
    label ['review-required']. *)
Definition sample_github : github :=
  {| get_labels := inr ["bug"; "enhancement"; "review-required"; "wontfix"];
     add_to_labels := fun _ => None |}.

Definition github_refusing : github :=
  {| get_labels := inr ["bug"; "enhancement"; "review-required"; "documentation"];
     add_to_labels := fun label =>
       if String.eqb label "review-required"
       then Some (Exn (OtherException "GithubException") "403 Forbidden")
       else None |}.

Definition sample_analysis : pr_analysis :=
  {| summary := "PR modifies 2 files with feature changes";
     change_type := "feature";
     risk_level := "medium";
     testing_recommendations := ["Test idempotency (run role twice)"];
     code_quality_notes := [];
     compatibility_notes := [];
     documentation_needs := ["Update README if new variables added"];
     suggested_reviewers := [];
     estimated_review_time := "15-30" |}.

Definition empty_pr : pr_state := {| pr_labels := []; pr_stdout := [] |}.

(** The state after one label was attached. *)
Definition with_label (st : pr_state) (label : string) : pr_state :=
  {| pr_labels := pr_labels st ++ [label]; pr_stdout := pr_stdout st |}.

(** ** The scripts' client *)

(** What a script holds and leaves behind: [self.ai_client], which is
    [None] when the client could not be built, the standard output, and
    the comments posted on the pull request. *)
Record script : Type := {
  ai_client : option AIClient;
  script_stdout : list string;
  comments : list string
}.

Definition script_print (line : string) : M script unit :=
  modify (fun s => {| ai_client := ai_client s;
                      script_stdout := script_stdout s ++ [line];
                      comments := comments s |}).

(** [self.ai_client and self.ai_client.active_provider], as a condition *)
Definition ai_available (s : script) : bool :=
  match ai_client s with
  | Some client => str_truthy (active_provider client)
  | None => false
  end.

(** The script after its client ran to the state [st]. *)
Definition client_ran (s : script) (st : state) : script :=
  {| ai_client := Some (self st); script_stdout := stdout st; comments := comments s |}.

(** [self.ai_client.call_ai(task_name, variables)] *)
Definition client_call_ai (w : world) (task_name : string) (variables : dict PyVal)
  : M script CallResult :=
  fun s =>
    match ai_client s with
    | Some client =>
        let '(r, st) := call_ai w task_name variables None
                          {| self := client; stdout := script_stdout s |} in
        (r, client_ran s st)
    | None =>
        (inl (Exn AttributeError "'NoneType' object has no attribute 'call_ai'"), s)
    end.

(** [f'{self.ai_client.active_provider}'] *)
Definition active_provider_text : M script string :=
  fun s =>
    match ai_client s with
    | Some client => (inr (default "None" (active_provider client)), s)
    | None =>
        (inl (Exn AttributeError "'NoneType' object has no attribute 'active_provider'"), s)
    end.

(** ** [ai_release_analyzer.py]: the release notes *)

(** The fallback template of [generate_release_notes]. *)
Definition release_notes_template (version changelog_entry : string) : string :=
  join LF
    ["## 🎉 Release " +:+ version;
     "";
     "### What's New";
     "";
     changelog_entry;
     "";
     "### Installation";
     "";
     "```bash";
     "ansible-galaxy install oatakan.debian_template_build," +:+ version;
     "```";
     "";
     "### Compatibility";
     "";
     "- Ansible >= 2.9";
     "- RHEL/CentOS/Rocky/Alma Linux 7, 8, 9, 10";
     "";
     "**Full Changelog**: https://github.com/oatakan/ansible-role-debian_template_build/blob/main/CHANGELOG.md";
     ""].

Section ReleaseNotes.

Variable w : world.

(** [json.dumps(analysis, indent=2)], or the exception it raises *)
Variable json_dumps : dict PyVal -> exn + string.

(** The notes of the provider, when [generate_release_notes] gets any. *)
Definition ai_release_notes (analysis : dict PyVal) (version : string)
  : M script (option string) :=
  (s <- gets id ;;
   if ai_available s then
     try_except
       (analysis_results <- lift (json_dumps analysis) ;;
        let template_variables :=
          [("version", VStr version); ("analysis_results", VStr analysis_results)] in
        result <- client_call_ai w "release_notes" template_variables ;;
        ret (if str_truthy (cr_content result) then cr_content result else None))
       (fun e =>
          script_print ("Warning: AI release notes generation failed: " +:+ exn_str e) ;;
          ret None)
   else ret None)%monad.

(** [AIReleaseAnalyzer.generate_release_notes] *)
Definition generate_release_notes (analysis : dict PyVal) (version : string)
  : M script string :=
  (notes <- ai_release_notes analysis version ;;
   match notes with
   | Some content => ret content
   | None =>
       ret (release_notes_template version
              (py_str w (default (VStr "Various improvements and bug fixes")
                           (dict_lookup "changelog_entry" analysis))))
   end)%monad.

End ReleaseNotes.

(** ** [ai_pr_assistant.py]: the code review *)

(** A byte that continues a character of a UTF-8 string. *)
Definition is_continuation (c : ascii) : bool :=
  (128 <=? nat_of_ascii c)%nat && (nat_of_ascii c <? 192)%nat.

(** [s[:n]]: the first [n] characters of a string held as UTF-8 *)
Fixpoint take_chars (n : nat) (s : string) : string :=
  match s with
  | "" => ""
  | String c rest =>
      if is_continuation c then String c (take_chars n rest)
      else match n with
           | O => ""
           | S n' => String c (take_chars n' rest)
           end
  end.

(** The pull request as the assistant reaches it: the files it lists, or
    the exception [get_files] raises, and the exception
    [create_issue_comment] raises for a comment, if any. *)
Record pull_request : Type := {
  get_files : exn + list pr_file;
  create_issue_comment : string -> option exn
}.

(** [self.pr.create_issue_comment(comment)] *)
Definition post_comment (pr : pull_request) (comment : string) : M script unit :=
  match create_issue_comment pr comment with
  | Some e => lift (inl e)
  | None =>
      modify (fun s => {| ai_client := ai_client s;
                          script_stdout := script_stdout s;
                          comments := comments s ++ [comment] |})
  end.

(** [AIPRAssistant._post_fallback_message] *)
Definition _post_fallback_message (pr : pull_request) (command : string)
  : M script unit :=
  post_comment pr
    (join LF
       ["## 🤖 AI Assistant - Fallback Mode";
        "";
        "AI provider is not available, but I can still help with basic "
          +:+ command +:+ " assistance.";
        "";
        "### To Enable Full AI Features:";
        "1. Add `OPENAI_API_KEY` or `ANTHROPIC_API_KEY` to GitHub Secrets";
        "2. Ensure the API keys have sufficient credits";
        "3. Re-run the command";
        "";
        "### Available Without AI:";
        "- Basic code analysis";
        "- Standard test recommendations  ";
        "- Template-based suggestions";
        "";
        "Use `/ai help` to see all available commands.";
        "";
        "---";
        "<sub>Running in fallback mode • Configure AI provider for enhanced features</sub>"]).

(** The template variables of a file review. *)
Definition review_variables (file : pr_file) : dict PyVal :=
  [("filename", VStr (filename file));
   ("file_status", VStr (file_status file));
   ("additions", VStr (pretty (file_additions file)));
   ("deletions", VStr (pretty (file_deletions file)));
   ("file_diff", VStr (if str_truthy (file_patch file)
                       then take_chars 1500 (default "" (file_patch file))
                       else "No diff available"))].

(** The three texts [review_file_with_ai] can return for a file. *)
Definition file_review (file : pr_file) (content : string) : string :=
  "### 📄 " +:+ filename file +:+ LF +:+ content +:+ LF.

Definition file_reviewed_clean (file : pr_file) : string :=
  "### 📄 " +:+ filename file +:+ LF
  +:+ "File reviewed - no specific issues identified." +:+ LF.

Definition file_review_incomplete (file : pr_file) : string :=
  "### 📄 " +:+ filename file +:+ LF
  +:+ "Could not complete AI review for this file." +:+ LF.

(** The two comments of [handle_review_command]. *)
Definition detailed_review_comment (detailed_review : list string)
  (provider : string) : string :=
  join LF
    ["## 🔍 Detailed Code Review";
     "";
     join LF detailed_review;
     "";
     "### Overall Assessment";
     "Based on the changes, this PR has been analyzed for best practices, security, and maintainability.";
     "";
     "### Next Steps";
     "- Address any high-priority issues mentioned above";
     "- Run the suggested tests";
     "- Update documentation if needed";
     "";
     "---";
     "<sub>AI-powered review using " +:+ provider
       +:+ " • Use `/ai help` for more commands</sub>"].

Definition plain_review_comment : string :=
  join LF
    ["## 🔍 Code Review";
     "";
     "No significant issues detected in the code review. The changes appear to follow good practices.";
     "";
     "### Recommendations";
     "- Ensure all tests pass";
     "- Verify documentation is up to date";
     "- Test on multiple platforms if applicable";
     "";
     "---";
     "<sub>AI-powered review • Use `/ai help` for more commands</sub>"].

Section CodeReview.

Variable w : world.

(** [AIPRAssistant.review_file_with_ai] *)
Definition review_file_with_ai (file : pr_file) : M script (option string) :=
  (s <- gets id ;;
   if negb (ai_available s) then ret None
   else
     let template_variables := review_variables file in
     try_except
       (result <- client_call_ai w "code_review" template_variables ;;
        if str_truthy (cr_content result)
        then ret (Some (file_review file (default "" (cr_content result))))
        else ret (Some (file_reviewed_clean file)))
       (fun e =>
          script_print ("Warning: AI review failed for " +:+ filename file +:+ ": "
                        +:+ exn_str e) ;;
          ret (Some (file_review_incomplete file))))%monad.

(** The loop of [handle_review_command]; it returns [detailed_review]. *)
Fixpoint review_files (files : list pr_file) (detailed_review : list string)
  : M script (list string) :=
  match files with
  | [] => ret detailed_review
  | file :: rest =>
      if str_truthy (file_patch file) then
        bind (review_file_with_ai file)
             (fun review =>
                if str_truthy review
                then review_files rest (detailed_review ++ [default "" review])
                else review_files rest detailed_review)
      else review_files rest detailed_review
  end.

(** [AIPRAssistant.handle_review_command] *)
Definition handle_review_command (pr : pull_request) : M script unit :=
  (script_print "🔍 Generating detailed code review..." ;;
   s <- gets id ;;
   if negb (ai_available s) then _post_fallback_message pr "review"
   else
     files <- lift (get_files pr) ;;
     detailed_review <- review_files (firstn 5 files) [] ;;
     comment <- match detailed_review with
                | [] => ret plain_review_comment
                | _ => provider <- active_provider_text ;;
                       ret (detailed_review_comment detailed_review provider)
                end ;;
     post_comment pr comment ;;
     script_print "✅ Posted detailed code review")%monad.

End CodeReview.

(** A script whose client is [sample_client], and one without a client. *)
Definition sample_script : script :=
  {| ai_client := Some sample_client; script_stdout := []; comments := [] |}.

Definition script_without_client : script :=
  {| ai_client := None; script_stdout := []; comments := [] |}.

Definition sample_pull_request : pull_request :=
  {| get_files := inr sample_files; create_issue_comment := fun _ => None |}.

Definition sample_release_analysis : dict PyVal :=
  [("should_release", VBool true); ("version_bump", VStr "minor");
   ("changelog_entry", VStr ("### Added" +:+ LF +:+ "- feat: add proxmox support"))].

(** ** [update_changelog.py] *)

(** [s[:n]] and [s[n:]], for a position [n] counted in the bytes of the
    string as held here; the positions used come from searches in the
    same string. *)
Fixpoint slice_to (n : nat) (s : string) : string :=
  match n, s with
  | S n', String c rest => String c (slice_to n' rest)
  | _, _ => ""
  end.

Fixpoint slice_from (n : nat) (s : string) : string :=
  match n, s with
  | S n', String _ rest => slice_from n' rest
  | _, _ => s
  end.

(** The changelog [update_changelog] starts from when there is none. *)
Definition new_changelog : string :=
  join LF
    ["# Changelog";
     "";
     "All notable changes to this project will be documented in this file.";
     "";
     "The format is based on [Keep a Changelog](https://keepachangelog.com/en/1.0.0/),";
     "and this project adheres to [Semantic Versioning](https://semver.org/spec/v2.0.0.html).";
     "";
     "## [Unreleased]";
     ""].

(** The lookahead [(?=\n## \[|$)] at the position where [rest] begins:
    the next version heading, the end of the text, or the line feed that
    ends the text. *)
Definition at_section_end (rest : string) : bool :=
  starts_with rest (LF +:+ "## [") || String.eqb rest "" || String.eqb rest LF.

(** The number of characters the lazy [.*?] takes, in DOTALL mode, before
    the lookahead holds. *)
Fixpoint section_length (rest : string) : nat :=
  if at_section_end rest then O
  else match rest with
       | "" => O
       | String _ rest' => S (section_length rest')
       end.

(** [re.search(pattern, content, re.DOTALL)] for the pattern
    [(## \[Unreleased\].*?)(?=\n## \[|$)]: the [end()] of the match, if
    there is one. The match starts at the first [## [Unreleased]]. *)
Fixpoint unreleased_section_end (content : string) : option nat :=
  if starts_with content "## [Unreleased]"
  then Some (15 + section_length (slice_from 15 content))%nat
  else match content with
       | "" => None
       | String _ rest => option_map S (unreleased_section_end rest)
       end.

(** [new_entry] *)
Definition new_entry (version date entry : string) : string :=
  LF +:+ "## [v" +:+ version +:+ "] - " +:+ date +:+ LF +:+ LF +:+ entry +:+ LF.

(** The insertion of the entry after the section [Unreleased]. *)
Definition insert_entry (content entry_text : string) : string :=
  match unreleased_section_end content with
  | Some end_pos =>
      slice_to end_pos content +:+ entry_text +:+ slice_from end_pos content
  | None => content +:+ entry_text
  end.

(** What [update_changelog] takes from outside: the date of the day as
    [strftime('%Y-%m-%d')] gives it, the exception opening the file for
    writing raises, if any, and the rewriting of the comparison links at
    the bottom of a changelog that has them, for a version. *)
Record changelog_env : Type := {
  today : string;
  open_for_writing : option exn;
  update_comparison_links : string -> string -> string
}.

(** The file [CHANGELOG.md], when it exists, with its text or the
    exception reading it raises, and the standard output. *)
Record changelog_state : Type := {
  changelog_md : option (exn + string);
  changelog_stdout : list string
}.

(** [update_changelog] *)
Definition update_changelog (env : changelog_env) (version entry : string)
  : M changelog_state unit :=
  (st <- gets id ;;
   content <- match changelog_md st with
              | Some text => lift text
              | None => ret new_changelog
              end ;;
   let date := today env in
   let new_entry := new_entry version date entry in
   let updated_content := insert_entry content new_entry in
   let updated_content :=
     if contains "[Unreleased]:" updated_content
     then update_comparison_links env version updated_content
     else updated_content in
   match open_for_writing env with
   | Some e => lift (inl e)
   | None =>
       modify (fun st => {| changelog_md := Some (inr updated_content);
                            changelog_stdout := changelog_stdout st |})
   end ;;
   modify (fun st => {| changelog_md := changelog_md st;
                        changelog_stdout :=
                          changelog_stdout st
                          ++ ["✅ Updated CHANGELOG.md with version " +:+ version] |}))%monad.

(** The changelog after an entry was written into [content]. *)
Definition changelog_written (st : changelog_state) (text version : string)
  : changelog_state :=
  {| changelog_md := Some (inr text);
     changelog_stdout :=
       changelog_stdout st ++ ["✅ Updated CHANGELOG.md with version " +:+ version] |}.

Definition sample_changelog_env : changelog_env :=
  {| today := "2025-06-01";
     open_for_writing := None;
     update_comparison_links := fun _ content => content |}.

Definition sample_changelog : string :=
  join LF
    ["# Changelog";
     "";
     "## [Unreleased]";
     "";
     "### Added";
     "- Pending change";
     "";
     "## [v1.0.0] - 2025-01-15";
     "";
     "### Added";
     "- First release";
     ""].


Definition sample_changelog_state : changelog_state :=
  {| changelog_md := Some (inr sample_changelog); changelog_stdout := [] |}.

(** The text [update_changelog] starts from, or the exception reading
    the file raises. *)
Definition current_changelog (st : changelog_state) : exn + string :=
  match changelog_md st with
  | Some text => text
  | None => inr new_changelog
  end.

(** ** [ai_doc_updater.py]: the variables section of the README *)

(** [s.find(sub)], or the [start()] of [re.search] for a pattern that is a
    plain text: the position of the first occurrence, if there is one. *)
Fixpoint find (sub s : string) : option nat :=
  if String.prefix sub s then Some O
  else match s with
       | "" => None
       | String _ rest => option_map S (find sub rest)
       end.

(** [s[i:j]] *)
Definition slice (i j : nat) (s : string) : string :=
  slice_to (j - i) (slice_from i s).

Definition start_marker : string := "## Role Variables".
Definition end_marker : string := "## Dependencies".

(** The [current_section] that [update_readme_with_ai] extracts from the
    README and shows to the provider. *)
Definition current_variables_section (readme_content : string) : string :=
  match find start_marker readme_content with
  | Some start_idx =>
      match find end_marker readme_content with
      | Some end_idx => slice start_idx end_idx readme_content
      | None =>
          let remaining := slice_from start_idx readme_content in
          match find (LF +:+ "## ") (slice_from 3 remaining) with
          | Some next_section => slice_to (next_section + 3) remaining
          | None => remaining
          end
      end
  | None => "No variables section found"
  end.

(** The [new_readme] that [update_readme_with_ai] writes for the section
    the provider returned; [None] when the README has no variables
    section, and nothing is written. *)
Definition replace_variables_section (readme_content updated_section : string)
  : option string :=
  match find start_marker readme_content with
  | Some start_idx =>
      match find end_marker readme_content with
      | Some end_idx =>
          Some (slice_to start_idx readme_content +:+ updated_section +:+ LF +:+ LF
                +:+ slice_from end_idx readme_content)
      | None =>
          let remaining := slice_from start_idx readme_content in
          match find (LF +:+ "## ") (slice_from 3 remaining) with
          | Some next_section =>
              let end_idx := (start_idx + next_section + 3)%nat in
              Some (slice_to start_idx readme_content +:+ updated_section +:+ LF +:+ LF
                    +:+ slice_from end_idx readme_content)
          | None => Some (slice_to start_idx readme_content +:+ updated_section)
          end
      end
  | None => None
  end.

Definition sample_readme : string :=
  join LF
    ["# debian_template_build";
     "";
     "## Role Variables";
     "";
     "- `template_name`";
     "";
     "## Dependencies";
     "";
     "None";
     ""].

(** A README that lists its dependencies before its variables. *)
Definition readme_dependencies_first : string :=
  join LF
    ["# debian_template_build";
     "";
     "## Dependencies";
     "";
     "None";
     "";
     "## Role Variables";
     "";
     "- `template_name`";
     ""].

(** ** [ai_release_analyzer.py]: the changed files *)

(** What [get_changed_files] reads of an item of a diff. *)
Record diff_item : Type := { a_path : option string; b_path : option string }.

(** The dict [changes] at the start of [get_changed_files]. *)
Definition no_changes : dict (list string) :=
  [("tasks", []); ("vars", []); ("defaults", []); ("meta", []);
   ("tests", []); ("docs", []); ("ci", []); ("other", [])].

(** [changes[key].append(path)], for a key of [changes] *)
Definition append_path (key path : string) (changes : dict (list string))
  : dict (list string) :=
  dict_set key (default [] (dict_lookup key changes) ++ [path]) changes.

(** The body of the loop over the items of a diff. *)
Definition add_item (changes : dict (list string)) (item : diff_item)
  : dict (list string) :=
  let path := py_or (a_path item) (b_path item) in
  if negb (str_truthy path) then changes
  else
    let path := default "" path in
    if starts_with path "tasks/" then append_path "tasks" path changes
    else if starts_with path "vars/" || starts_with path "defaults/"
         then append_path "vars" path changes
    else if starts_with path "meta/" then append_path "meta" path changes
    else if starts_with path "tests/" || starts_with path "molecule/"
         then append_path "tests" path changes
    else if ends_with path ".md" || starts_with path "docs/"
         then append_path "docs" path changes
    else if starts_with path ".github/" then append_path "ci" path changes
    else append_path "other" path changes.

Section ChangedFiles.

(** [commit.diff(parent)] for the first parent of the commit, if it has
    one: the items, or the exception raised. *)
Variable diff : commit -> exn + list diff_item.

(** [list(set(paths))]: the paths without duplicates, in the order of the
    set *)
Variable list_set : list string -> list string.

(** The body of the loop over the commits: a commit whose diff raises is
    skipped. *)
Definition add_commit (changes : dict (list string)) (c : commit)
  : dict (list string) :=
  match diff c with
  | inr items => fold_left add_item items changes
  | inl _ => changes
  end.

(** [AIReleaseAnalyzer.get_changed_files] *)
Definition get_changed_files (commits : list commit) : dict (list string) :=
  let changes := fold_left add_commit commits no_changes in
  map (fun kv => (fst kv, list_set (snd kv))) changes.

End ChangedFiles.

(** The diffs of the sample commits: the first one changes a default. *)
Definition sample_diff (c : commit) : exn + list diff_item :=
  if String.eqb (commit_summary c) "docs: typo"
  then inr [{| a_path := Some "README.md"; b_path := Some "README.md" |}]
  else if String.eqb (commit_summary c) "fix: correct the grub timeout"
  then inr [{| a_path := Some "defaults/main.yml"; b_path := Some "defaults/main.yml" |};
            {| a_path := None; b_path := Some "tasks/grub.yml" |}]
  else inl (Exn (OtherException "GitCommandError") "bad object").

(** The paths of a set in the order they were added. *)
Fixpoint first_occurrences (l : list string) : list string :=
  match l with
  | [] => []
  | x :: rest => x :: List.filter (fun y => negb (String.eqb x y)) (first_occurrences rest)
  end.

(** * Properties *)

(** ** Lemmas on dicts *)

Lemma dict_lookup_app {V} (k : string) (d1 d2 : dict V) :
  dict_lookup k (d1 ++ d2) =
  match dict_lookup k d2 with
  | Some v => Some v
  | None => dict_lookup k d1
  end.
Proof.
  induction d1 as [|[k' v'] d1 IH]; simpl.
  - destruct (dict_lookup k d2); reflexivity.
  - rewrite IH. destruct (dict_lookup k d2); reflexivity.
Qed.

Lemma dict_lookup_replace {V} (k k' : string) (v : V) (d : dict V) :
  dict_lookup k' (map (fun kv => if String.eqb k (fst kv) then (fst kv, v) else kv) d) =
  if String.eqb k k' then (if dict_mem k d then Some v else None)
  else dict_lookup k' d.
Proof.
  unfold dict_mem.
  induction d as [|[k0 v0] d IH]; simpl.
  - destruct (String.eqb k k'); reflexivity.
  - destruct (String.eqb_spec k k0) as [->|Hne0]; simpl; rewrite IH.
    + destruct (String.eqb_spec k0 k') as [->|Hne].
      * rewrite String.eqb_refl. destruct (dict_lookup k' d); reflexivity.
      * destruct (dict_lookup k' d); [reflexivity|].
        destruct (String.eqb_spec k' k0); [congruence | reflexivity].
    + destruct (String.eqb_spec k k') as [->|Hne].
      * destruct (String.eqb_spec k' k0); [congruence|].
        destruct (dict_lookup k' d); reflexivity.
      * reflexivity.
Qed.

Lemma dict_lookup_set {V} (k k' : string) (v : V) (d : dict V) :
  dict_lookup k' (dict_set k v d) =
  if String.eqb k k' then Some v else dict_lookup k' d.
Proof.
  unfold dict_set. destruct (dict_mem k d) eqn:Hmem.
  - rewrite dict_lookup_replace, Hmem. reflexivity.
  - rewrite dict_lookup_app. simpl.
    rewrite (String.eqb_sym k' k).
    destruct (String.eqb k k'); reflexivity.
Qed.

Lemma dict_lookup_merge {V} (k : string) (base over : dict V) :
  dict_lookup k (dict_merge base over) =
  match dict_lookup k over with
  | Some v => Some v
  | None => dict_lookup k base
  end.
Proof.
  unfold dict_merge. revert base.
  induction over as [|[k0 v0] over IH]; intros base; simpl.
  - reflexivity.
  - rewrite IH, dict_lookup_set. simpl.
    rewrite (String.eqb_sym k k0).
    destruct (dict_lookup k over); [reflexivity|].
    destruct (String.eqb k0 k); reflexivity.
Qed.

Lemma dict_mem_lookup {V} (k : string) (d : dict V) :
  dict_mem k d = true <-> exists v, dict_lookup k d = Some v.
Proof.
  unfold dict_mem. destruct (dict_lookup k d).
  - split; eauto.
  - split; [discriminate | intros [v Hv]; discriminate].
Qed.

(** ** The provider registry *)

Ltac run_monad :=
  unfold try_except, bind, lift, update_self, gets, modify, print, print_out, ret;
  simpl.

Lemma setup_provider_spec (w : world) (p : string) (st : state) :
  setup_provider w p st = (inr tt, after_provider w p st).
Proof.
  destruct st as [[cp cfg pd cl act us] out].
  unfold setup_provider, after_provider, activates, handle_of, report,
    credential, construct, set_active_provider, set_clients.
  destruct (String.eqb_spec p "openai") as [->|Hno]; simpl.
  - destruct (environ w "OPENAI_API_KEY") as [key|]; simpl.
    + destruct (String.eqb key ""); simpl.
      * run_monad. rewrite app_nil_r. destruct (str_truthy act); reflexivity.
      * run_monad. destruct (OpenAI_new w key); simpl.
        -- destruct (str_truthy act); reflexivity.
        -- destruct (str_truthy act); reflexivity.
    + run_monad. rewrite app_nil_r. destruct (str_truthy act); reflexivity.
  - destruct (String.eqb_spec p "anthropic") as [->|Hna]; simpl.
    + destruct (environ w "ANTHROPIC_API_KEY") as [key|]; simpl.
      * destruct (String.eqb key ""); simpl.
        -- run_monad. rewrite app_nil_r. destruct (str_truthy act); reflexivity.
        -- run_monad. destruct (Anthropic_new w key); simpl.
           ++ destruct (str_truthy act); reflexivity.
           ++ destruct (str_truthy act); reflexivity.
      * run_monad. rewrite app_nil_r. destruct (str_truthy act); reflexivity.
    + run_monad. rewrite app_nil_r. destruct (str_truthy act); reflexivity.
Qed.

Lemma for_each_setup_provider (w : world) (ps : list string) (st : state) :
  for_each ps (setup_provider w) st = (inr tt, after_providers w ps st).
Proof.
  revert st. induction ps as [|p ps IH]; intros st; simpl.
  - reflexivity.
  - unfold bind. rewrite setup_provider_spec. apply IH.
Qed.

Lemma handle_of_known (w : world) (p : string) (h : handle) :
  handle_of w p = Some h -> known_provider p.
Proof.
  unfold handle_of, credential, known_provider.
  destruct (String.eqb_spec p "openai"); [auto|].
  destruct (String.eqb_spec p "anthropic"); [auto|].
  discriminate.
Qed.

Lemma activates_truthy (w : world) (p : string) :
  activates w p = true -> str_truthy (Some p) = true.
Proof.
  unfold activates. destruct (handle_of w p) eqn:Hh; [|discriminate].
  intros _. destruct (handle_of_known _ _ _ Hh) as [-> | ->]; reflexivity.
Qed.

Lemma after_providers_clients (w : world) (ps : list string) (st : state) :
  clients (self (after_providers w ps st)) = registry_after w ps (clients (self st)).
Proof.
  unfold after_providers, registry_after. revert st.
  induction ps as [|p ps IH]; intros st; simpl; [reflexivity|].
  rewrite IH. reflexivity.
Qed.

Lemma after_providers_active (w : world) (ps : list string) (st : state) :
  active_provider (self (after_providers w ps st)) =
  if str_truthy (active_provider (self st)) then active_provider (self st)
  else match first_active w ps with
       | Some p => Some p
       | None => active_provider (self st)
       end.
Proof.
  unfold after_providers, first_active. revert st.
  induction ps as [|p ps IH]; intros st; simpl.
  - destruct (str_truthy _); reflexivity.
  - rewrite IH. simpl.
    destruct (str_truthy (active_provider (self st))) eqn:Ht.
    + rewrite Ht. reflexivity.
    + destruct (activates w p) eqn:Ha; simpl.
      * pose proof (activates_truthy _ _ Ha) as Hp. simpl in Hp.
        rewrite Hp. reflexivity.
      * rewrite Ht. reflexivity.
Qed.

Lemma after_providers_stdout (w : world) (ps : list string) (st : state) :
  stdout (after_providers w ps st) = stdout st ++ flat_map (report w) ps.
Proof.
  unfold after_providers. revert st.
  induction ps as [|p ps IH]; intros st; simpl.
  - rewrite app_nil_r. reflexivity.
  - rewrite IH. simpl. rewrite <- app_assoc. reflexivity.
Qed.

Lemma after_providers_frame (w : world) (ps : list string) (st : state) :
  let c := self (after_providers w ps st) in
  config c = config (self st) /\ config_path c = config_path (self st) /\
  prompts_dir c = prompts_dir (self st) /\ usage_stats c = usage_stats (self st).
Proof.
  unfold after_providers. revert st.
  induction ps as [|p ps IH]; intros st; simpl.
  - auto.
  - destruct (IH (after_provider w p st)) as (H1 & H2 & H3 & H4).
    simpl in *. auto.
Qed.

Lemma registry_after_lookup (w : world) (ps : list string) (cl : dict handle)
  (p : string) :
  dict_lookup p (registry_after w ps cl) =
  if existsb (String.eqb p) ps && activates w p then handle_of w p
  else dict_lookup p cl.
Proof.
  unfold registry_after, activates. revert cl.
  induction ps as [|q ps IH]; intros cl; simpl; [reflexivity|].
  rewrite IH. destruct (existsb (String.eqb p) ps) eqn:Hex; simpl.
  - rewrite orb_true_r. simpl.
    destruct (handle_of w p) eqn:Hp; simpl; [reflexivity|].
    destruct (handle_of w q) eqn:Hq; [|reflexivity].
    rewrite dict_lookup_set.
    destruct (String.eqb_spec q p) as [->|]; [congruence | reflexivity].
  - rewrite orb_false_r.
    destruct (String.eqb_spec p q) as [->|Hne]; simpl.
    + destruct (handle_of w q) eqn:Hq; [|reflexivity].
      rewrite dict_lookup_set, String.eqb_refl. reflexivity.
    + destruct (handle_of w q) eqn:Hq; [|reflexivity].
      rewrite dict_lookup_set.
      destruct (String.eqb_spec q p); [congruence | reflexivity].
Qed.

Lemma registry_after_inactive (w : world) (ps : list string) (cl : dict handle) :
  first_active w ps = None -> registry_after w ps cl = cl.
Proof.
  unfold first_active, registry_after, activates. revert cl.
  induction ps as [|q ps IH]; intros cl; simpl; [reflexivity|].
  destruct (handle_of w q); simpl; [discriminate | apply IH].
Qed.

Lemma setup_clients_run (w : world) (st : state) :
  _setup_clients w st =
  let st' := after_providers w (provider_priority (config (self st))) st in
  (inr tt,
   if str_truthy (active_provider (self st')) then st'
   else {| self := self st'; stdout := stdout st' ++ [no_provider_warning] |}).
Proof.
  unfold _setup_clients. run_monad.
  rewrite for_each_setup_provider.
  destruct (str_truthy _); reflexivity.
Qed.

Lemma setup_provider_without_credential (w : world) (p : string) (st : state) :
  credential w p = None -> setup_provider w p st = (inr tt, st).
Proof.
  intros Hc. rewrite setup_provider_spec. f_equal.
  unfold after_provider, activates, handle_of, report. rewrite Hc.
  destruct st as [[cp cfg pd cl act us] out]; simpl.
  rewrite app_nil_r. destruct (str_truthy act); reflexivity.
Qed.

Lemma credential_in_environment (w : world) (p key : string) :
  credential w p = Some key ->
  key <> "" /\
  ((p = "openai" /\ environ w "OPENAI_API_KEY" = Some key) \/
   (p = "anthropic" /\ environ w "ANTHROPIC_API_KEY" = Some key)).
Proof.
  unfold credential.
  destruct (String.eqb_spec p "openai") as [->|].
  - destruct (environ w "OPENAI_API_KEY") as [k|]; [|discriminate].
    destruct (String.eqb_spec k ""); [discriminate|].
    intros [= <-]. auto.
  - destruct (String.eqb_spec p "anthropic") as [->|]; [|discriminate].
    destruct (environ w "ANTHROPIC_API_KEY") as [k|]; [|discriminate].
    destruct (String.eqb_spec k ""); [discriminate|].
    intros [= <-]. auto.
Qed.

Lemma first_active_split (w : world) (before after : list string) (p : string) :
  Forall (fun q => activates w q = false) before ->
  activates w p = true ->
  first_active w (before ++ p :: after) = Some p.
Proof.
  unfold first_active. intros Hb Hp.
  induction Hb as [|q before Hq Hb IH]; simpl.
  - rewrite Hp. reflexivity.
  - rewrite Hq. exact IH.
Qed.

(** C8. [_setup_clients] goes through [provider_priority] in order and to
    its end; it constructs a handle only for a provider whose credential
    variable is present; the registry holds the handles of exactly the
    listed providers whose construction succeeds; the first of them is the
    active provider, whatever fails before it or succeeds after it; and
    when none activates the active provider stays unset and the registry
    empty. *)
Theorem setup_clients_registry (w : world) (c : AIClient) (out : list string) :
  fst (_setup_clients w {| self := empty_registry c; stdout := out |}) = inr tt /\
  active_provider (self (snd (_setup_clients w {| self := empty_registry c; stdout := out |})))
    = first_active w (provider_priority (config c)) /\
  (forall p,
     dict_lookup p
       (clients (self (snd (_setup_clients w {| self := empty_registry c; stdout := out |}))))
     = if existsb (String.eqb p) (provider_priority (config c))
       then handle_of w p else None) /\
  (forall p h, handle_of w p = Some h ->
     exists key, credential w p = Some key /\ key <> "" /\
       ((p = "openai" /\ environ w "OPENAI_API_KEY" = Some key) \/
        (p = "anthropic" /\ environ w "ANTHROPIC_API_KEY" = Some key))) /\
  (forall p st, credential w p = None -> setup_provider w p st = (inr tt, st)) /\
  (forall before p after,
     provider_priority (config c) = before ++ p :: after ->
     Forall (fun q => activates w q = false) before ->
     activates w p = true ->
     active_provider
       (self (snd (_setup_clients w {| self := empty_registry c; stdout := out |})))
     = Some p) /\
  (first_active w (provider_priority (config c)) = None ->
   active_provider
     (self (snd (_setup_clients w {| self := empty_registry c; stdout := out |}))) = None /\
   clients
     (self (snd (_setup_clients w {| self := empty_registry c; stdout := out |}))) = []).
Proof.
  rewrite setup_clients_run. cbn zeta.
  set (st0 := {| self := empty_registry c; stdout := out |}).
  assert (Hcfg : config (self st0) = config c) by reflexivity.
  rewrite Hcfg.
  set (ps := provider_priority (config c)).
  set (st1 := after_providers w ps st0).
  assert (Hact : active_provider (self st1) = first_active w ps).
  { unfold st1. rewrite after_providers_active. simpl.
    destruct (first_active w ps); reflexivity. }
  assert (Hcl : clients (self st1) = registry_after w ps []).
  { unfold st1. rewrite after_providers_clients. reflexivity. }
  assert (Hsame : forall st2,
            st2 = (if str_truthy (active_provider (self st1)) then st1
                   else {| self := self st1;
                           stdout := stdout st1 ++ [no_provider_warning] |}) ->
            self st2 = self st1).
  { intros st2 ->. destruct (str_truthy _); reflexivity. }
  simpl fst. simpl snd. rewrite (Hsame _ eq_refl).
  split; [reflexivity|].
  split; [exact Hact|].
  split.
  { intros p. rewrite Hcl, registry_after_lookup. simpl.
    unfold activates. destruct (existsb _ ps); simpl; [|reflexivity].
    destruct (handle_of w p); reflexivity. }
  split.
  { intros p h Hh. unfold handle_of in Hh.
    destruct (credential w p) as [key|] eqn:Hc; [|discriminate].
    exists key. split; [reflexivity|]. apply credential_in_environment, Hc. }
  split; [apply setup_provider_without_credential|].
  split.
  { intros before p after Hps Hb Hp. rewrite Hact, Hps.
    apply first_active_split; assumption. }
  intros Hnone. split.
  - rewrite Hact. exact Hnone.
  - rewrite Hcl. apply registry_after_inactive, Hnone.
Qed.

(** ** Construction *)

Lemma load_config_run (w : world) (path : string) (out : list string) :
  _load_config w path out = (inr (loaded_config w path), out ++ load_report w path).
Proof.
  unfold _load_config, loaded_config, load_report. run_monad.
  destruct (open_yaml (config_files w) path) as [e|cfg]; simpl.
  - reflexivity.
  - destruct (ends_with path "ai_config.yml"); simpl.
    + reflexivity.
    + rewrite app_nil_r. reflexivity.
Qed.

Lemma setup_clients_fst (w : world) (st : state) :
  fst (_setup_clients w st) = inr tt.
Proof. rewrite setup_clients_run. reflexivity. Qed.

Lemma setup_clients_self (w : world) (st : state) :
  self (snd (_setup_clients w st)) =
  self (after_providers w (provider_priority (config (self st))) st).
Proof.
  rewrite setup_clients_run. cbn zeta. simpl snd.
  destruct (str_truthy _); reflexivity.
Qed.

(** [__init__] raises only when no path is passed and the default file is
    missing; otherwise it returns the client that [_setup_clients] leaves,
    with fresh usage statistics. *)
Lemma init_run (w : world) (config_path : option string) (out : list string) :
  __init__ w config_path out =
  match resolved_config_path w config_path with
  | inl e => (inl e, out)
  | inr path =>
      (inr (set_usage_stats no_usage
              (self (snd (_setup_clients w
                            {| self := initial_self w path;
                               stdout := out ++ load_report w path |})))),
       stdout (snd (_setup_clients w
                      {| self := initial_self w path;
                         stdout := out ++ load_report w path |})))
  end.
Proof.
  assert (Hgo : forall path,
    (let (r, st) := _setup_clients w {| self := initial_self w path;
                                        stdout := out ++ load_report w path |} in
     match r with
     | inl e => (inl e, stdout st)
     | inr _ => (inr (set_usage_stats no_usage (self st)), stdout st)
     end) =
    (inr (set_usage_stats no_usage
            (self (snd (_setup_clients w
                          {| self := initial_self w path;
                             stdout := out ++ load_report w path |})))),
     stdout (snd (_setup_clients w
                    {| self := initial_self w path;
                       stdout := out ++ load_report w path |})))).
  { intros path.
    pose proof (setup_clients_fst w {| self := initial_self w path;
                                       stdout := out ++ load_report w path |}) as F.
    destruct (_setup_clients w _) as [r st]. simpl in F. subst r. reflexivity. }
  unfold __init__, resolved_config_path, bind.
  destruct (str_truthy config_path).
  - unfold ret at 1. rewrite load_config_run. apply Hgo.
  - unfold lift at 1. destruct (_find_config_file w) as [e|path]; [reflexivity|].
    rewrite load_config_run. apply Hgo.
Qed.

Lemma dict_mem_registry_after (w : world) (ps : list string) (p : string) :
  dict_mem p (registry_after w ps []) = true -> known_provider p.
Proof.
  unfold dict_mem. rewrite registry_after_lookup. simpl.
  destruct (existsb _ ps && activates w p); [|discriminate].
  destruct (handle_of w p) eqn:Hh; [|discriminate].
  intros _. eapply handle_of_known, Hh.
Qed.

Lemma first_active_listed (w : world) (ps : list string) (p : string) :
  first_active w ps = Some p ->
  existsb (String.eqb p) ps = true /\ activates w p = true.
Proof.
  unfold first_active. induction ps as [|q ps IH]; simpl; [discriminate|].
  destruct (activates w q) eqn:Hq; simpl.
  - intros [= ->]. rewrite String.eqb_refl. auto.
  - intros H. destruct (IH H) as [H1 H2]. rewrite H1, orb_true_r. auto.
Qed.

(** The client a successful [__init__] returns. *)
Lemma init_client (w : world) (config_path : option string) (out out' : list string)
  (c : AIClient) :
  __init__ w config_path out = (inr c, out') ->
  exists path,
    resolved_config_path w config_path = inr path /\
    config c = loaded_config w path /\
    clients c = registry_after w (provider_priority (loaded_config w path)) [] /\
    active_provider c = first_active w (provider_priority (loaded_config w path)) /\
    usage_stats c = no_usage.
Proof.
  rewrite init_run.
  destruct (resolved_config_path w config_path) as [e|path]; [discriminate|].
  intros [= <- _]. exists path. split; [reflexivity|].
  rewrite setup_clients_self. simpl.
  set (st0 := {| self := initial_self w path; stdout := out ++ load_report w path |}).
  destruct (after_providers_frame w (provider_priority (loaded_config w path)) st0)
    as (Hc & _).
  repeat split.
  - exact Hc.
  - rewrite after_providers_clients. reflexivity.
  - rewrite after_providers_active. simpl.
    destruct (first_active w _); reflexivity.
Qed.

Lemma init_registry_ok (w : world) (config_path : option string)
  (out out' : list string) (c : AIClient) :
  __init__ w config_path out = (inr c, out') -> registry_ok c.
Proof.
  intros H. destruct (init_client _ _ _ _ _ H) as (path & _ & _ & Hcl & Hact & _).
  split.
  - intros p. rewrite Hcl. apply dict_mem_registry_after.
  - rewrite Hact, Hcl.
    destruct (first_active w _) as [p|] eqn:Hf; [right | left; reflexivity].
    exists p. destruct (first_active_listed _ _ _ Hf) as [Hin Hp].
    split; [reflexivity|].
    assert (Hm : dict_mem p (registry_after w
                   (provider_priority (loaded_config w path)) []) = true).
    { unfold dict_mem. rewrite registry_after_lookup, Hin, Hp. simpl.
      unfold activates in Hp. destruct (handle_of w p); [reflexivity | discriminate]. }
    split; [|exact Hm]. eapply dict_mem_registry_after, Hm.
Qed.

(** ** The dispatcher *)

Lemma estimate_cost_returns (self : AIClient) (provider model : string)
  (input_tokens output_tokens : Z) :
  exists cost, estimate_cost self provider model input_tokens output_tokens = inr cost.
Proof.
  unfold estimate_cost, subscript, price, and_then.
  destruct (dict_lookup provider _) as [pc|]; simpl; [|eauto].
  destruct (dict_lookup model _) as [pr|]; simpl; [|eauto].
  destruct (price_input pr); simpl; [|eauto].
  destruct (price_output pr); simpl; eauto.
Qed.

Lemma effective_provider_some (self : AIClient) (provider : option string) (p : string) :
  effective_provider self provider = Some p ->
  py_or provider (active_provider self) = Some p /\
  str_truthy (Some p) = true /\ dict_mem p (clients self) = true.
Proof.
  unfold effective_provider.
  destruct (py_or provider (active_provider self)) as [q|] eqn:Hq; simpl.
  - destruct (negb (q =? "")) eqn:Ht; simpl; [|discriminate].
    destruct (dict_mem q (clients self)) eqn:Hm; simpl; [|discriminate].
    intros [= ->]. rewrite Ht. auto.
  - discriminate.
Qed.

Lemma call_ai_without_provider (w : world) (task_name : string)
  (variables : dict PyVal) (provider : option string) (st : state) :
  effective_provider (self st) provider = None ->
  call_ai w task_name variables provider st = (inr (_fallback_response task_name), st).
Proof.
  unfold effective_provider, call_ai. run_monad.
  destruct (negb (str_truthy _) || negb (dict_mem _ _)) eqn:Hc; [reflexivity|].
  intros H. apply orb_false_elim in Hc. destruct Hc as [Hc _].
  destruct (py_or provider (active_provider (self st))); [discriminate|].
  discriminate.
Qed.

(** [call_ai] with a provider that has a handle: the three ways its body
    ends. *)
Lemma call_ai_with_provider (w : world) (task_name : string)
  (variables : dict PyVal) (provider : option string) (p : string) (st : state) :
  effective_provider (self st) provider = Some p ->
  call_ai w task_name variables provider st =
  match prepare_call w (self st) task_name variables p with
  | inl e => (inr (_fallback_response task_name), log (failure_line task_name e) st)
  | inr NoModel => (inr (_fallback_response task_name), st)
  | inr (Ready prompt model params) =>
      match _make_api_call w (self st) p model prompt params with
      | inl e => (inr (_fallback_response task_name), log (failure_line task_name e) st)
      | inr result => (inr result, tracked p model result st)
      end
  end.
Proof.
  intros He. pose proof (effective_provider_some _ _ _ He) as (Hor & Ht & Hm).
  unfold call_ai. run_monad. rewrite Hor. simpl in Ht |- *. rewrite Ht, Hm. simpl.
  unfold prepare_call, and_then.
  destruct (render_prompt w (self st) task_name variables) as [e|prompt]; [reflexivity|].
  destruct (get_model_for_task (self st) task_name (Some p)) as [e|model]; [reflexivity|].
  destruct (str_truthy model); simpl; [|destruct st; reflexivity].
  destruct (_make_api_call w (self st) p (default "" model) prompt _) as [e|result];
    [reflexivity|].
  unfold tracked. destruct (cr_usage result) as [u|]; simpl; [|reflexivity].
  unfold cost_of.
  destruct (estimate_cost_returns
              (add_tokens (total_tokens u) (add_request (self st))) p (default "" model)
              (prompt_tokens u) (completion_tokens u)) as [cost Hcost].
  rewrite Hcost. reflexivity.
Qed.

Lemma sample_client_constructed :
  __init__ sample_world None [] =
  (inr sample_client,
   ["âœ“ AI configuration loaded"; "âœ“ OpenAI client initialized";
    "âœ“ Anthropic client initialized"]).
Proof. vm_compute. reflexivity. Qed.

(** ** Prompt templates *)

(** C9. For a task name without a template file in the prompts directory,
    [load_prompt_template] raises [FileNotFoundError] and [render_prompt]
    lets it through to its caller. *)
Theorem render_prompt_template_not_found (w : world) (self : AIClient)
  (task_name : string) (variables : dict PyVal) :
  template_files w (path_join (prompts_dir self) (task_name +:+ ".yml")) = Absent ->
  load_prompt_template w self task_name =
    inl (Exn FileNotFoundError
           ("Prompt template not found: "
            +:+ path_join (prompts_dir self) (task_name +:+ ".yml"))) /\
  render_prompt w self task_name variables =
    inl (Exn FileNotFoundError
           ("Prompt template not found: "
            +:+ path_join (prompts_dir self) (task_name +:+ ".yml"))).
Proof.
  intros Habsent.
  assert (Hload : load_prompt_template w self task_name =
    inl (Exn FileNotFoundError
           ("Prompt template not found: "
            +:+ path_join (prompts_dir self) (task_name +:+ ".yml")))).
  { unfold load_prompt_template, exists_. rewrite Habsent. reflexivity. }
  split; [exact Hload|].
  unfold render_prompt. rewrite Hload. reflexivity.
Qed.

Lemma render_prompt_template_not_found_witness :
  render_prompt sample_world sample_client "release_notes" sample_variables =
  inl (Exn FileNotFoundError
         "Prompt template not found: /repo/.github/scripts/prompts/release_notes.yml").
Proof.
  apply (render_prompt_template_not_found sample_world sample_client
           "release_notes" sample_variables).
  reflexivity.
Defined.

Lemma append_cons (c : ascii) (s t : string) :
  String c s +:+ t = String c (s +:+ t).
Proof. reflexivity. Qed.

Lemma append_empty_r (s : string) : s +:+ "" = s.
Proof. induction s as [|c s IH]; [reflexivity|]. rewrite append_cons, IH. reflexivity. Qed.

Lemma append_associative (s t u : string) : (s +:+ t) +:+ u = s +:+ (t +:+ u).
Proof.
  induction s as [|c s IH]; [reflexivity|].
  rewrite !append_cons, IH. reflexivity.
Qed.

Lemma format_scan_plain_field (w : world) (vars : dict PyVal)
  (name acc rest : string) :
  forallb plain_char (list_ascii_of_string name) = true ->
  format_scan w vars (Some acc) (name +:+ "}" +:+ rest) =
  match format_field w vars (acc +:+ name) with
  | inl e => inl e
  | inr v => prepend v (format_scan w vars None rest)
  end.
Proof.
  revert acc. induction name as [|c name IH]; intros acc Hplain.
  - rewrite append_empty_r. reflexivity.
  - simpl in Hplain. apply andb_true_iff in Hplain as [Hc Hname].
    rewrite append_cons.
    replace (acc +:+ String c name) with ((acc +:+ String c "") +:+ name)
      by (rewrite append_associative; reflexivity).
    rewrite <- (IH _ Hname).
    unfold plain_char in Hc. apply negb_true_iff in Hc.
    cbn [format_scan].
    destruct c as [[] [] [] [] [] [] [] []]; try reflexivity; discriminate Hc.
Qed.

(** A template that references a placeholder the variables do not have:
    [format] raises [KeyError]. *)
Lemma format_missing_placeholder (w : world) (vars : dict PyVal)
  (before name after : string) :
  literal_text before = true ->
  plain_name name = true ->
  dict_lookup name vars = None ->
  py_format w (before +:+ "{" +:+ name +:+ "}" +:+ after) vars =
  inl (Exn KeyError (py_repr_str name)).
Proof.
  intros Hlit Hname Hmissing. unfold py_format, plain_name in *.
  apply andb_true_iff in Hname as [Hname Hplain].
  apply andb_true_iff in Hname as [Hne Hnum].
  apply negb_true_iff in Hne, Hnum.
  induction before as [|c before IH].
  - change ("" +:+ "{" +:+ name +:+ "}" +:+ after)
      with (String "{" (name +:+ "}" +:+ after)).
    assert (Hfield : format_scan w vars (Some "") (name +:+ "}" +:+ after)
                     = inl (Exn KeyError (py_repr_str name))).
    { rewrite format_scan_plain_field by exact Hplain.
      change ("" +:+ name) with name.
      unfold format_field. rewrite Hne, Hnum, Hmissing. reflexivity. }
    destruct name as [|d name].
    + discriminate Hne.
    + rewrite append_cons in *. simpl in Hplain.
      apply andb_true_iff in Hplain as [Hd _].
      unfold plain_char in Hd. apply negb_true_iff in Hd.
      cbn [format_scan].
      destruct d as [[] [] [] [] [] [] [] []]; try exact Hfield; discriminate Hd.
  - simpl in Hlit. apply andb_true_iff in Hlit as [Hc Hlit].
    rewrite append_cons. specialize (IH Hlit).
    apply negb_true_iff, orb_false_iff in Hc as [Hc1 Hc2].
    cbn [format_scan].
    destruct c as [[] [] [] [] [] [] [] []];
      try (rewrite IH; reflexivity); discriminate.
Qed.

(** A template whose system prompt references a placeholder that the
    variables do not have: [render_prompt] raises [KeyError]. *)
Lemma render_prompt_missing_variable (w : world) (self : AIClient)
  (task_name : string) (variables : dict PyVal) (template : Template)
  (before name after : string) :
  load_prompt_template w self task_name = inr template ->
  system_prompt template = Some (before +:+ "{" +:+ name +:+ "}" +:+ after) ->
  literal_text before = true ->
  plain_name name = true ->
  dict_lookup name variables = None ->
  render_prompt w self task_name variables = inl (Exn KeyError (py_repr_str name)).
Proof.
  intros Hload Hsys Hlit Hname Hmissing.
  unfold render_prompt. rewrite Hload. simpl. rewrite Hsys. simpl.
  rewrite format_missing_placeholder by assumption. reflexivity.
Qed.

(** ** Errors in [call_ai] *)

(** C1, as stated, fails: with an active provider and no template file for
    the task, [render_prompt] raises [FileNotFoundError], yet [call_ai]
    returns the fallback result instead of raising. *)
Lemma call_ai_swallows_template_error :
  effective_provider sample_client None = Some "openai" /\
  render_prompt sample_world sample_client "release_notes" sample_variables =
    inl (Exn FileNotFoundError
           "Prompt template not found: /repo/.github/scripts/prompts/release_notes.yml") /\
  fst (call_ai sample_world "release_notes" sample_variables None sample_state) =
    inr (_fallback_response "release_notes") /\
  fst (call_ai sample_world "release_notes" sample_variables None sample_state) <>
    inl (Exn FileNotFoundError
           "Prompt template not found: /repo/.github/scripts/prompts/release_notes.yml").
Proof.
  repeat split; try (vm_compute; reflexivity).
  vm_compute. discriminate.
Qed.

(** The same for a placeholder the variables do not have. *)
Lemma call_ai_swallows_missing_variable :
  render_prompt sample_world sample_client "pr_analysis"
    [("pr_title", VStr "Fix preseed")] = inl (Exn KeyError "'repo'") /\
  fst (call_ai sample_world "pr_analysis" [("pr_title", VStr "Fix preseed")] None
         sample_state) = inr (_fallback_response "pr_analysis").
Proof. split; vm_compute; reflexivity. Qed.

(** C1, amended. When the provider has a handle and rendering the prompt
    raises (no template file for the task, or a placeholder without a
    variable), [call_ai] catches the exception: it prints one line with the
    task name and the message, returns the fallback result and leaves the
    client as it was. *)
Theorem call_ai_template_error_fallback (w : world) (task_name : string)
  (variables : dict PyVal) (provider : option string) (p : string) (st : state)
  (e : exn) :
  effective_provider (self st) provider = Some p ->
  render_prompt w (self st) task_name variables = inl e ->
  call_ai w task_name variables provider st =
  (inr (_fallback_response task_name), log (failure_line task_name e) st).
Proof.
  intros Hp Hrender. rewrite (call_ai_with_provider _ _ _ _ _ _ Hp).
  unfold prepare_call. rewrite Hrender. reflexivity.
Qed.

Lemma call_ai_template_error_fallback_witness :
  call_ai sample_world "release_notes" sample_variables None sample_state =
  (inr (_fallback_response "release_notes"),
   log (failure_line "release_notes"
          (Exn FileNotFoundError
             "Prompt template not found: /repo/.github/scripts/prompts/release_notes.yml"))
       sample_state).
Proof.
  apply (call_ai_template_error_fallback sample_world "release_notes"
           sample_variables None "openai" sample_state).
  - reflexivity.
  - reflexivity.
Defined.

Lemma make_api_call_raises (w : world) (self : AIClient) (provider model : string)
  (prompt : prompt_data) (params : dict PyVal) (e : exn) :
  api_raises w self provider model prompt params e ->
  _make_api_call w self provider model prompt params = inl e.
Proof.
  unfold _make_api_call, subscript.
  intros [(-> & client & Hclient & Hraise) | (-> & client & Hclient & Hraise)]; simpl.
  - rewrite Hclient. simpl. rewrite Hraise. reflexivity.
  - rewrite Hclient. simpl. rewrite Hraise. reflexivity.
Qed.

(** C4. When the provider has a handle, the call reaches the provider and
    the provider's SDK call raises [e], [call_ai] does not raise: it prints
    a line made of the task name and the message of [e], and returns the
    fallback result, whose content is [None]. *)
Theorem call_ai_api_error_fallback (w : world) (task_name : string)
  (variables : dict PyVal) (provider : option string) (p : string) (st : state)
  (prompt : prompt_data) (model : string) (params : dict PyVal) (e : exn) :
  effective_provider (self st) provider = Some p ->
  prepare_call w (self st) task_name variables p = inr (Ready prompt model params) ->
  api_raises w (self st) p model prompt params e ->
  call_ai w task_name variables provider st =
    (inr (_fallback_response task_name),
     {| self := self st;
        stdout := stdout st
                  ++ ["AI call failed for " +:+ task_name +:+ ": " +:+ exn_str e] |}) /\
  cr_content (_fallback_response task_name) = None.
Proof.
  intros Hp Hprep Hraise. split; [|reflexivity].
  rewrite (call_ai_with_provider _ _ _ _ _ _ Hp), Hprep.
  rewrite (make_api_call_raises _ _ _ _ _ _ _ Hraise). reflexivity.
Qed.

Lemma call_ai_api_error_fallback_witness :
  call_ai sample_world "pr_analysis" sample_variables (Some "anthropic") sample_state =
    (inr (_fallback_response "pr_analysis"),
     {| self := sample_client;
        stdout := ["AI call failed for pr_analysis: Connection error."] |}).
Proof.
  refine (proj1 (call_ai_api_error_fallback sample_world "pr_analysis"
                   sample_variables (Some "anthropic") "anthropic" sample_state
                   {| pd_system := "You review pull requests of debian_template_build.";
                      pd_user := "Analyze: Fix preseed";
                      pd_template := sample_template |}
                   "claude-3-5-haiku-20241022"
                   [("max_tokens", VInt 800); ("temperature", VFloat (3 # 10));
                    ("timeout", VInt 30)]
                   (Exn (OtherException "APIConnectionError") "Connection error.")
                   _ _ _)).
  - reflexivity.
  - reflexivity.
  - right. split; [reflexivity|].
    exists (AnthropicClient "sk-anthropic"). split; reflexivity.
Defined.

(** ** Without credentials *)

Lemma no_credentials_no_handle (w : world) (p : string) :
  environ w "OPENAI_API_KEY" = None ->
  environ w "ANTHROPIC_API_KEY" = None ->
  handle_of w p = None.
Proof.
  intros Ho Ha. unfold handle_of, credential.
  destruct (String.eqb p "openai"); [rewrite Ho; reflexivity|].
  destruct (String.eqb p "anthropic"); [rewrite Ha; reflexivity | reflexivity].
Qed.

Lemma no_handle_first_active (w : world) (ps : list string) :
  (forall p, handle_of w p = None) -> first_active w ps = None.
Proof.
  intros Hnone. unfold first_active, activates.
  induction ps as [|p ps IH]; simpl; [reflexivity|].
  rewrite (Hnone p). exact IH.
Qed.

(** C3. When neither credential variable is set, the client [__init__]
    returns has no active provider, and every [call_ai] on it, whatever the
    task, the variables and the provider argument, returns without raising
    the fallback result: content [None], model [None], provider
    ['fallback'], the error text, and the task name. *)
Theorem call_ai_without_credentials (w : world) (config_path : option string)
  (out out' : list string) (c : AIClient) :
  environ w "OPENAI_API_KEY" = None ->
  environ w "ANTHROPIC_API_KEY" = None ->
  __init__ w config_path out = (inr c, out') ->
  active_provider c = None /\
  forall (w' : world) (task_name : string) (variables : dict PyVal)
         (provider : option string) (printed : list string),
    call_ai w' task_name variables provider {| self := c; stdout := printed |} =
    (inr {| cr_content := None;
            cr_model := None;
            cr_provider := "fallback";
            cr_usage := None;
            cr_error := Some "AI provider not available";
            cr_task := Some task_name |},
     {| self := c; stdout := printed |}).
Proof.
  intros Ho Ha Hinit.
  destruct (init_client _ _ _ _ _ Hinit) as (path & _ & _ & Hcl & Hact & _).
  pose proof (no_credentials_no_handle w) as Hnone.
  specialize (fun p => Hnone p Ho Ha).
  rewrite (no_handle_first_active w _ Hnone) in Hact.
  rewrite (registry_after_inactive w _ [] (no_handle_first_active w _ Hnone)) in Hcl.
  split; [exact Hact|].
  intros w' task_name variables provider printed.
  apply (call_ai_without_provider w' task_name variables provider
           {| self := c; stdout := printed |}).
  unfold effective_provider. simpl. rewrite Hcl, Hact.
  unfold dict_mem. simpl. rewrite orb_true_r. reflexivity.
Qed.

Lemma call_ai_without_credentials_witness :
  call_ai sample_world "pr_analysis" sample_variables None
    {| self := {| config_path := "/repo/.github/scripts/ai_config.yml";
                  config := sample_config;
                  prompts_dir := "/repo/.github/scripts/prompts";
                  clients := []; active_provider := None;
                  usage_stats := no_usage |};
       stdout := [] |} =
  (inr (_fallback_response "pr_analysis"),
   {| self := {| config_path := "/repo/.github/scripts/ai_config.yml";
                 config := sample_config;
                 prompts_dir := "/repo/.github/scripts/prompts";
                 clients := []; active_provider := None;
                 usage_stats := no_usage |};
      stdout := [] |}).
Proof.
  refine (proj2 (call_ai_without_credentials world_without_credentials None []
                   ["âœ“ AI configuration loaded";
                    "Warning: No AI providers available. Using fallback behavior."]
                   _ _ _ _)
            sample_world "pr_analysis" sample_variables None []).
  - reflexivity.
  - reflexivity.
  - vm_compute. reflexivity.
Defined.

(** ** The registry invariant *)

Lemma make_api_call_unsupported (w : world) (self : AIClient)
  (provider model : string) (prompt : prompt_data) (params : dict PyVal) :
  unsupported provider = true ->
  _make_api_call w self provider model prompt params =
  inl (Exn ValueError ("Unsupported provider: " +:+ provider)).
Proof.
  unfold unsupported, _make_api_call. intros H.
  apply andb_true_iff in H as [H1 H2].
  apply negb_true_iff in H1, H2. rewrite H1, H2. reflexivity.
Qed.

Lemma known_provider_supported (p : string) :
  known_provider p -> unsupported p = false.
Proof. intros [-> | ->]; reflexivity. Qed.

Lemma call_ai_keeps_registry (w : world) (task_name : string)
  (variables : dict PyVal) (provider : option string) (st : state) :
  clients (self (snd (call_ai w task_name variables provider st))) = clients (self st)
  /\ active_provider (self (snd (call_ai w task_name variables provider st)))
     = active_provider (self st)
  /\ config (self (snd (call_ai w task_name variables provider st))) = config (self st).
Proof.
  destruct (effective_provider (self st) provider) as [p|] eqn:Hp.
  - rewrite (call_ai_with_provider _ _ _ _ _ _ Hp).
    destruct (prepare_call w (self st) task_name variables p) as [e|[|prompt model params]];
      try (simpl; auto; fail).
    destruct (_make_api_call w (self st) p model prompt params) as [e|result];
      [simpl; auto|].
    unfold tracked. destruct (cr_usage result); simpl; auto.
  - rewrite (call_ai_without_provider _ _ _ _ _ Hp). simpl. auto.
Qed.

(** C10. The client [__init__] returns has handles for ['openai'] and
    ['anthropic'] at most, and its active provider is unset or one of the
    two with a handle; [call_ai] changes neither the registry nor the
    active provider; and [call_ai] reaches [_make_api_call] only with a
    provider that has a handle, hence never with one that takes its
    [Unsupported provider] branch. *)
Theorem registry_invariant :
  (forall w config_path out c out',
     __init__ w config_path out = (inr c, out') -> registry_ok c) /\
  (forall w task_name variables provider st,
     clients (self (snd (call_ai w task_name variables provider st)))
       = clients (self st) /\
     active_provider (self (snd (call_ai w task_name variables provider st)))
       = active_provider (self st) /\
     (registry_ok (self st) ->
      registry_ok (self (snd (call_ai w task_name variables provider st))))) /\
  (forall w task_name variables provider st,
     registry_ok (self st) ->
     match effective_provider (self st) provider with
     | None =>
         call_ai w task_name variables provider st
         = (inr (_fallback_response task_name), st)
     | Some p =>
         dict_mem p (clients (self st)) = true /\
         unsupported p = false /\
         call_ai w task_name variables provider st =
         match prepare_call w (self st) task_name variables p with
         | inl e =>
             (inr (_fallback_response task_name), log (failure_line task_name e) st)
         | inr NoModel => (inr (_fallback_response task_name), st)
         | inr (Ready prompt model params) =>
             match _make_api_call w (self st) p model prompt params with
             | inl e =>
                 (inr (_fallback_response task_name),
                  log (failure_line task_name e) st)
             | inr result => (inr result, tracked p model result st)
             end
         end
     end) /\
  (forall w self provider model prompt params,
     unsupported provider = true ->
     _make_api_call w self provider model prompt params =
     inl (Exn ValueError ("Unsupported provider: " +:+ provider))).
Proof.
  split; [intros w config_path out c out'; apply init_registry_ok|].
  split.
  { intros w task_name variables provider st.
    destruct (call_ai_keeps_registry w task_name variables provider st) as (H1 & H2 & _).
    split; [exact H1|]. split; [exact H2|].
    unfold registry_ok. rewrite H1, H2. auto. }
  split.
  { intros w task_name variables provider st [Hkeys _].
    destruct (effective_provider (self st) provider) as [p|] eqn:Hp.
    - destruct (effective_provider_some _ _ _ Hp) as (_ & _ & Hm).
      split; [exact Hm|].
      split; [apply known_provider_supported, Hkeys, Hm|].
      apply call_ai_with_provider, Hp.
    - apply call_ai_without_provider, Hp. }
  intros w self provider model prompt params. apply make_api_call_unsupported.
Qed.

Lemma registry_invariant_witness : registry_ok sample_client.
Proof.
  apply (proj1 registry_invariant sample_world None [] sample_client
           ["âœ“ AI configuration loaded"; "âœ“ OpenAI client initialized";
            "âœ“ Anthropic client initialized"]).
  vm_compute. reflexivity.
Defined.

(** ** Model and parameter resolution *)

(** C6. [get_model_for_task] returns no model when the provider (the
    argument, or else the active provider) is unset or is not a key of
    [providers]; otherwise it returns [providers[provider].models[c]] for
    the complexity [c] of the task (["standard"] when the task has none),
    or [providers[provider].default_model] when [models] has no entry for
    [c]. It never raises. *)
Theorem get_model_for_task_resolves (self : AIClient) (task_name : string)
  (provider : option string) :
  get_model_for_task self task_name provider =
  inr (resolve_model (config self) task_name (py_or provider (active_provider self))).
Proof.
  unfold get_model_for_task, resolve_model, task_complexity, subscript, dict_mem.
  destruct (py_or provider (active_provider self)) as [p|]; simpl; [|reflexivity].
  destruct (String.eqb p ""); simpl; [reflexivity|].
  destruct (dict_lookup p (providers (config self))) as [pc|]; simpl; [|reflexivity].
  destruct (dict_lookup task_name (task_models (config self))) as [tm|]; reflexivity.
Qed.

Lemma get_model_for_task_sample :
  get_model_for_task sample_client "pr_analysis" None = inr (Some "gpt-4o-mini") /\
  get_model_for_task sample_client "release_analysis" None = inr (Some "gpt-4o") /\
  get_model_for_task sample_client "release_analysis" (Some "anthropic")
    = inr (Some "claude-3-5-sonnet-20241022") /\
  get_model_for_task sample_client "code_review" (Some "anthropic")
    = inr (Some "claude-3-5-haiku-20241022") /\
  get_model_for_task sample_client "pr_analysis" (Some "mistral") = inr None /\
  get_model_for_task (set_active_provider None sample_client) "pr_analysis" None
    = inr None.
Proof. repeat split. Qed.

Lemma get_model_parameters_layers (self : AIClient) (model provider k : string) :
  dict_lookup k (get_model_parameters self model provider) =
  match dict_lookup k (model_overrides (config self) provider model) with
  | Some v => Some v
  | None => dict_lookup k defaults
  end.
Proof.
  unfold get_model_parameters, model_overrides.
  rewrite dict_lookup_merge.
  destruct (dict_lookup provider (providers (config self))); reflexivity.
Qed.

Lemma prepare_call_ready (w : world) (self : AIClient) (task_name : string)
  (variables : dict PyVal) (p : string) (prompt : prompt_data) (model : string)
  (params : dict PyVal) :
  prepare_call w self task_name variables p = inr (Ready prompt model params) ->
  render_prompt w self task_name variables = inr prompt /\
  get_model_for_task self task_name (Some p) = inr (Some model) /\
  model <> "" /\
  params = dict_merge (get_model_parameters self model p)
                      (template_parameters (pd_template prompt)).
Proof.
  unfold prepare_call, and_then.
  destruct (render_prompt w self task_name variables) as [e|prompt0]; [discriminate|].
  destruct (get_model_for_task self task_name (Some p)) as [e|[m|]]; simpl;
    try discriminate.
  destruct (String.eqb_spec m ""); simpl; [discriminate|].
  intros [= <- <- <-]. auto.
Qed.

(** C7. The parameters [call_ai] sends are layered key by key: a key takes
    the template's value when the template's [parameters] have it,
    otherwise the provider/model-specific value of the configuration when
    there is one, otherwise the hardcoded default; keys no layer has are
    absent. With the override [{temperature: 0.5}] and the template
    parameters [{max_tokens: 800}] the result is
    [{max_tokens: 800, temperature: 0.5, timeout: 30}]. *)
Theorem call_parameters_layered (w : world) (self : AIClient) (task_name : string)
  (variables : dict PyVal) (p : string) (prompt : prompt_data) (model : string)
  (params : dict PyVal) :
  prepare_call w self task_name variables p = inr (Ready prompt model params) ->
  dict_lookup "max_tokens" defaults = Some (VInt 1500) /\
  dict_lookup "temperature" defaults = Some (VFloat (3 # 10)) /\
  dict_lookup "timeout" defaults = Some (VInt 30) /\
  (forall k,
     dict_lookup k params =
     layered k (template_parameters (pd_template prompt))
               (model_overrides (config self) p model)
               defaults) /\
  (model_overrides (config self) p model = [("temperature", VFloat (1 # 2))] ->
   template_parameters (pd_template prompt) = [("max_tokens", VInt 800)] ->
   params = [("max_tokens", VInt 800); ("temperature", VFloat (1 # 2));
             ("timeout", VInt 30)]).
Proof.
  intros Hprep. apply prepare_call_ready in Hprep as (_ & _ & _ & ->).
  repeat split.
  - intros k. unfold layered.
    rewrite dict_lookup_merge, get_model_parameters_layers. reflexivity.
  - intros Hover Htemplate. rewrite Htemplate.
    unfold get_model_parameters.
    unfold model_overrides in Hover.
    destruct (dict_lookup p (providers (config self))) as [pc|].
    + rewrite Hover. reflexivity.
    + discriminate Hover.
Qed.

Lemma call_parameters_layered_witness :
  prepare_call sample_world sample_client "pr_analysis" sample_variables "openai" =
  inr (Ready {| pd_system := "You review pull requests of debian_template_build.";
                pd_user := "Analyze: Fix preseed";
                pd_template := sample_template |}
             "gpt-4o-mini"
             [("max_tokens", VInt 800); ("temperature", VFloat (1 # 2));
              ("timeout", VInt 30)]).
Proof.
  pose proof (call_parameters_layered sample_world sample_client "pr_analysis"
                sample_variables "openai"
                {| pd_system := "You review pull requests of debian_template_build.";
                   pd_user := "Analyze: Fix preseed";
                   pd_template := sample_template |}
                "gpt-4o-mini"
                (dict_merge (get_model_parameters sample_client "gpt-4o-mini" "openai")
                            (template_parameters sample_template))
                eq_refl) as (_ & _ & _ & _ & Hexample).
  rewrite <- (Hexample eq_refl eq_refl). reflexivity.
Defined.

(** ** Usage accounting *)



Lemma fallback_has_no_usage (task_name : string) (r : CallResult) (u : Usage) :
  cr_usage r = Some u -> r <> _fallback_response task_name.
Proof. intros Hu ->. discriminate Hu. Qed.


(** The statistics after one answered call in the sample deployment. *)
Lemma usage_summary_sample :
  get_usage_summary
    (self (snd (call_ai sample_world "pr_analysis" sample_variables None sample_state)))
  = {| requests_made := 1;
       summary_total_tokens := 9;
       estimated_cost_usd := py_round4 ((0 + (3 / 1000 * (15 # 100000)
                                              + 4 / 1000 * (60 # 100000)))%Q);
       summary_active_provider := Some "openai";
       available_providers := ["openai"; "anthropic"] |}.
Proof. vm_compute. reflexivity. Qed.




(** ** Configuration loading *)

(** C2, as stated, fails: when no path is passed and the default
    configuration file is missing, [__init__] raises [FileNotFoundError]
    from [_find_config_file]; no client is constructed. *)
Lemma init_raises_without_config_file :
  config_files world_without_config
    (path_join (script_dir world_without_config) "ai_config.yml") = Absent /\
  __init__ world_without_config None [] =
  (inl (Exn FileNotFoundError
          "AI config file not found: /repo/.github/scripts/ai_config.yml"),
   []).
Proof. split; vm_compute; reflexivity. Qed.

(** The same in every world: without a path argument, a missing default
    file makes [__init__] raise. *)
Lemma init_without_default_file (w : world) (out : list string) :
  config_files w (path_join (script_dir w) "ai_config.yml") = Absent ->
  __init__ w None out =
  (inl (Exn FileNotFoundError
          ("AI config file not found: " +:+ path_join (script_dir w) "ai_config.yml")),
   out).
Proof.
  intros Habsent. rewrite init_run.
  unfold resolved_config_path, _find_config_file, exists_. simpl.
  rewrite Habsent. reflexivity.
Qed.

(** C2, amended. Once [__init__] has a path to load (the path passed to
    it, or the default file when that exists), a failure to open or parse
    the file at that path does not surface: the client is constructed with
    the hardcoded minimal configuration, whose [provider_priority] is
    [['openai', 'anthropic']] and whose [task_models] is empty. *)
Theorem init_config_fallback (w : world) (config_path : option string)
  (path : string) (e : exn) (out : list string) :
  resolved_config_path w config_path = inr path ->
  open_yaml (config_files w) path = inl e ->
  exists c out',
    __init__ w config_path out = (inr c, out') /\
    config c = minimal_fallback_config /\
    provider_priority (config c) = ["openai"; "anthropic"] /\
    task_models (config c) = [].
Proof.
  intros Hpath Hopen. rewrite init_run, Hpath.
  eexists. eexists. split; [reflexivity|].
  assert (Hcfg : config (set_usage_stats no_usage
            (self (snd (_setup_clients w
                          {| self := initial_self w path;
                             stdout := out ++ load_report w path |}))))
          = minimal_fallback_config).
  { rewrite setup_clients_self. simpl.
    destruct (after_providers_frame w (provider_priority (loaded_config w path))
                {| self := initial_self w path; stdout := out ++ load_report w path |})
      as (Hc & _).
    rewrite Hc. simpl. unfold loaded_config. rewrite Hopen. reflexivity. }
  rewrite Hcfg. repeat split.
Qed.

Lemma init_config_fallback_witness :
  exists c out',
    __init__ sample_world (Some "ci/ai_settings.yml") [] = (inr c, out') /\
    config c = minimal_fallback_config /\
    provider_priority (config c) = ["openai"; "anthropic"] /\
    task_models (config c) = [].
Proof.
  apply (init_config_fallback sample_world (Some "ci/ai_settings.yml")
           "ci/ai_settings.yml"
           (Exn FileNotFoundError
              "[Errno 2] No such file or directory: 'ci/ai_settings.yml'")
           []).
  - reflexivity.
  - reflexivity.
Defined.

(** A construction failure is reported and the loop goes on: the next
    provider becomes the active one. *)
Lemma setup_clients_after_failure :
  __init__ world_openai_rejected None [] =
  (inr {| config_path := "/repo/.github/scripts/ai_config.yml";
          config := sample_config;
          prompts_dir := "/repo/.github/scripts/prompts";
          clients := [("anthropic", AnthropicClient "sk-anthropic")];
          active_provider := Some "anthropic";
          usage_stats := no_usage |},
   ["âœ“ AI configuration loaded"; "Warning: OpenAI client failed: invalid api key";
    "âœ“ Anthropic client initialized"]).
Proof. vm_compute. reflexivity. Qed.

Lemma setup_clients_registry_witness :
  active_provider
    (self (snd (_setup_clients sample_world
                  {| self := empty_registry sample_client; stdout := [] |})))
  = Some "openai".
Proof.
  exact (proj1 (proj2 (setup_clients_registry sample_world sample_client []))).
Defined.

(** * Further properties of the client *)

(** ** Cost estimation *)


Lemma estimate_cost_value (self : AIClient) (provider model : string)
  (input_tokens output_tokens : Z) :
  estimate_cost self provider model input_tokens output_tokens =
  inr (match configured_prices (config self) provider model with
       | Some (input_price, output_price) =>
           (inject_Z input_tokens / 1000 * input_price
            + inject_Z output_tokens / 1000 * output_price)%Q
       | None => 0%Q
       end).
Proof.
  unfold estimate_cost, configured_prices, subscript, price, and_then.
  destruct (dict_lookup provider _) as [pc|]; simpl; [|reflexivity].
  destruct (dict_lookup model _) as [pr|]; simpl; [|reflexivity].
  destruct (price_input pr); simpl; [|reflexivity].
  destruct (price_output pr); reflexivity.
Qed.






(** ** What a call does to the state *)

Lemma make_api_call_shape (w : world) (self : AIClient) (provider model : string)
  (prompt : prompt_data) (params : dict PyVal) (result : CallResult) :
  _make_api_call w self provider model prompt params = inr result ->
  cr_provider result = provider /\ cr_model result = Some model /\
  cr_error result = None /\ cr_task result = None /\
  exists u, cr_usage result = Some u.
Proof.
  unfold _make_api_call, and_then.
  destruct (String.eqb provider "openai").
  - destruct (subscript _ _) as [e|client]; [discriminate|].
    destruct (create_chat_completion _ _ _) as [e|response]; [discriminate|].
    destruct (first_item _) as [e|content]; [discriminate|].
    destruct (or_usage response) as [u|]; [|discriminate].
    intros [= <-]. simpl. eauto 6.
  - destruct (String.eqb provider "anthropic"); [|discriminate].
    destruct (subscript _ _) as [e|client]; [discriminate|].
    destruct (create_message _ _ _) as [e|response]; [discriminate|].
    destruct (first_item _) as [e|[text|]]; try discriminate.
    intros [= <-]. simpl. eauto 6.
Qed.

Lemma get_model_for_task_value (self : AIClient) (task_name : string)
  (provider : option string) :
  get_model_for_task self task_name provider =
  inr (resolve_model (config self) task_name (py_or provider (active_provider self))).
Proof.
  unfold get_model_for_task, resolve_model, task_complexity, subscript, dict_mem.
  destruct (py_or provider (active_provider self)) as [p|]; simpl; [|reflexivity].
  destruct (String.eqb p ""); simpl; [reflexivity|].
  destruct (dict_lookup p (providers (config self))) as [pc|]; simpl; [|reflexivity].
  destruct (dict_lookup task_name (task_models (config self))) as [tm|]; reflexivity.
Qed.

(** The three ways [call_ai] ends: without a word, after catching an
    exception, or with the result of a provider. *)
Lemma call_ai_outcome (w : world) (task_name : string) (variables : dict PyVal)
  (provider : option string) (st : state) :
  call_ai w task_name variables provider st = (inr (_fallback_response task_name), st)
  \/ (exists e,
        call_ai w task_name variables provider st =
        (inr (_fallback_response task_name), log (failure_line task_name e) st))
  \/ (exists p prompt model params result,
        effective_provider (self st) provider = Some p /\
        prepare_call w (self st) task_name variables p = inr (Ready prompt model params) /\
        _make_api_call w (self st) p model prompt params = inr result /\
        call_ai w task_name variables provider st =
        (inr result, tracked p model result st)).
Proof.
  destruct (effective_provider (self st) provider) as [p|] eqn:Hp.
  - rewrite (call_ai_with_provider _ _ _ _ _ _ Hp).
    destruct (prepare_call w (self st) task_name variables p)
      as [e|[|prompt model params]] eqn:Hprep; [right; left; eauto | left; reflexivity |].
    destruct (_make_api_call w (self st) p model prompt params) as [e|result] eqn:Hcall.
    + right. left. eauto.
    + right. right. exists p, prompt, model, params, result. auto.
  - left. apply call_ai_without_provider, Hp.
Qed.





(** X4. A result that is not the fallback result names the provider that
    [call_ai] used (the argument, or else the active provider) and the
    model that [get_model_for_task] resolves for the task and this
    provider; it has a usage and neither [error] nor [task]. *)
Theorem call_ai_result_names_provider_and_model (w : world) (task_name : string)
  (variables : dict PyVal) (provider : option string) (st : state) (r : CallResult) :
  fst (call_ai w task_name variables provider st) = inr r ->
  r <> _fallback_response task_name ->
  exists p model u,
    effective_provider (self st) provider = Some p /\
    get_model_for_task (self st) task_name (Some p) = inr (Some model) /\
    cr_provider r = p /\ cr_model r = Some model /\ cr_usage r = Some u /\
    cr_error r = None /\ cr_task r = None.
Proof.
  intros Hr Hnot.
  destruct (call_ai_outcome w task_name variables provider st)
    as [Hq | [(e & Hq) | (p & prompt & model & params & result & Hp & Hprep & Hcall & Hq)]];
    rewrite Hq in Hr; simpl in Hr; injection Hr as <-; try congruence.
  destruct (make_api_call_shape _ _ _ _ _ _ _ Hcall) as (H1 & H2 & H3 & H4 & u & Hu).
  apply prepare_call_ready in Hprep as (_ & Hmodel & _ & _).
  exists p, model, u. auto 8.
Qed.

Lemma call_ai_result_names_provider_and_model_witness :
  exists p model u,
    effective_provider sample_client None = Some p /\
    get_model_for_task sample_client "pr_analysis" (Some p) = inr (Some model) /\
    cr_provider {| cr_content := Some "Looks good."; cr_model := Some "gpt-4o-mini";
                   cr_provider := "openai";
                   cr_usage := Some {| prompt_tokens := 3; completion_tokens := 4;
                                       total_tokens := 9 |};
                   cr_error := None; cr_task := None |} = p /\
    cr_model {| cr_content := Some "Looks good."; cr_model := Some "gpt-4o-mini";
                cr_provider := "openai";
                cr_usage := Some {| prompt_tokens := 3; completion_tokens := 4;
                                    total_tokens := 9 |};
                cr_error := None; cr_task := None |} = Some model /\
    cr_usage {| cr_content := Some "Looks good."; cr_model := Some "gpt-4o-mini";
                cr_provider := "openai";
                cr_usage := Some {| prompt_tokens := 3; completion_tokens := 4;
                                    total_tokens := 9 |};
                cr_error := None; cr_task := None |} = Some u /\
    cr_error {| cr_content := Some "Looks good."; cr_model := Some "gpt-4o-mini";
                cr_provider := "openai";
                cr_usage := Some {| prompt_tokens := 3; completion_tokens := 4;
                                    total_tokens := 9 |};
                cr_error := None; cr_task := None |} = None /\
    cr_task {| cr_content := Some "Looks good."; cr_model := Some "gpt-4o-mini";
               cr_provider := "openai";
               cr_usage := Some {| prompt_tokens := 3; completion_tokens := 4;
                                   total_tokens := 9 |};
               cr_error := None; cr_task := None |} = None.
Proof.
  apply (call_ai_result_names_provider_and_model sample_world "pr_analysis"
           sample_variables None sample_state).
  - reflexivity.
  - discriminate.
Defined.

(** X5. A provider that is asked for by name and has no handle is not
    replaced by the active provider: [call_ai] returns the fallback result
    without rendering, calling or printing anything. *)
Theorem call_ai_requested_provider_unavailable (w : world) (task_name : string)
  (variables : dict PyVal) (p : string) (st : state) :
  p <> "" ->
  dict_mem p (clients (self st)) = false ->
  call_ai w task_name variables (Some p) st = (inr (_fallback_response task_name), st).
Proof.
  intros Hp Hmem. apply call_ai_without_provider.
  unfold effective_provider, py_or. simpl.
  apply String.eqb_neq in Hp. rewrite Hp. simpl. rewrite Hp, Hmem. reflexivity.
Qed.

Lemma call_ai_requested_provider_unavailable_witness :
  call_ai sample_world "pr_analysis" sample_variables (Some "openai")
    {| self := anthropic_only_client; stdout := [] |} =
  (inr (_fallback_response "pr_analysis"),
   {| self := anthropic_only_client; stdout := [] |}).
Proof.
  apply (call_ai_requested_provider_unavailable sample_world "pr_analysis"
           sample_variables "openai" {| self := anthropic_only_client; stdout := [] |}).
  - discriminate.
  - reflexivity.
Defined.

(** X6. When the prompt renders and no model resolves for the provider
    (the configuration does not name the provider, or has neither an entry
    for the complexity nor a default model, or the model is empty),
    [call_ai] returns the fallback result without calling the provider,
    and neither prints nor counts anything. *)
Theorem call_ai_without_model (w : world) (task_name : string)
  (variables : dict PyVal) (provider : option string) (p : string) (st : state)
  (prompt : prompt_data) :
  effective_provider (self st) provider = Some p ->
  render_prompt w (self st) task_name variables = inr prompt ->
  str_truthy (resolve_model (config (self st)) task_name (Some p)) = false ->
  call_ai w task_name variables provider st = (inr (_fallback_response task_name), st).
Proof.
  intros Hp Hrender Hmodel. rewrite (call_ai_with_provider _ _ _ _ _ _ Hp).
  destruct (effective_provider_some _ _ _ Hp) as (_ & Ht & _).
  assert (Hm : get_model_for_task (self st) task_name (Some p) =
               inr (resolve_model (config (self st)) task_name (Some p))).
  { rewrite get_model_for_task_value. unfold py_or. rewrite Ht. reflexivity. }
  unfold prepare_call, and_then. rewrite Hrender, Hm, Hmodel. reflexivity.
Qed.

Lemma call_ai_without_model_witness :
  call_ai sample_world "pr_analysis" sample_variables None
    {| self := unconfigured_client; stdout := [] |} =
  (inr (_fallback_response "pr_analysis"),
   {| self := unconfigured_client; stdout := [] |}).
Proof.
  apply (call_ai_without_model sample_world "pr_analysis" sample_variables None
           "openai" {| self := unconfigured_client; stdout := [] |}
           {| pd_system := "You review pull requests of debian_template_build.";
              pd_user := "Analyze: Fix preseed";
              pd_template := sample_template |}).
  - reflexivity.
  - reflexivity.
  - reflexivity.
Defined.

(** ** The request sent to a provider *)

Lemma param_set_other (params : dict PyVal) (k k' : string) (v d : PyVal) :
  String.eqb k k' = false ->
  param (dict_set k v params) k' d = param params k' d.
Proof. intros H. unfold param. rewrite dict_lookup_set, H. reflexivity. Qed.

(** X7. The [timeout] parameter never reaches a provider: whatever value
    the configuration or the template gives it, [_make_api_call] sends the
    same request and returns the same. On the Anthropic path the same
    holds for [response_format]. *)
Theorem make_api_call_ignores_timeout (w : world) (self : AIClient)
  (provider model : string) (prompt : prompt_data) (params : dict PyVal)
  (v : PyVal) :
  _make_api_call w self provider model prompt (dict_set "timeout" v params) =
    _make_api_call w self provider model prompt params /\
  _make_api_call w self "anthropic" model prompt (dict_set "response_format" v params) =
    _make_api_call w self "anthropic" model prompt params.
Proof.
  assert (Ho : openai_request model prompt (dict_set "timeout" v params)
               = openai_request model prompt params).
  { unfold openai_request. rewrite !param_set_other by reflexivity.
    rewrite dict_lookup_set. reflexivity. }
  assert (Ha : forall k, String.eqb k "max_tokens" = false ->
                 String.eqb k "temperature" = false ->
                 anthropic_request model prompt (dict_set k v params)
                 = anthropic_request model prompt params).
  { intros k H1 H2. unfold anthropic_request.
    rewrite !param_set_other by assumption. reflexivity. }
  split.
  - unfold _make_api_call. rewrite Ho, (Ha "timeout") by reflexivity. reflexivity.
  - unfold _make_api_call. simpl. rewrite (Ha "response_format") by reflexivity.
    reflexivity.
Qed.

(** ** Prompt templates and format strings *)

(** X8. A template file that exists and cannot be opened or parsed makes
    [load_prompt_template], and with it [render_prompt], raise a
    [ValueError] that names the template and carries the message of the
    cause, whatever the class of the cause. *)
Theorem load_prompt_template_unreadable (w : world) (self : AIClient)
  (template_name : string) (variables : dict PyVal) (cause : exn) :
  template_files w (path_join (prompts_dir self) (template_name +:+ ".yml"))
    = Present (inl cause) ->
  load_prompt_template w self template_name =
    inl (Exn ValueError
           ("Error loading template " +:+ template_name +:+ ": " +:+ exn_str cause)) /\
  render_prompt w self template_name variables =
    inl (Exn ValueError
           ("Error loading template " +:+ template_name +:+ ": " +:+ exn_str cause)).
Proof.
  intros Hfile.
  assert (Hload : load_prompt_template w self template_name =
    inl (Exn ValueError
           ("Error loading template " +:+ template_name +:+ ": " +:+ exn_str cause))).
  { unfold load_prompt_template, exists_, open_yaml. rewrite Hfile. reflexivity. }
  split; [exact Hload|]. unfold render_prompt. rewrite Hload. reflexivity.
Qed.

Lemma load_prompt_template_unreadable_witness :
  render_prompt world_unreadable_template sample_client "pr_analysis" sample_variables =
  inl (Exn ValueError
         "Error loading template pr_analysis: mapping values are not allowed here").
Proof.
  apply (load_prompt_template_unreadable world_unreadable_template sample_client
           "pr_analysis" sample_variables
           (Exn (OtherException "ScannerError") "mapping values are not allowed here")).
  reflexivity.
Defined.

Lemma format_scan_literal_char (w : world) (vars : dict PyVal) (c : ascii)
  (r : string) :
  Ascii.eqb c "{" = false -> Ascii.eqb c "}" = false ->
  format_scan w vars None (String c r) =
  prepend (String c "") (format_scan w vars None r).
Proof.
  intros H1 H2. cbn [format_scan].
  destruct c as [[] [] [] [] [] [] [] []]; try reflexivity; discriminate.
Qed.

(** X9. Doubling the braces of a text protects it: [format] gives the text
    back, whatever the variables are. In particular a prompt without
    braces is rendered as it is. *)
Theorem format_escaped_text (w : world) (vars : dict PyVal) (s : string) :
  py_format w (escape_braces s) vars = inr s /\
  (literal_text s = true -> py_format w s vars = inr s).
Proof.
  unfold py_format.
  assert (Hesc : format_scan w vars None (escape_braces s) = inr s).
  { induction s as [|c s IH]; [reflexivity|].
    cbn [escape_braces].
    destruct (Ascii.eqb_spec c "{") as [->|Hl].
    - cbn [format_scan]. rewrite IH. reflexivity.
    - destruct (Ascii.eqb_spec c "}") as [->|Hr].
      + cbn [format_scan]. rewrite IH. reflexivity.
      + rewrite format_scan_literal_char, IH; [reflexivity | |];
          apply Ascii.eqb_neq; assumption. }
  split; [exact Hesc|].
  intros Hlit.
  assert (Hid : escape_braces s = s).
  { clear Hesc. induction s as [|c s IH]; [reflexivity|].
    simpl in Hlit. apply andb_true_iff in Hlit as [Hc Hlit].
    apply negb_true_iff, orb_false_iff in Hc as [H1 H2].
    cbn [escape_braces]. rewrite H1, H2, (IH Hlit). reflexivity. }
  rewrite Hid in Hesc. exact Hesc.
Qed.

(** X10. A replacement field that names a variable is replaced by the
    [str] of its value, and the text after it is formatted in turn. *)
Theorem format_substitutes_variable (w : world) (vars : dict PyVal)
  (before name after : string) (v : PyVal) :
  literal_text before = true ->
  plain_name name = true ->
  dict_lookup name vars = Some v ->
  py_format w (before +:+ "{" +:+ name +:+ "}" +:+ after) vars =
  prepend (before +:+ py_str w v) (py_format w after vars).
Proof.
  intros Hlit Hname Hfound. unfold py_format, plain_name in *.
  apply andb_true_iff in Hname as [Hname Hplain].
  apply andb_true_iff in Hname as [Hne Hnum].
  apply negb_true_iff in Hne, Hnum.
  induction before as [|c before IH].
  - change ("" +:+ "{" +:+ name +:+ "}" +:+ after)
      with (String "{" (name +:+ "}" +:+ after)).
    change ("" +:+ py_str w v) with (py_str w v).
    assert (Hfield : format_scan w vars (Some "") (name +:+ "}" +:+ after)
                     = prepend (py_str w v) (format_scan w vars None after)).
    { rewrite format_scan_plain_field by exact Hplain.
      change ("" +:+ name) with name.
      unfold format_field. rewrite Hne, Hnum, Hfound. reflexivity. }
    destruct name as [|d name].
    + discriminate Hne.
    + rewrite append_cons in *. simpl in Hplain.
      apply andb_true_iff in Hplain as [Hd _].
      unfold plain_char in Hd. apply negb_true_iff in Hd.
      cbn [format_scan].
      destruct d as [[] [] [] [] [] [] [] []]; try exact Hfield; discriminate Hd.
  - simpl in Hlit. apply andb_true_iff in Hlit as [Hc Hlit].
    rewrite (append_cons c before ("{" +:+ name +:+ "}" +:+ after)),
      (append_cons c before (py_str w v)).
    specialize (IH Hlit).
    apply negb_true_iff, orb_false_iff in Hc as [Hc1 Hc2].
    rewrite format_scan_literal_char, IH by assumption.
    destruct (format_scan w vars None after); reflexivity.
Qed.

Lemma format_substitutes_variable_witness :
  py_format sample_world "Analyze: {pr_title}" sample_variables =
  inr "Analyze: Fix preseed".
Proof.
  apply (format_substitutes_variable sample_world sample_variables
           "Analyze: " "pr_title" "" (VStr "Fix preseed")).
  - reflexivity.
  - reflexivity.
  - reflexivity.
Defined.

(** ** The registry as the summary shows it *)

Lemma dict_mem_keys {V} (k : string) (d : dict V) :
  dict_mem k d = true <-> In k (dict_keys d).
Proof.
  unfold dict_mem, dict_keys. induction d as [|[k' v'] d IH]; simpl.
  - split; [discriminate | tauto].
  - destruct (dict_lookup k d) as [x|].
    + split; [intros _; right; apply IH; reflexivity | reflexivity].
    + destruct (String.eqb_spec k k') as [->|Hne].
      * split; [left | ]; reflexivity.
      * split; [discriminate|]. intros [Heq | Hin]; [congruence|].
        apply IH in Hin. discriminate.
Qed.

Lemma dict_keys_set {V} (k : string) (v : V) (d : dict V) :
  dict_keys (dict_set k v d) =
  if dict_mem k d then dict_keys d else dict_keys d ++ [k].
Proof.
  unfold dict_set, dict_keys. destruct (dict_mem k d).
  - rewrite List.map_map. apply List.map_ext. intros [k' v']. simpl.
    destruct (String.eqb k k'); reflexivity.
  - rewrite List.map_app. reflexivity.
Qed.

Lemma List_NoDup_snoc {A} (l : list A) (x : A) :
  List.NoDup l -> ~ In x l -> List.NoDup (l ++ [x]).
Proof.
  induction 1 as [|y l Hy Hl IH]; simpl; intros Hx.
  - apply List.NoDup_cons; [intros [] | apply List.NoDup_nil].
  - apply List.NoDup_cons.
    + rewrite in_app_iff. simpl. intros [Hin | [-> | []]]; tauto.
    + apply IH. tauto.
Qed.

Lemma dict_keys_set_NoDup {V} (k : string) (v : V) (d : dict V) :
  List.NoDup (dict_keys d) -> List.NoDup (dict_keys (dict_set k v d)).
Proof.
  intros Hd. rewrite dict_keys_set. destruct (dict_mem k d) eqn:Hm; [exact Hd|].
  apply List_NoDup_snoc; [exact Hd|].
  intros Hin. apply dict_mem_keys in Hin. congruence.
Qed.

Lemma registry_after_NoDup (w : world) (ps : list string) (cl : dict handle) :
  List.NoDup (dict_keys cl) -> List.NoDup (dict_keys (registry_after w ps cl)).
Proof.
  unfold registry_after. revert cl.
  induction ps as [|p ps IH]; intros cl Hcl; simpl; [exact Hcl|].
  apply IH. destruct (handle_of w p); [apply dict_keys_set_NoDup|]; exact Hcl.
Qed.

Lemma registry_after_head (w : world) (ps : list string) (cl : dict handle) :
  head (dict_keys (registry_after w ps cl)) =
  match cl with
  | [] => first_active w ps
  | _ => head (dict_keys cl)
  end.
Proof.
  unfold registry_after, first_active, activates. revert cl.
  induction ps as [|p ps IH]; intros cl; simpl.
  - destruct cl; reflexivity.
  - rewrite IH. destruct (handle_of w p) as [h|]; simpl; [|reflexivity].
    destruct cl as [|[k v] cl]; [reflexivity|].
    pose proof (dict_keys_set p h ((k, v) :: cl)) as Hk.
    destruct (dict_set p h ((k, v) :: cl)) as [|[k' v'] cl'] eqn:Hset.
    + simpl in Hk. destruct (dict_mem p ((k, v) :: cl)); [discriminate|].
      destruct (dict_keys cl); discriminate.
    + simpl in Hk. destruct (dict_mem p ((k, v) :: cl)).
      * injection Hk as -> _. reflexivity.
      * injection Hk as -> _. reflexivity.
Qed.

(** X11. In the summary of a client that [__init__] returns, the active
    provider is the first of the available providers (and unset exactly
    when there is none); the available providers are listed once each and
    are ['openai'] and ['anthropic'] at most. *)
Theorem summary_lists_active_provider_first (w : world)
  (config_path : option string) (out out' : list string) (c : AIClient) :
  __init__ w config_path out = (inr c, out') ->
  head (available_providers (get_usage_summary c))
    = summary_active_provider (get_usage_summary c) /\
  List.NoDup (available_providers (get_usage_summary c)) /\
  (forall p, In p (available_providers (get_usage_summary c)) -> known_provider p) /\
  length (available_providers (get_usage_summary c)) <= 2.
Proof.
  intros Hinit.
  destruct (init_client _ _ _ _ _ Hinit) as (path & _ & _ & Hcl & Hact & _).
  simpl. rewrite Hcl, Hact.
  assert (Hnodup : List.NoDup (dict_keys (registry_after w
                     (provider_priority (loaded_config w path)) []))).
  { apply registry_after_NoDup. apply List.NoDup_nil. }
  assert (Hknown : forall p, In p (dict_keys (registry_after w
                     (provider_priority (loaded_config w path)) [])) ->
                   known_provider p).
  { intros p Hp. apply dict_mem_keys in Hp. eapply dict_mem_registry_after, Hp. }
  split; [apply registry_after_head|]. split; [exact Hnodup|].
  split; [exact Hknown|].
  change 2 with (length ["openai"; "anthropic"]).
  apply NoDup_incl_length; [exact Hnodup|].
  intros p Hp. destruct (Hknown p Hp) as [-> | ->]; simpl; auto.
Qed.

Lemma summary_lists_active_provider_first_witness :
  head (available_providers (get_usage_summary anthropic_only_client))
  = summary_active_provider (get_usage_summary anthropic_only_client).
Proof.
  refine (proj1 (summary_lists_active_provider_first world_openai_rejected None []
                   ["âœ“ AI configuration loaded";
                    "Warning: OpenAI client failed: invalid api key";
                    "âœ“ Anthropic client initialized"]
                   anthropic_only_client _)).
  vm_compute. reflexivity.
Defined.

(** ** A client on the minimal configuration *)

(** X12. When the configuration cannot be loaded, the client still resolves
    a model for every task: the default model of the provider, with the
    default parameters, and every cost estimate is [0]. *)
Theorem degraded_configuration_resolves (w : world) (config_path : option string)
  (path : string) (e : exn) (out : list string) :
  resolved_config_path w config_path = inr path ->
  open_yaml (config_files w) path = inl e ->
  exists c out',
    __init__ w config_path out = (inr c, out') /\
    (forall task_name,
       get_model_for_task c task_name (Some "openai") = inr (Some "gpt-4o-mini") /\
       get_model_for_task c task_name (Some "anthropic")
       = inr (Some "claude-3-5-haiku-20241022")) /\
    (forall model provider, get_model_parameters c model provider = defaults) /\
    (forall provider model input_tokens output_tokens,
       estimate_cost c provider model input_tokens output_tokens = inr 0%Q).
Proof.
  intros Hpath Hopen.
  destruct (__init__ w config_path out) as [r out'] eqn:Hinit.
  pose proof Hinit as Hrun. rewrite init_run, Hpath in Hrun.
  injection Hrun as <- _. eexists. exists out'. split; [reflexivity|].
  destruct (init_client _ _ _ _ _ Hinit) as (path' & Hpath' & Hcfg & _).
  rewrite Hpath in Hpath'. injection Hpath' as <-.
  unfold loaded_config in Hcfg. rewrite Hopen in Hcfg.
  split; [|split].
  - intros task_name. rewrite !get_model_for_task_value, Hcfg. split; reflexivity.
  - intros model provider. unfold get_model_parameters. rewrite Hcfg. simpl.
    destruct (String.eqb provider "anthropic"); [reflexivity|].
    destruct (String.eqb provider "openai"); reflexivity.
  - intros provider model i o. rewrite estimate_cost_value.
    unfold configured_prices. rewrite Hcfg. simpl.
    destruct (String.eqb provider "anthropic"); [reflexivity|].
    destruct (String.eqb provider "openai"); reflexivity.
Qed.

Lemma degraded_configuration_resolves_witness :
  exists c out',
    __init__ sample_world (Some "ci/ai_settings.yml") [] = (inr c, out') /\
    (forall task_name,
       get_model_for_task c task_name (Some "openai") = inr (Some "gpt-4o-mini") /\
       get_model_for_task c task_name (Some "anthropic")
       = inr (Some "claude-3-5-haiku-20241022")) /\
    (forall model provider, get_model_parameters c model provider = defaults) /\
    (forall provider model input_tokens output_tokens,
       estimate_cost c provider model input_tokens output_tokens = inr 0%Q).
Proof.
  apply (degraded_configuration_resolves sample_world (Some "ci/ai_settings.yml")
           "ci/ai_settings.yml"
           (Exn FileNotFoundError
              "[Errno 2] No such file or directory: 'ci/ai_settings.yml'")
           []).
  - reflexivity.
  - reflexivity.
Defined.

(** * Properties of the scripts that use the client *)

(** ** The rule-based release analysis *)

Section RuleBasedAnalysisFacts.

Variable lower : string -> string.

Lemma classify_commit_lists (c : commit) (acc : classification) :
  cl_breaking_changes (classify_commit lower acc c) =
    cl_breaking_changes acc ++ (if is_breaking lower c then [commit_summary c] else []) /\
  cl_new_features (classify_commit lower acc c) =
    cl_new_features acc ++ (if is_feature lower c then [commit_summary c] else []) /\
  cl_bug_fixes (classify_commit lower acc c) =
    cl_bug_fixes acc ++ (if is_fix lower c then [commit_summary c] else []).
Proof.
  unfold classify_commit, is_fix, is_feature, is_breaking.
  destruct (any_in breaking_words (lower (commit_message c))),
    (any_in feature_words (lower (commit_message c))),
    (any_in fix_words (lower (commit_message c)));
    simpl; rewrite ?app_nil_r; repeat split.
Qed.

Lemma classify_commits_lists (cs : list commit) (acc : classification) :
  cl_breaking_changes (fold_left (classify_commit lower) cs acc) =
    cl_breaking_changes acc ++ map commit_summary (List.filter (is_breaking lower) cs) /\
  cl_new_features (fold_left (classify_commit lower) cs acc) =
    cl_new_features acc ++ map commit_summary (List.filter (is_feature lower) cs) /\
  cl_bug_fixes (fold_left (classify_commit lower) cs acc) =
    cl_bug_fixes acc ++ map commit_summary (List.filter (is_fix lower) cs).
Proof.
  revert acc. induction cs as [|c cs IH]; intros acc.
  - simpl. rewrite !app_nil_r. auto.
  - cbn [fold_left List.filter].
    destruct (IH (classify_commit lower acc c)) as (H1 & H2 & H3).
    destruct (classify_commit_lists c acc) as (S1 & S2 & S3).
    rewrite H1, H2, H3, S1, S2, S3. clear.
    destruct (is_breaking lower c), (is_feature lower c), (is_fix lower c);
      cbn [map]; rewrite <- ?app_assoc, ?app_nil_r; repeat split.
Qed.

Lemma classify_commits_bump (cs : list commit) (acc : classification) :
  cl_version_bump (fold_left (classify_commit lower) cs acc) =
  if existsb (is_breaking lower) cs then "major"
  else if existsb (is_feature lower) cs
       then (if String.eqb (cl_version_bump acc) "major" then "major" else "minor")
       else cl_version_bump acc.
Proof.
  revert acc. induction cs as [|c cs IH]; intros acc; simpl; [reflexivity|].
  rewrite IH. clear IH.
  assert (Hstep : cl_version_bump (classify_commit lower acc c) =
            if is_breaking lower c then "major"
            else if is_feature lower c
                 then (if String.eqb (cl_version_bump acc) "major" then "major"
                       else "minor")
                 else cl_version_bump acc).
  { unfold classify_commit, is_feature, is_breaking.
    destruct (any_in breaking_words (lower (commit_message c))),
      (any_in feature_words (lower (commit_message c))),
      (any_in fix_words (lower (commit_message c))); simpl; try reflexivity;
      destruct (String.eqb_spec (cl_version_bump acc) "major") as [->|];
      reflexivity. }
  rewrite Hstep. clear Hstep.
  destruct (is_breaking lower c), (is_feature lower c),
    (existsb (is_breaking lower) cs), (existsb (is_feature lower) cs);
    simpl; try reflexivity;
    destruct (String.eqb (cl_version_bump acc) "major"); reflexivity.
Qed.

Lemma rule_based_result_value (commits : list commit)
  (changed_files : dict (list string)) :
  exists r,
    rule_based_result lower commits changed_files = inr r /\
    should_release r = (0 <? length commits)%nat /\
    version_bump r =
      (if existsb (is_breaking lower) commits then "major"
       else if existsb (is_feature lower) commits
               || list_truthy (dict_lookup "vars" changed_files)
               || list_truthy (dict_lookup "defaults" changed_files)
            then "minor" else "patch") /\
    breaking_changes r =
      firstn 5 (map commit_summary (List.filter (is_breaking lower) commits)) /\
    new_features r =
      firstn 5 (map commit_summary (List.filter (is_feature lower) commits)) /\
    bug_fixes r =
      firstn 5 (map commit_summary (List.filter (is_fix lower) commits)).
Proof.
  unfold rule_based_result, rule_based_analysis. run_monad.
  eexists. split; [reflexivity|]. simpl.
  destruct (classify_commits_lists commits
              {| cl_version_bump := "patch"; cl_breaking_changes := [];
                 cl_new_features := []; cl_bug_fixes := [] |}) as (H1 & H2 & H3).
  simpl in H1, H2, H3. rewrite H1, H2, H3, classify_commits_bump. simpl.
  split; [reflexivity|]. split; [|auto].
  destruct (existsb (is_breaking lower) commits);
    destruct (existsb (is_feature lower) commits);
    destruct (list_truthy (dict_lookup "vars" changed_files));
    destruct (list_truthy (dict_lookup "defaults" changed_files)); reflexivity.
Qed.

(** X13. The version bump of the rule-based analysis is ['major'] exactly
    when some commit message, in lower case, has a breaking word; failing
    that it is ['minor'] when a message has a feature word or a file under
    [vars] or [defaults] changed; otherwise it is ['patch']. A later
    feature commit never lowers ['major']. *)
Theorem rule_based_version_bump (commits : list commit)
  (changed_files : dict (list string)) :
  exists r,
    rule_based_result lower commits changed_files = inr r /\
    version_bump r =
      (if existsb (is_breaking lower) commits then "major"
       else if existsb (is_feature lower) commits
               || list_truthy (dict_lookup "vars" changed_files)
               || list_truthy (dict_lookup "defaults" changed_files)
            then "minor" else "patch") /\
    (version_bump r = "major" <-> existsb (is_breaking lower) commits = true).
Proof.
  destruct (rule_based_result_value commits changed_files) as (r & Hr & _ & Hb & _).
  exists r. split; [exact Hr|]. split; [exact Hb|]. rewrite Hb.
  destruct (existsb (is_breaking lower) commits); [tauto|].
  destruct (_ || _ || _); split; discriminate.
Qed.

(** X14. The rule-based analysis lists each commit under one heading at
    most: breaking if its message has a breaking word, else feature if it
    has a feature word, else fix if it has a fix word. Each list keeps the
    order of the commits and stops at five summaries; a release is
    proposed exactly when there is a commit. *)
Theorem rule_based_lists (commits : list commit)
  (changed_files : dict (list string)) :
  exists r,
    rule_based_result lower commits changed_files = inr r /\
    breaking_changes r =
      firstn 5 (map commit_summary (List.filter (is_breaking lower) commits)) /\
    new_features r =
      firstn 5 (map commit_summary (List.filter (is_feature lower) commits)) /\
    bug_fixes r =
      firstn 5 (map commit_summary (List.filter (is_fix lower) commits)) /\
    length (breaking_changes r) <= 5 /\ length (new_features r) <= 5 /\
    length (bug_fixes r) <= 5 /\
    (forall c, is_breaking lower c && is_feature lower c = false /\
               is_breaking lower c && is_fix lower c = false /\
               is_feature lower c && is_fix lower c = false) /\
    (should_release r = true <-> commits <> []).
Proof.
  destruct (rule_based_result_value commits changed_files)
    as (r & Hr & Hs & _ & H1 & H2 & H3).
  exists r. split; [exact Hr|]. rewrite H1, H2, H3, Hs.
  split; [reflexivity|]. split; [reflexivity|]. split; [reflexivity|].
  split; [apply firstn_le_length|]. split; [apply firstn_le_length|].
  split; [apply firstn_le_length|]. split.
  { intros c. unfold is_feature, is_fix.
    destruct (is_breaking lower c),
      (any_in feature_words (lower (commit_message c))),
      (any_in fix_words (lower (commit_message c))); repeat split. }
  split.
  - intros H ->. discriminate H.
  - intros H. destruct commits; [congruence | reflexivity].
Qed.

Lemma existsb_filter_nil {A} (f : A -> bool) (l : list A) :
  existsb f l = false <-> List.filter f l = [].
Proof.
  induction l as [|x l IH]; simpl; [tauto|].
  destruct (f x); simpl; [split; discriminate | exact IH].
Qed.

Lemma rule_based_changelog_value (commits : list commit)
  (changed_files : dict (list string)) :
  exists r,
    rule_based_result lower commits changed_files = inr r /\
    version_bump r =
      (if existsb (is_breaking lower) commits then "major"
       else if existsb (is_feature lower) commits
               || list_truthy (dict_lookup "vars" changed_files)
               || list_truthy (dict_lookup "defaults" changed_files)
            then "minor" else "patch") /\
    changelog_entry r =
      match
        (match map commit_summary (List.filter (is_breaking lower) commits) with
         | [] => []
         | b => [changelog_part "### Breaking Changes" b]
         end)
        ++ (match map commit_summary (List.filter (is_feature lower) commits) with
            | [] => []
            | f => [changelog_part "### Added" f]
            end)
        ++ (match map commit_summary (List.filter (is_fix lower) commits) with
            | [] => []
            | x => [changelog_part "### Fixed" x]
            end)
      with
      | [] => "### Changed" +:+ LF +:+ "- Minor updates and improvements"
      | parts => join (LF +:+ LF) parts
      end.
Proof.
  destruct (rule_based_result_value commits changed_files) as (r & Hr & _ & Hb & _).
  exists r. split; [exact Hr|]. split; [exact Hb|].
  unfold rule_based_result, rule_based_analysis in Hr. revert Hr. run_monad.
  intros [= <-]. simpl.
  destruct (classify_commits_lists commits
              {| cl_version_bump := "patch"; cl_breaking_changes := [];
                 cl_new_features := []; cl_bug_fixes := [] |}) as (H1 & H2 & H3).
  simpl in H1, H2, H3. rewrite H1, H2, H3.
  destruct (map commit_summary (List.filter (is_breaking lower) commits)),
    (map commit_summary (List.filter (is_feature lower) commits)),
    (map commit_summary (List.filter (is_fix lower) commits)); reflexivity.
Qed.

(** X15. The changelog entry of the rule-based analysis begins with the
    heading [### Breaking Changes] exactly when the version bump is
    ['major'], and it is the text [### Changed / - Minor updates and
    improvements] when no commit message has a word of the three lists. *)
Theorem rule_based_changelog_entry (commits : list commit)
  (changed_files : dict (list string)) :
  exists r,
    rule_based_result lower commits changed_files = inr r /\
    (String.prefix "### Breaking Changes" (changelog_entry r) = true
     <-> version_bump r = "major") /\
    (existsb (is_breaking lower) commits = false ->
     existsb (is_feature lower) commits = false ->
     existsb (is_fix lower) commits = false ->
     changelog_entry r = "### Changed" +:+ LF +:+ "- Minor updates and improvements").
Proof.
  destruct (rule_based_changelog_value commits changed_files) as (r & Hr & Hb & Hc).
  exists r. split; [exact Hr|]. rewrite Hb, Hc. clear Hr Hb Hc. split.
  - destruct (existsb (is_breaking lower) commits) eqn:Hex.
    + assert (Hne : List.filter (is_breaking lower) commits <> []).
      { intros Hnil. apply existsb_filter_nil in Hnil. congruence. }
      destruct (List.filter (is_breaking lower) commits) as [|c cs]; [congruence|].
      split; [reflexivity|]. intros _.
      destruct (map commit_summary (List.filter (is_feature lower) commits)),
        (map commit_summary (List.filter (is_fix lower) commits));
        vm_compute; reflexivity.
    + apply existsb_filter_nil in Hex. rewrite Hex.
      split; [|destruct (_ || _ || _); discriminate].
      destruct (map commit_summary (List.filter (is_feature lower) commits)),
        (map commit_summary (List.filter (is_fix lower) commits));
        vm_compute; discriminate.
  - intros H1 H2 H3. apply existsb_filter_nil in H1, H2, H3.
    rewrite H1, H2, H3. reflexivity.
Qed.

End RuleBasedAnalysisFacts.

Lemma rule_based_sample :
  rule_based_result ascii_lower sample_commits [("vars", ["defaults/main.yml"])] =
  inr {| should_release := true;
         version_bump := "major";
         reasoning := "Found 4 commits with major level changes";
         breaking_changes := ["Remove the legacy preseed template"];
         new_features := ["feat: add support for Debian 13"];
         bug_fixes := ["fix: correct the grub timeout"];
         changelog_entry :=
           "### Breaking Changes" +:+ LF +:+ "- Remove the legacy preseed template"
           +:+ LF +:+ LF
           +:+ "### Added" +:+ LF +:+ "- feat: add support for Debian 13"
           +:+ LF +:+ LF
           +:+ "### Fixed" +:+ LF +:+ "- fix: correct the grub timeout" |}.
Proof. vm_compute. reflexivity. Qed.

(** ** The basic analysis of a pull request *)

Section BasicAnalysisFacts.

Variable lower : string -> string.

Lemma basic_analysis_value (title : string) (files : list pr_file)
  (out : list string) :
  exists r,
    basic_analysis lower title (inr files) out
      = (inr r, out ++ ["🔧 Using basic analysis"]) /\
    change_type r = title_change_type lower title /\
    risk_level r = files_risk_level files /\
    documentation_needs r <> [].
Proof.
  unfold basic_analysis. run_monad. eexists. split; [reflexivity|].
  simpl. repeat split. discriminate.
Qed.

(** X16. The risk level of the basic analysis is ['high'] when more than
    ten files changed or one of them is under [defaults/]; failing that it
    is ['medium'] when [tasks/main.yml] or [meta/main.yml] changed, and
    ['low'] otherwise. A change to [defaults/main.yml] is always ['high'],
    never ['medium']. *)
Theorem basic_analysis_risk_level (title : string) (files : list pr_file) :
  exists r,
    fst (basic_analysis lower title (inr files) []) = inr r /\
    risk_level r =
      (if (10 <? length files)%nat
          || existsb (fun f => starts_with (filename f) "defaults/") files
       then "high"
       else if existsb (fun f => String.eqb (filename f) "tasks/main.yml"
                                 || String.eqb (filename f) "meta/main.yml") files
            then "medium" else "low") /\
    (existsb (fun f => String.eqb (filename f) "defaults/main.yml") files = true ->
     risk_level r = "high").
Proof.
  destruct (basic_analysis_value title files []) as (r & Hr & _ & Hrisk & _).
  exists r. rewrite Hr. split; [reflexivity|]. rewrite Hrisk. clear.
  unfold files_risk_level.
  assert (Hdef : forall f, String.eqb (filename f) "defaults/main.yml" = true ->
                           starts_with (filename f) "defaults/" = true).
  { intros f Hf. apply String.eqb_eq in Hf. rewrite Hf. reflexivity. }
  assert (Hcrit : existsb (fun f => in_list (filename f) critical_files) files =
                  existsb (fun f => String.eqb (filename f) "tasks/main.yml"
                                    || String.eqb (filename f) "meta/main.yml") files
                  || existsb (fun f => String.eqb (filename f) "defaults/main.yml") files).
  { induction files as [|f fs IH]; [reflexivity|].
    cbn [existsb]. rewrite IH. unfold in_list, critical_files. cbn [existsb].
    destruct (String.eqb (filename f) "tasks/main.yml"),
      (String.eqb (filename f) "defaults/main.yml"),
      (String.eqb (filename f) "meta/main.yml"); cbn [orb];
      rewrite ?orb_true_r, ?orb_false_r; reflexivity. }
  assert (Hhigh : existsb (fun f => String.eqb (filename f) "defaults/main.yml") files
                  = true ->
                  existsb (fun f => starts_with (filename f) "defaults/") files = true).
  { intros H. apply existsb_exists in H as (f & Hin & Hf).
    apply existsb_exists. exists f. auto. }
  rewrite Hcrit. split.
  - destruct (10 <? length files)%nat; simpl; [reflexivity|].
    destruct (existsb (fun f => starts_with (filename f) "defaults/") files) eqn:Hd;
      [reflexivity|].
    destruct (existsb (fun f => String.eqb (filename f) "defaults/main.yml") files);
      [specialize (Hhigh eq_refl); discriminate|].
    rewrite orb_false_r. reflexivity.
  - intros H. rewrite (Hhigh H). destruct (10 <? length files)%nat; reflexivity.
Qed.

(** X17. The change type of the basic analysis goes by the first word
    found in the title: [fix] gives ['bugfix'] whatever else the title
    says, then [feat] or [add] give ['feature'], and only a title without
    these three is ['breaking'], when it has [break] or an exclamation
    mark; any other title is an ['enhancement']. *)
Theorem basic_analysis_change_type (title : string) (files : list pr_file) :
  exists r,
    fst (basic_analysis lower title (inr files) []) = inr r /\
    (change_type r = "bugfix" <-> contains "fix" (lower title) = true) /\
    (change_type r = "feature" <->
     contains "fix" (lower title) = false /\
     contains "feat" (lower title) || contains "add" (lower title) = true) /\
    (change_type r = "breaking" <->
     contains "fix" (lower title) = false /\
     contains "feat" (lower title) = false /\ contains "add" (lower title) = false /\
     contains "break" (lower title) || contains "!" title = true) /\
    (change_type r = "bugfix" \/ change_type r = "feature" \/
     change_type r = "breaking" \/ change_type r = "enhancement").
Proof.
  destruct (basic_analysis_value title files []) as (r & Hr & Htype & _).
  exists r. rewrite Hr. split; [reflexivity|]. rewrite Htype. clear.
  unfold title_change_type.
  destruct (contains "fix" (lower title)), (contains "feat" (lower title)),
    (contains "add" (lower title)), (contains "break" (lower title)),
    (contains "!" title); simpl;
    repeat split; try tauto; try discriminate; intuition discriminate.
Qed.

(** X18. The labels requested for a basic analysis always include
    ['documentation'] and never ['maintenance']; a pull request typed
    ['enhancement'] gets no label for its type, while one typed
    ['feature'] gets the label ['enhancement']. *)
Theorem basic_analysis_labels (title : string) (files : list pr_file) :
  exists r,
    fst (basic_analysis lower title (inr files) []) = inr r /\
    In "documentation" (labels_to_add r) /\
    ~ In "maintenance" (labels_to_add r) /\
    (change_type r = "enhancement" ->
     ~ In "enhancement" (labels_to_add r) /\ ~ In "bug" (labels_to_add r) /\
     ~ In "breaking-change" (labels_to_add r)) /\
    (change_type r = "feature" -> In "enhancement" (labels_to_add r)).
Proof.
  destruct (basic_analysis_value title files []) as (r & Hr & Htype & Hrisk & Hdoc).
  exists r. rewrite Hr. split; [reflexivity|].
  unfold labels_to_add. rewrite Htype.
  destruct (documentation_needs r); [congruence|]. clear.
  unfold title_change_type.
  destruct (contains "fix" (lower title)), (contains "feat" (lower title)),
    (contains "add" (lower title)), (contains "break" (lower title)),
    (contains "!" title); simpl;
    destruct (String.eqb (risk_level r) "high"),
      (String.eqb (risk_level r) "medium"); simpl;
    repeat split; try discriminate; intuition discriminate.
Qed.

End BasicAnalysisFacts.

Lemma basic_analysis_sample :
  exists r,
    fst (basic_analysis ascii_lower "feat!: Add a breaking option" (inr sample_files) [])
    = inr r /\
    change_type r = "feature" /\ risk_level r = "medium" /\
    summary r = "PR modifies 2 files with feature changes" /\
    labels_to_add r = ["enhancement"; "review-required"; "documentation"].
Proof. eexists. split; [vm_compute; reflexivity|]. repeat split. Qed.

(** ** The labels of a pull request *)

Lemma in_list_In (x : string) (l : list string) :
  in_list x l = true <-> In x l.
Proof.
  unfold in_list. rewrite existsb_exists. split.
  - intros (y & Hin & Heq). apply String.eqb_eq in Heq. subst. exact Hin.
  - intros Hin. exists x. split; [exact Hin | apply String.eqb_refl].
Qed.

Lemma pr_after_nil (st : pr_state) : pr_after st [] [] = st.
Proof. destruct st. unfold pr_after. simpl. rewrite !app_nil_r. reflexivity. Qed.

Lemma pr_after_label (st : pr_state) (label : string) (added : list string) :
  pr_after (pr_after st [label] []) added [] = pr_after st (label :: added) [].
Proof.
  unfold pr_after. simpl. rewrite !app_nil_r, <- app_assoc. reflexivity.
Qed.

(** The loop when the API accepts every label. *)
Lemma add_existing_labels_accepted (gh : github) (repo labels : list string) :
  (forall label, In label labels -> add_to_labels gh label = None) ->
  forall added st,
    add_existing_labels gh repo labels added st
    = (inr (added ++ List.filter (fun l => in_list l repo) labels),
       pr_after st (List.filter (fun l => in_list l repo) labels) []).
Proof.
  induction labels as [|label rest IH]; intros Hok added st.
  - simpl. rewrite app_nil_r, pr_after_nil. reflexivity.
  - cbn [add_existing_labels List.filter].
    destruct (in_list label repo).
    + unfold bind, pr_add_to_labels. rewrite (Hok label (or_introl eq_refl)).
      unfold modify.
      change {| pr_labels := pr_labels st ++ [label]; pr_stdout := pr_stdout st |}
        with (with_label st label).
      rewrite IH by (intros l Hl; apply Hok; right; exact Hl).
      rewrite <- app_assoc. simpl.
      unfold with_label. rewrite <- pr_after_label. unfold pr_after at 2. simpl.
      rewrite app_nil_r. reflexivity.
    + apply IH. intros l Hl. apply Hok. right. exact Hl.
Qed.

(** The loop when the API refuses a label of the repository. *)
Lemma add_existing_labels_refused (gh : github) (repo before after : list string)
  (label : string) (e : exn) :
  (forall l, In l before -> add_to_labels gh l = None) ->
  in_list label repo = true ->
  add_to_labels gh label = Some e ->
  forall added st,
    add_existing_labels gh repo (before ++ label :: after) added st
    = (inl e, pr_after st (List.filter (fun l => in_list l repo) before) []).
Proof.
  intros Hok Hin He. induction before as [|b before IH]; intros added st.
  - simpl. rewrite Hin. unfold bind, pr_add_to_labels. rewrite He. unfold lift.
    rewrite pr_after_nil. reflexivity.
  - cbn [app add_existing_labels List.filter].
    destruct (in_list b repo).
    + unfold bind, pr_add_to_labels. rewrite (Hok b (or_introl eq_refl)).
      unfold modify.
      change {| pr_labels := pr_labels st ++ [b]; pr_stdout := pr_stdout st |}
        with (with_label st b).
      rewrite IH by (intros l Hl; apply Hok; right; exact Hl).
      unfold with_label. rewrite <- pr_after_label. unfold pr_after at 2. simpl.
      rewrite app_nil_r. reflexivity.
    + apply IH. intros l Hl. apply Hok. right. exact Hl.
Qed.

(** The loop in general: whatever it returns, the labels it attached are
    requested labels of the repository that the API accepted. *)
Lemma add_existing_labels_sound (gh : github) (repo labels : list string) :
  forall added st,
    exists done r,
      add_existing_labels gh repo labels added st = (r, pr_after st done []) /\
      (forall l, In l done ->
                 In l labels /\ In l repo /\ add_to_labels gh l = None).
Proof.
  induction labels as [|label rest IH]; intros added st.
  - exists [], (inr added). simpl. rewrite pr_after_nil. split; [reflexivity|].
    intros l [].
  - cbn [add_existing_labels].
    destruct (in_list label repo) eqn:Hin.
    + unfold bind, pr_add_to_labels.
      destruct (add_to_labels gh label) as [e|] eqn:He.
      * exists [], (inl e). unfold lift. rewrite pr_after_nil.
        split; [reflexivity|]. intros l [].
      * unfold modify.
        change {| pr_labels := pr_labels st ++ [label]; pr_stdout := pr_stdout st |}
          with (with_label st label).
        destruct (IH (added ++ [label]) (with_label st label)) as (done & r & Hrun & Hdone).
        exists (label :: done), r. rewrite Hrun. split.
        -- unfold with_label. rewrite <- pr_after_label. unfold pr_after at 2. simpl.
           rewrite app_nil_r. reflexivity.
        -- intros l [<-|Hl].
           ++ split; [left; reflexivity|]. split; [apply in_list_In; exact Hin | exact He].
           ++ destruct (Hdone l Hl) as (H1 & H2 & H3). split; [right; exact H1|]. auto.
    + destruct (IH added st) as (done & r & Hrun & Hdone).
      exists done, r. split; [exact Hrun|].
      intros l Hl. destruct (Hdone l Hl) as (H1 & H2 & H3). split; [right; exact H1|]. auto.
Qed.

(** X19. [add_labels] never raises and prints at most one line; every
    label it attaches is one it requested for the analysis, exists in the
    repository, and was accepted by the API. When the labels of the
    repository cannot be listed, nothing is attached. *)
Theorem add_labels_never_raises (gh : github) (analysis : pr_analysis) (st : pr_state) :
  exists added out,
    add_labels gh analysis st = (inr tt, pr_after st added out) /\
    (length out <= 1)%nat /\
    (forall l, In l added ->
       In l (labels_to_add analysis) /\ add_to_labels gh l = None /\
       exists repo, get_labels gh = inr repo /\ In l repo).
Proof.
  unfold add_labels, try_except, bind at 1, lift.
  destruct (get_labels gh) as [e|repo] eqn:Hrepo.
  - exists [], ["Warning: Could not add labels: " +:+ exn_str e].
    split; [|split; [simpl; lia | intros l []]].
    unfold pr_print, modify, pr_after. simpl. rewrite app_nil_r. reflexivity.
  - unfold bind.
    destruct (add_existing_labels_sound gh repo (labels_to_add analysis) [] st)
      as (done & r & Hrun & Hdone).
    rewrite Hrun.
    assert (Hsound : forall l, In l done ->
              In l (labels_to_add analysis) /\ add_to_labels gh l = None /\
              exists repo0, inr (A := exn) repo = inr repo0 /\ In l repo0).
    { intros l Hl. destruct (Hdone l Hl) as (H1 & H2 & H3).
      split; [exact H1|]. split; [exact H3|]. exists repo. auto. }
    destruct r as [e|added_labels].
    + exists done, ["Warning: Could not add labels: " +:+ exn_str e].
      split; [|split; [simpl; lia | exact Hsound]].
      unfold pr_print, modify, pr_after. simpl. rewrite app_nil_r. reflexivity.
    + destruct added_labels as [|a rest].
      * exists done, []. split; [reflexivity|]. split; [simpl; lia | exact Hsound].
      * exists done, ["✅ Added labels: " +:+ join ", " (a :: rest)].
        split; [|split; [simpl; lia | exact Hsound]].
        unfold pr_print, modify, pr_after. simpl. rewrite app_nil_r. reflexivity.
Qed.

(** X20. When the labels of the repository can be listed and the API
    accepts every label, [add_labels] attaches exactly the requested
    labels that exist in the repository, in the order requested, and
    reports them in one line; when none of them exists it attaches and
    prints nothing. *)
Theorem add_labels_attaches_existing (gh : github) (analysis : pr_analysis)
  (st : pr_state) (repo : list string) :
  get_labels gh = inr repo ->
  (forall label, add_to_labels gh label = None) ->
  let existing := List.filter (fun l => in_list l repo) (labels_to_add analysis) in
  add_labels gh analysis st
  = (inr tt,
     pr_after st existing
       (match existing with
        | [] => []
        | _ => ["✅ Added labels: " +:+ join ", " existing]
        end)).
Proof.
  intros Hrepo Hok existing.
  unfold add_labels, try_except, bind at 1, lift. rewrite Hrepo. unfold bind.
  rewrite add_existing_labels_accepted by (intros; apply Hok).
  simpl app. fold existing.
  destruct existing as [|a rest].
  - reflexivity.
  - unfold pr_print, modify, pr_after. simpl. rewrite app_nil_r. reflexivity.
Qed.

Lemma add_labels_attaches_existing_witness :
  add_labels sample_github sample_analysis empty_pr
  = (inr tt,
     {| pr_labels := ["enhancement"; "review-required"];
        pr_stdout := ["✅ Added labels: enhancement, review-required"] |}).
Proof.
  exact (add_labels_attaches_existing sample_github sample_analysis empty_pr
           ["bug"; "enhancement"; "review-required"; "wontfix"]
           eq_refl (fun _ => eq_refl)).
Defined.

(** X21. When the API refuses a label, [add_labels] stops there: the
    labels attached before it stay on the pull request, the later ones are
    not tried, and the only line printed is the warning with the error;
    the labels already attached are not reported. *)
Theorem add_labels_stops_at_refusal (gh : github) (analysis : pr_analysis)
  (st : pr_state) (repo before after : list string) (label : string) (e : exn) :
  get_labels gh = inr repo ->
  labels_to_add analysis = before ++ label :: after ->
  (forall l, In l before -> add_to_labels gh l = None) ->
  In label repo ->
  add_to_labels gh label = Some e ->
  add_labels gh analysis st
  = (inr tt,
     pr_after st (List.filter (fun l => in_list l repo) before)
       ["Warning: Could not add labels: " +:+ exn_str e]).
Proof.
  intros Hrepo Hlabels Hok Hin He.
  unfold add_labels, try_except, bind at 1, lift. rewrite Hrepo. unfold bind.
  rewrite Hlabels.
  rewrite (add_existing_labels_refused gh repo before after label e Hok
             (proj2 (in_list_In label repo) Hin) He).
  unfold pr_print, modify, pr_after. simpl. rewrite app_nil_r. reflexivity.
Qed.

Lemma add_labels_stops_at_refusal_witness :
  add_labels github_refusing sample_analysis empty_pr
  = (inr tt,
     {| pr_labels := ["enhancement"];
        pr_stdout := ["Warning: Could not add labels: 403 Forbidden"] |}).
Proof.
  refine (add_labels_stops_at_refusal github_refusing sample_analysis empty_pr
            ["bug"; "enhancement"; "review-required"; "documentation"]
            ["enhancement"] ["documentation"] "review-required"
            (Exn (OtherException "GithubException") "403 Forbidden")
            eq_refl eq_refl _ _ eq_refl).
  - intros l [<-|[]]. reflexivity.
  - simpl. auto.
Defined.

(** ** The scripts and their client *)

(** One [call_ai] returns, keeps the active provider and counts at most
    one request. *)
Lemma call_ai_step (w : world) (task_name : string) (variables : dict PyVal)
  (provider : option string) (st : state) :
  exists result st',
    call_ai w task_name variables provider st = (inr result, st') /\
    active_provider (self st') = active_provider (self st) /\
    (requests (usage_stats (self st)) <= requests (usage_stats (self st'))
     <= requests (usage_stats (self st)) + 1)%Z.
Proof.
  destruct (call_ai_outcome w task_name variables provider st)
    as [H|[(e & H)|(p & prompt & model & params & result & _ & _ & _ & H)]];
    rewrite H; eexists; eexists; (split; [reflexivity|]).
  - split; [reflexivity | lia].
  - simpl. split; [reflexivity | lia].
  - unfold tracked. destruct (cr_usage result); simpl; split; try reflexivity; lia.
Qed.

Lemma client_call_ai_step (w : world) (task_name : string) (variables : dict PyVal)
  (s : script) (client : AIClient) :
  ai_client s = Some client ->
  exists result st',
    call_ai w task_name variables None {| self := client; stdout := script_stdout s |}
      = (inr result, st') /\
    client_call_ai w task_name variables s = (inr result, client_ran s st') /\
    active_provider (self st') = active_provider client /\
    (requests (usage_stats client) <= requests (usage_stats (self st'))
     <= requests (usage_stats client) + 1)%Z.
Proof.
  intros Hclient.
  destruct (call_ai_step w task_name variables None
              {| self := client; stdout := script_stdout s |})
    as (result & st' & Hcall & Hactive & Hrequests).
  exists result, st'. unfold client_call_ai. rewrite Hclient, Hcall. auto.
Qed.

Lemma ai_available_client (s : script) :
  ai_available s = true ->
  exists client, ai_client s = Some client /\ str_truthy (active_provider client) = true.
Proof.
  unfold ai_available. destruct (ai_client s) as [client|]; [eauto | discriminate].
Qed.

(** X22. [generate_release_notes] never fails and never returns empty
    notes from a provider: it returns either the non-empty text the
    provider gave for the task [release_notes], or the fallback template
    for the version with the changelog entry of the analysis. Without an
    available provider it returns the template and changes nothing. *)
Theorem generate_release_notes_outcome (w : world)
  (json_dumps : dict PyVal -> exn + string) (analysis : dict PyVal)
  (version : string) (s : script) :
  let template :=
    release_notes_template version
      (py_str w (default (VStr "Various improvements and bug fixes")
                   (dict_lookup "changelog_entry" analysis))) in
  exists notes s',
    generate_release_notes w json_dumps analysis version s = (inr notes, s') /\
    comments s' = comments s /\
    (ai_available s = false -> notes = template /\ s' = s) /\
    (notes = template \/
     notes <> "" /\
     exists analysis_results result,
       json_dumps analysis = inr analysis_results /\
       fst (client_call_ai w "release_notes"
              [("version", VStr version); ("analysis_results", VStr analysis_results)] s)
       = inr result /\
       cr_content result = Some notes).
Proof.
  intros template. unfold generate_release_notes, ai_release_notes.
  unfold bind at 1 2, gets at 1, id.
  destruct (ai_available s) eqn:Hai.
  - destruct (ai_available_client s Hai) as (client & Hclient & _).
    unfold try_except, bind at 1, lift.
    destruct (json_dumps analysis) as [e|analysis_results] eqn:Hdumps.
    + unfold bind, script_print, modify, ret. simpl.
      eexists; eexists. split; [reflexivity|]. simpl.
      split; [reflexivity|]. split; [discriminate | left; reflexivity].
    + destruct (client_call_ai_step w "release_notes"
                  [("version", VStr version); ("analysis_results", VStr analysis_results)]
                  s client Hclient) as (result & st' & _ & Hcall & _).
      unfold bind at 1. rewrite Hcall. unfold ret.
      destruct (cr_content result) as [content|] eqn:Hcontent; simpl.
      * destruct (String.eqb_spec content "") as [->|Hne]; simpl.
        -- eexists; eexists. split; [reflexivity|]. simpl.
           split; [reflexivity|]. split; [discriminate | left; reflexivity].
        -- eexists; eexists. split; [reflexivity|]. simpl.
           split; [reflexivity|]. split; [discriminate|].
           right. split; [exact Hne|].
           exists analysis_results, result. rewrite Hcall. auto.
      * eexists; eexists. split; [reflexivity|]. simpl.
        split; [reflexivity|]. split; [discriminate | left; reflexivity].
  - unfold ret. simpl. eexists; eexists. split; [reflexivity|].
    split; [reflexivity|]. split; [auto | left; reflexivity].
Qed.

(** The release notes without a client: the template alone. *)
Lemma generate_release_notes_sample :
  generate_release_notes sample_world (fun _ => inr "{}") sample_release_analysis
    "v1.2.0" script_without_client
  = (inr (release_notes_template "v1.2.0"
            ("### Added" +:+ LF +:+ "- feat: add proxmox support")),
     script_without_client).
Proof. reflexivity. Qed.

(** ** The code review of the assistant *)

Lemma review_file_with_ai_step (w : world) (file : pr_file) (s : script)
  (client : AIClient) :
  ai_client s = Some client ->
  exists review s' client',
    review_file_with_ai w file s = (inr review, s') /\
    ai_client s' = Some client' /\
    active_provider client' = active_provider client /\
    comments s' = comments s /\
    (requests (usage_stats client) <= requests (usage_stats client')
     <= requests (usage_stats client) + 1)%Z /\
    (ai_available s = true ->
     review = Some (file_reviewed_clean file) \/
     exists content, content <> "" /\ review = Some (file_review file content)).
Proof.
  intros Hclient. unfold review_file_with_ai. unfold bind at 1, gets, id.
  destruct (ai_available s) eqn:Hai; unfold negb; cbv iota.
  - destruct (client_call_ai_step w "code_review" (review_variables file) s client Hclient)
      as (result & st' & _ & Hcall & Hactive & Hrequests).
    cbv zeta. unfold try_except, bind. rewrite Hcall.
    destruct (cr_content result) as [content|]; simpl.
    + destruct (String.eqb_spec content "") as [->|Hne]; simpl.
      * exists (Some (file_reviewed_clean file)), (client_ran s st'), (self st').
        repeat split; auto; lia.
      * exists (Some (file_review file content)), (client_ran s st'), (self st').
        repeat split; eauto; lia.
    + exists (Some (file_reviewed_clean file)), (client_ran s st'), (self st').
      repeat split; auto; lia.
  - exists None, s, client. unfold ret. repeat split; auto; try lia; discriminate.
Qed.

(** X23. With a provider available, [review_file_with_ai] returns a text
    for the file whatever happens to the call: the answer of the provider
    when it is not empty, and otherwise, also when [call_ai] failed and
    returned its fallback, the text that the file was reviewed and no
    issue was found. Its own warning and the text that the review could
    not be completed never appear. *)
Theorem review_file_with_ai_hides_failure (w : world) (file : pr_file) (s : script) :
  ai_available s = true ->
  exists result s',
    client_call_ai w "code_review" (review_variables file) s = (inr result, s') /\
    review_file_with_ai w file s
    = (inr (Some (if str_truthy (cr_content result)
                  then file_review file (default "" (cr_content result))
                  else file_reviewed_clean file)), s') /\
    (result = _fallback_response "code_review" ->
     fst (review_file_with_ai w file s) = inr (Some (file_reviewed_clean file))).
Proof.
  intros Hai. destruct (ai_available_client s Hai) as (client & Hclient & _).
  destruct (client_call_ai_step w "code_review" (review_variables file) s client Hclient)
    as (result & st' & _ & Hcall & _).
  exists result, (client_ran s st'). split; [exact Hcall|].
  assert (Hreview :
    review_file_with_ai w file s
    = (inr (Some (if str_truthy (cr_content result)
                  then file_review file (default "" (cr_content result))
                  else file_reviewed_clean file)), client_ran s st')).
  { unfold review_file_with_ai. unfold bind at 1, gets, id. rewrite Hai.
    unfold negb. cbv iota zeta. unfold try_except, bind. rewrite Hcall.
    destruct (str_truthy (cr_content result)); reflexivity. }
  split; [exact Hreview|].
  intros ->. rewrite Hreview. reflexivity.
Qed.

Lemma review_file_with_ai_hides_failure_witness :
  exists result s',
    client_call_ai world_without_config "code_review"
      (review_variables (List.hd (Build_pr_file "" "" None 0 0) sample_files)) sample_script
    = (inr result, s') /\
    review_file_with_ai world_without_config
      (List.hd (Build_pr_file "" "" None 0 0) sample_files) sample_script
    = (inr (Some (if str_truthy (cr_content result)
                  then file_review (List.hd (Build_pr_file "" "" None 0 0) sample_files)
                         (default "" (cr_content result))
                  else file_reviewed_clean
                         (List.hd (Build_pr_file "" "" None 0 0) sample_files))), s') /\
    (result = _fallback_response "code_review" ->
     fst (review_file_with_ai world_without_config
            (List.hd (Build_pr_file "" "" None 0 0) sample_files) sample_script)
     = inr (Some (file_reviewed_clean
                    (List.hd (Build_pr_file "" "" None 0 0) sample_files)))).
Proof.
  apply (review_file_with_ai_hides_failure world_without_config
           (List.hd (Build_pr_file "" "" None 0 0) sample_files) sample_script).
  reflexivity.
Defined.

Lemma review_files_step (w : world) (files : list pr_file) :
  forall (detailed_review : list string) (s : script) (client : AIClient),
    ai_client s = Some client ->
    ai_available s = true ->
    exists reviews s' client',
      review_files w files detailed_review s = (inr (detailed_review ++ reviews), s') /\
      ai_client s' = Some client' /\
      active_provider client' = active_provider client /\
      comments s' = comments s /\
      (requests (usage_stats client) <= requests (usage_stats client')
       <= requests (usage_stats client) + Z.of_nat (length files))%Z /\
      Forall2 (fun file review =>
                 review = file_reviewed_clean file \/
                 exists content, content <> "" /\ review = file_review file content)
              (List.filter (fun file => str_truthy (file_patch file)) files) reviews.
Proof.
  induction files as [|file rest IH]; intros detailed_review s client Hclient Hai.
  - exists [], s, client. simpl. rewrite app_nil_r.
    repeat split; auto; try lia; constructor.
  - cbn [review_files List.filter].
    destruct (str_truthy (file_patch file)).
    + destruct (review_file_with_ai_step w file s client Hclient)
        as (review & s1 & client1 & Hreview & Hclient1 & Hactive1 & Hcomments1 & Hreq1 & Htext).
      unfold bind. rewrite Hreview.
      assert (Hai1 : ai_available s1 = true).
      { unfold ai_available in *. rewrite Hclient1, Hactive1.
        rewrite Hclient in Hai. exact Hai. }
      assert (Hsome : exists text, review = Some text /\ text <> "" /\
                (text = file_reviewed_clean file \/
                 exists content, content <> "" /\ text = file_review file content)).
      { destruct (Htext Hai) as [->|(content & Hne & ->)].
        - eexists. split; [reflexivity|]. split; [discriminate | left; reflexivity].
        - eexists. split; [reflexivity|]. split; [discriminate | right; eauto]. }
      destruct Hsome as (text & -> & Hne & Hshape).
      assert (Htruthy : str_truthy (Some text) = true).
      { simpl. apply String.eqb_neq in Hne. rewrite Hne. reflexivity. }
      rewrite Htruthy.
      destruct (IH (detailed_review ++ [default "" (Some text)]) s1 client1 Hclient1 Hai1)
        as (reviews & s' & client' & Hrun & Hclient' & Hactive' & Hcomments' & Hreq' & Hall).
      exists (text :: reviews), s', client'. rewrite Hrun. simpl default.
      rewrite <- app_assoc. simpl.
      repeat split; try congruence; try lia.
      constructor; assumption.
    + destruct (IH detailed_review s client Hclient Hai)
        as (reviews & s' & client' & Hrun & Hclient' & Hactive' & Hcomments' & Hreq' & Hall).
      exists reviews, s', client'. rewrite Hrun.
      repeat split; auto; try lia.
      simpl length. lia.
Qed.

Lemma firstn_length_le_5 {A} (l : list A) : (Z.of_nat (length (firstn 5 l)) <= 5)%Z.
Proof.
  assert (length (firstn 5 l) <= 5)%nat by (rewrite List.length_firstn; lia). lia.
Qed.

(** X24. One [/ai review] command costs at most five requests: whatever
    the pull request holds and however the command ends, the request
    counter of the client grows by at most five, and without an available
    provider it does not grow at all. *)
Theorem handle_review_command_request_bound (w : world) (pr : pull_request)
  (s : script) (client : AIClient) :
  ai_client s = Some client ->
  exists client',
    ai_client (snd (handle_review_command w pr s)) = Some client' /\
    (requests (usage_stats client) <= requests (usage_stats client')
     <= requests (usage_stats client) + 5)%Z /\
    (ai_available s = false -> client' = client).
Proof.
  intros Hclient. unfold handle_review_command.
  unfold bind at 1, script_print at 1, modify.
  unfold bind at 1, gets, id.
  set (s0 := {| ai_client := ai_client s;
                script_stdout := script_stdout s ++ ["🔍 Generating detailed code review..."];
                comments := comments s |}).
  assert (Hclient0 : ai_client s0 = Some client) by exact Hclient.
  assert (Hai0 : ai_available s0 = ai_available s) by reflexivity.
  rewrite Hai0.
  destruct (ai_available s) eqn:Hai; unfold negb; cbv iota.
  - unfold bind at 1, lift.
    destruct (get_files pr) as [e|files].
    + exists client. simpl. repeat split; auto; try lia; discriminate.
    + destruct (review_files_step w (firstn 5 files) [] s0 client Hclient0 Hai)
        as (reviews & s1 & client1 & Hrun & Hclient1 & _ & _ & Hreq & _).
      pose proof (firstn_length_le_5 files) as Hfive.
      unfold bind at 1. rewrite Hrun. simpl app.
      exists client1. split; [|split; [lia | discriminate]].
      destruct reviews as [|r reviews].
      * unfold bind at 1, ret. unfold bind, post_comment.
        destruct (create_issue_comment pr plain_review_comment); simpl; exact Hclient1.
      * unfold bind at 1. unfold bind at 1, active_provider_text. rewrite Hclient1.
        unfold ret. unfold bind, post_comment.
        destruct (create_issue_comment pr _); simpl; exact Hclient1.
  - exists client. split; [|split; [lia | reflexivity]].
    unfold _post_fallback_message, post_comment.
    destruct (create_issue_comment pr _); simpl; exact Hclient.
Qed.

Lemma handle_review_command_request_bound_witness :
  exists client',
    ai_client (snd (handle_review_command sample_world sample_pull_request sample_script))
    = Some client' /\
    (requests (usage_stats sample_client) <= requests (usage_stats client')
     <= requests (usage_stats sample_client) + 5)%Z /\
    (ai_available sample_script = false -> client' = sample_client).
Proof.
  apply (handle_review_command_request_bound sample_world sample_pull_request
           sample_script sample_client).
  reflexivity.
Defined.

(** X25. With a provider available, the files listed and the comment
    accepted, [handle_review_command] posts exactly one comment. It is the
    plain comment only when none of the first five files has a patch;
    otherwise it is the detailed review with one section for each of the
    first five files that has a patch, in their order, and a file whose
    call failed has the section saying that no issue was found. *)
Theorem handle_review_command_comment (w : world) (pr : pull_request)
  (s : script) (files : list pr_file) :
  ai_available s = true ->
  get_files pr = inr files ->
  (forall comment, create_issue_comment pr comment = None) ->
  exists reviews provider s',
    handle_review_command w pr s = (inr tt, s') /\
    comments s' = comments s ++ [match reviews with
                                 | [] => plain_review_comment
                                 | _ => detailed_review_comment reviews provider
                                 end] /\
    Forall2 (fun file review =>
               review = file_reviewed_clean file \/
               exists content, content <> "" /\ review = file_review file content)
            (List.filter (fun file => str_truthy (file_patch file)) (firstn 5 files))
            reviews.
Proof.
  intros Hai Hfiles Hpost.
  destruct (ai_available_client s Hai) as (client & Hclient & Hactive).
  unfold handle_review_command.
  unfold bind at 1, script_print at 1, modify.
  unfold bind at 1, gets, id.
  set (s0 := {| ai_client := ai_client s;
                script_stdout := script_stdout s ++ ["🔍 Generating detailed code review..."];
                comments := comments s |}).
  assert (Hclient0 : ai_client s0 = Some client) by exact Hclient.
  assert (Hai0 : ai_available s0 = true) by exact Hai.
  rewrite Hai0. unfold negb. cbv iota.
  unfold bind at 1, lift. rewrite Hfiles.
  destruct (review_files_step w (firstn 5 files) [] s0 client Hclient0 Hai0)
    as (reviews & s1 & client1 & Hrun & Hclient1 & Hactive1 & Hcomments1 & _ & Hall).
  unfold bind at 1. rewrite Hrun. simpl app.
  exists reviews, (default "None" (active_provider client1)).
  destruct reviews as [|r reviews].
  - unfold bind at 1, ret. unfold bind, post_comment. rewrite Hpost.
    unfold modify, script_print, modify. simpl.
    eexists. split; [reflexivity|]. simpl. rewrite Hcomments1. auto.
  - unfold bind at 1. unfold bind at 1, active_provider_text. rewrite Hclient1.
    unfold ret. unfold bind, post_comment. rewrite Hpost.
    unfold modify, script_print, modify. simpl.
    eexists. split; [reflexivity|]. simpl. rewrite Hcomments1. auto.
Qed.

Lemma handle_review_command_comment_witness :
  exists reviews provider s',
    handle_review_command world_without_config sample_pull_request sample_script
    = (inr tt, s') /\
    comments s' = comments sample_script
                  ++ [match reviews with
                      | [] => plain_review_comment
                      | _ => detailed_review_comment reviews provider
                      end] /\
    Forall2 (fun file review =>
               review = file_reviewed_clean file \/
               exists content, content <> "" /\ review = file_review file content)
            (List.filter (fun file => str_truthy (file_patch file))
               (firstn 5 sample_files))
            reviews.
Proof.
  apply (handle_review_command_comment world_without_config sample_pull_request
           sample_script sample_files).
  - reflexivity.
  - reflexivity.
  - intros comment. reflexivity.
Defined.

(** ** The changelog *)

Lemma slice_to_from (n : nat) (s : string) : slice_to n s +:+ slice_from n s = s.
Proof.
  revert s. induction n as [|n IH]; intros [|c s]; try reflexivity.
  simpl. rewrite append_cons, IH. reflexivity.
Qed.

Lemma string_length_append (s t : string) :
  String.length (s +:+ t) = (String.length s + String.length t)%nat.
Proof.
  induction s as [|c s IH]; [reflexivity|].
  rewrite append_cons. simpl. rewrite IH. reflexivity.
Qed.

Lemma slice_to_append (s t : string) : slice_to (String.length s) (s +:+ t) = s.
Proof.
  induction s as [|c s IH]; [destruct t; reflexivity|].
  rewrite append_cons. simpl. rewrite IH. reflexivity.
Qed.

Lemma slice_from_append (s t : string) : slice_from (String.length s) (s +:+ t) = t.
Proof.
  induction s as [|c s IH]; [destruct t; reflexivity|].
  rewrite append_cons. simpl. exact IH.
Qed.

Lemma slice_to_plus (s t : string) (n : nat) :
  slice_to (String.length s + n) (s +:+ t) = s +:+ slice_to n t.
Proof.
  induction s as [|c s IH]; [reflexivity|].
  rewrite !append_cons. simpl. rewrite IH. reflexivity.
Qed.

Lemma slice_from_plus (s t : string) (n : nat) :
  slice_from (String.length s + n) (s +:+ t) = slice_from n t.
Proof.
  induction s as [|c s IH]; [reflexivity|].
  rewrite append_cons. simpl. exact IH.
Qed.

Lemma prefix_empty (s : string) : String.prefix "" s = true.
Proof. destruct s; reflexivity. Qed.

Lemma prefix_append (p s t : string) :
  String.prefix p s = true -> String.prefix p (s +:+ t) = true.
Proof.
  revert s. induction p as [|a p IH]; intros s H; [apply prefix_empty|].
  destruct s as [|b s]; [discriminate|].
  rewrite append_cons. simpl in *. destruct (ascii_dec a b); [apply IH, H | discriminate].
Qed.

Lemma prefix_slice (p s : string) :
  String.prefix p s = true -> s = p +:+ slice_from (String.length p) s.
Proof.
  revert s. induction p as [|a p IH]; intros s H; [reflexivity|].
  destruct s as [|b s]; [discriminate|].
  simpl in *. destruct (ascii_dec a b) as [->|]; [|discriminate].
  rewrite append_cons. f_equal. apply IH, H.
Qed.

(** Whether a text starts with [p] depends on its first characters only. *)
Lemma prefix_same_start (p x y y' : string) :
  (String.length p <= String.length x)%nat ->
  String.prefix p (x +:+ y) = String.prefix p (x +:+ y').
Proof.
  revert x. induction p as [|a p IH]; intros x Hlen; [rewrite !prefix_empty; reflexivity|].
  destruct x as [|b x]; simpl in Hlen; [lia|].
  rewrite !append_cons. simpl.
  destruct (ascii_dec a b); [apply IH; lia | reflexivity].
Qed.

Lemma unreleased_section_end_none (content : string) :
  unreleased_section_end content = None <->
  contains "## [Unreleased]" content = false.
Proof.
  induction content as [|c rest IH]; [split; reflexivity|].
  cbn [unreleased_section_end contains]. unfold starts_with.
  destruct (String.prefix "## [Unreleased]" (String c rest)).
  - split; discriminate.
  - rewrite orb_false_l, <- IH.
    destruct (unreleased_section_end rest); simpl; split; congruence.
Qed.

Lemma unreleased_section_end_heading (rest : string) :
  unreleased_section_end ("## [Unreleased]" +:+ rest)
  = Some (15 + section_length rest)%nat.
Proof.
  assert (H : String.prefix "## [Unreleased]" ("## [Unreleased]" +:+ rest) = true)
    by (apply prefix_append; reflexivity).
  change ("## [Unreleased]" +:+ rest)
    with (String "#" ("# [Unreleased]" +:+ rest)) in *.
  cbn [unreleased_section_end]. unfold starts_with. rewrite H. reflexivity.
Qed.

(** The match starts at the first heading and ends where its section
    ends; the text before the end of the heading decides where it
    starts. *)
Lemma unreleased_section_end_found (content : string) :
  forall n,
    unreleased_section_end content = Some n ->
    exists before rest,
      content = before +:+ "## [Unreleased]" +:+ rest /\
      n = (String.length before + 15 + section_length rest)%nat /\
      forall rest',
        unreleased_section_end (before +:+ "## [Unreleased]" +:+ rest')
        = Some (String.length before + 15 + section_length rest')%nat.
Proof.
  induction content as [|c content IH]; intros n; [discriminate|].
  cbn [unreleased_section_end]. unfold starts_with.
  destruct (String.prefix "## [Unreleased]" (String c content)) eqn:Hprefix.
  - intros [= <-]. exists "", (slice_from 15 (String c content)).
    split; [exact (prefix_slice _ _ Hprefix)|]. split; [reflexivity|].
    intros rest'. apply unreleased_section_end_heading.
  - destruct (unreleased_section_end content) as [n'|]; [|discriminate].
    simpl. intros [= <-].
    destruct (IH n' eq_refl) as (before & rest & Hcontent & Hn & Hall).
    exists (String c before), rest. rewrite append_cons.
    split; [f_equal; exact Hcontent|]. split; [simpl; lia|].
    intros rest'. rewrite append_cons. cbn [unreleased_section_end]. unfold starts_with.
    assert (Hsame : String.prefix "## [Unreleased]"
                      (String c (before +:+ "## [Unreleased]" +:+ rest'))
                    = String.prefix "## [Unreleased]" (String c content)).
    { rewrite Hcontent.
      rewrite <- (append_cons c before), <- (append_cons c before).
      rewrite <- !append_associative.
      apply prefix_same_start.
      rewrite append_cons. simpl String.length.
      rewrite string_length_append. simpl. lia. }
    rewrite Hsame, Hprefix, Hall. simpl. reflexivity.
Qed.

Lemma prefix_cons (a b : ascii) (p s : string) :
  String.prefix (String a p) (String b s)
  = if Ascii.eqb a b then String.prefix p s else false.
Proof.
  cbn [String.prefix]. destruct (ascii_dec a b) as [->|Hne].
  - rewrite Ascii.eqb_refl. reflexivity.
  - apply Ascii.eqb_neq in Hne. rewrite Hne. reflexivity.
Qed.

(** A text that follows a line feed cannot complete a pattern that has
    no line feed. *)
Lemma prefix_after_insertion (e : string) :
  forall (q rest : string),
    q <> "" ->
    contains LF q = false ->
    String.prefix q rest = false ->
    String.prefix q (slice_to (section_length rest) rest
                     +:+ String (ascii_of_nat 10) e
                     +:+ slice_from (section_length rest) rest) = false.
Proof.
  intros q. induction q as [|a q IH]; intros rest Hq Hfree Hprefix; [congruence|].
  unfold LF in Hfree. cbn [contains] in Hfree.
  rewrite prefix_cons, prefix_empty in Hfree.
  apply orb_false_elim in Hfree as [Ha Hfree].
  assert (Hne : Ascii.eqb a (ascii_of_nat 10) = false).
  { rewrite Ascii.eqb_sym. destruct (Ascii.eqb (ascii_of_nat 10) a);
      [discriminate | reflexivity]. }
  assert (Hinserted : forall t,
            String.prefix (String a q) (String (ascii_of_nat 10) e +:+ t) = false).
  { intros t. rewrite append_cons, prefix_cons, Hne. reflexivity. }
  destruct rest as [|c rest].
  - exact (Hinserted "").
  - cbn [section_length]. destruct (at_section_end (String c rest)).
    + exact (Hinserted (String c rest)).
    + cbn [slice_to slice_from]. rewrite append_cons, prefix_cons.
      rewrite prefix_cons in Hprefix.
      destruct (Ascii.eqb a c); [|reflexivity].
      destruct q as [|b q]; [rewrite prefix_empty in Hprefix; discriminate|].
      apply IH; [discriminate | exact Hfree | exact Hprefix].
Qed.

(** Where a section ends does not change when a version entry is put at
    its end. *)
Lemma section_length_after_insertion (e rest : string) :
  String.prefix (LF +:+ "## [") e = true ->
  section_length (slice_to (section_length rest) rest +:+ e
                  +:+ slice_from (section_length rest) rest)
  = section_length rest.
Proof.
  intros He.
  destruct e as [|e0 e']; [discriminate|].
  assert (He0 : e0 = ascii_of_nat 10).
  { change (LF +:+ "## [") with (String (ascii_of_nat 10) "## [") in He.
    rewrite prefix_cons in He.
    destruct (Ascii.eqb_spec (ascii_of_nat 10) e0); [congruence | discriminate]. }
  subst e0.
  assert (Hend : forall t, at_section_end (String (ascii_of_nat 10) e' +:+ t) = true).
  { intros t. unfold at_section_end, starts_with.
    rewrite (prefix_append _ _ t He). reflexivity. }
  assert (Hzero : forall t, section_length (String (ascii_of_nat 10) e' +:+ t) = O).
  { intros t. rewrite append_cons. cbn [section_length].
    rewrite <- append_cons, Hend. reflexivity. }
  induction rest as [|c rest IH].
  - exact (Hzero "").
  - cbn [section_length]. destruct (at_section_end (String c rest)) eqn:Hc.
    + exact (Hzero (String c rest)).
    + cbn [slice_to slice_from]. rewrite append_cons. cbn [section_length].
      assert (Hstill : at_section_end
                         (String c (slice_to (section_length rest) rest
                                    +:+ String (ascii_of_nat 10) e'
                                    +:+ slice_from (section_length rest) rest)) = false).
      { unfold at_section_end, starts_with in Hc |- *.
        change (LF +:+ "## [") with (String (ascii_of_nat 10) "## [") in *.
        unfold LF in *. rewrite prefix_cons in Hc |- *.
        cbn [String.eqb] in Hc |- *.
        rewrite orb_false_r in Hc |- *.
        apply orb_false_elim in Hc as [Hhead Hlf].
        apply orb_false_intro.
        - destruct (Ascii.eqb (ascii_of_nat 10) c); [|reflexivity].
          apply prefix_after_insertion; [discriminate | reflexivity | exact Hhead].
        - destruct (Ascii.eqb c (ascii_of_nat 10)); [|reflexivity].
          destruct (slice_to (section_length rest) rest); reflexivity. }
      rewrite Hstill, IH. reflexivity.
Qed.

(** Two insertions in a row: the second entry lands just before the
    first. *)
Lemma insert_entry_twice (content e1 e2 : string) (n : nat) :
  unreleased_section_end content = Some n ->
  String.prefix (LF +:+ "## [") e1 = true ->
  insert_entry (insert_entry content e1) e2
  = slice_to n content +:+ e2 +:+ e1 +:+ slice_from n content.
Proof.
  intros Hn He1.
  destruct (unreleased_section_end_found content n Hn)
    as (before & rest & Hcontent & -> & Hall).
  unfold insert_entry at 2. rewrite Hn.
  set (k := section_length rest).
  assert (Hto : slice_to (String.length before + 15 + k) content
                = before +:+ "## [Unreleased]" +:+ slice_to k rest).
  { rewrite Hcontent, <- Nat.add_assoc, slice_to_plus. reflexivity. }
  assert (Hfrom : slice_from (String.length before + 15 + k) content
                  = slice_from k rest).
  { rewrite Hcontent, <- Nat.add_assoc, slice_from_plus. reflexivity. }
  rewrite Hto, Hfrom.
  set (rest1 := slice_to k rest +:+ e1 +:+ slice_from k rest).
  assert (Hfirst : (before +:+ "## [Unreleased]" +:+ slice_to k rest)
                   +:+ e1 +:+ slice_from k rest
                   = before +:+ "## [Unreleased]" +:+ rest1).
  { unfold rest1. rewrite !append_associative. reflexivity. }
  rewrite Hfirst. unfold insert_entry. rewrite Hall.
  assert (Hk : section_length rest1 = k)
    by (apply section_length_after_insertion, He1).
  rewrite Hk, <- Nat.add_assoc, slice_to_plus, slice_from_plus.
  change (slice_to (15 + k) ("## [Unreleased]" +:+ rest1))
    with ("## [Unreleased]" +:+ slice_to k rest1).
  change (slice_from (15 + k) ("## [Unreleased]" +:+ rest1))
    with (slice_from k rest1).
  unfold rest1.
  assert (Hlen : String.length (slice_to k rest) = k).
  { unfold k. clear. induction rest as [|c rest IH]; [reflexivity|].
    cbn [section_length]. destruct (at_section_end (String c rest)); [reflexivity|].
    simpl. rewrite IH. reflexivity. }
  pose proof (slice_to_append (slice_to k rest) (e1 +:+ slice_from k rest)) as H1.
  pose proof (slice_from_append (slice_to k rest) (e1 +:+ slice_from k rest)) as H2.
  rewrite Hlen in H1, H2. rewrite H1, H2.
  rewrite !append_associative. reflexivity.
Qed.


Lemma contains_after (needle before rest : string) :
  String.prefix needle rest = true ->
  contains needle (before +:+ rest) = true.
Proof.
  intros Hrest. induction before as [|c before IH].
  - change ("" +:+ rest) with rest.
    destruct rest; cbn [contains]; rewrite Hrest; reflexivity.
  - rewrite append_cons. cbn [contains]. rewrite IH. apply orb_true_r.
Qed.

Lemma new_entry_heading (version date entry : string) :
  String.prefix (LF +:+ "## [") (new_entry version date entry) = true.
Proof. reflexivity. Qed.

(** One run of [update_changelog] that reads [content] and can write. *)
Lemma update_changelog_run (env : changelog_env) (version entry : string)
  (st : changelog_state) (content : string) :
  current_changelog st = inr content ->
  open_for_writing env = None ->
  contains "[Unreleased]:" (insert_entry content (new_entry version (today env) entry))
  = false ->
  update_changelog env version entry st
  = (inr tt,
     changelog_written st (insert_entry content (new_entry version (today env) entry))
       version).
Proof.
  intros Hcontent Hwrite Hlinks. unfold update_changelog, current_changelog in *.
  unfold bind at 1, gets, id. unfold bind at 1.
  destruct (changelog_md st) as [text|] eqn:Hfile.
  - unfold lift. rewrite Hcontent. cbv zeta. rewrite Hlinks, Hwrite.
    unfold bind, modify, changelog_written. reflexivity.
  - injection Hcontent as <-. unfold ret. cbv zeta. rewrite Hlinks, Hwrite.
    unfold bind, modify, changelog_written. reflexivity.
Qed.



(** X27. Releases are listed newest first: in a changelog that has the
    section [Unreleased] and no comparison links, two runs of
    [update_changelog] in a row put the entry of the second version just
    before the entry of the first, both after the section [Unreleased] and
    before the older versions. *)
Theorem update_changelog_newest_first (env1 env2 : changelog_env)
  (version1 entry1 version2 entry2 : string) (st : changelog_state)
  (content : string) :
  let new_entry1 := new_entry version1 (today env1) entry1 in
  let new_entry2 := new_entry version2 (today env2) entry2 in
  current_changelog st = inr content ->
  contains "## [Unreleased]" content = true ->
  open_for_writing env1 = None ->
  open_for_writing env2 = None ->
  contains "[Unreleased]:" (insert_entry content new_entry1) = false ->
  contains "[Unreleased]:" (insert_entry (insert_entry content new_entry1) new_entry2)
  = false ->
  exists before after,
    content = before +:+ after /\
    contains "## [Unreleased]" before = true /\
    changelog_md
      (snd (update_changelog env2 version2 entry2
              (snd (update_changelog env1 version1 entry1 st))))
    = Some (inr (before +:+ new_entry2 +:+ new_entry1 +:+ after)).
Proof.
  intros new_entry1 new_entry2 Hcontent Hheading Hwrite1 Hwrite2 Hlinks1 Hlinks2.
  subst new_entry1 new_entry2.
  rewrite (update_changelog_run env1 version1 entry1 st content Hcontent Hwrite1 Hlinks1).
  cbn [snd].
  rewrite (update_changelog_run env2 version2 entry2
             (changelog_written st
                (insert_entry content (new_entry version1 (today env1) entry1)) version1)
             (insert_entry content (new_entry version1 (today env1) entry1))
             eq_refl Hwrite2 Hlinks2).
  cbn [snd changelog_written changelog_md].
  destruct (unreleased_section_end content) as [n|] eqn:Hn.
  - exists (slice_to n content), (slice_from n content).
    split; [symmetry; apply slice_to_from|]. split.
    + destruct (unreleased_section_end_found content n Hn)
        as (before & rest & Hc & -> & _).
      rewrite Hc, <- Nat.add_assoc, slice_to_plus.
      change (slice_to (15 + section_length rest) ("## [Unreleased]" +:+ rest))
        with ("## [Unreleased]" +:+ slice_to (section_length rest) rest).
      apply contains_after, prefix_append. reflexivity.
    + rewrite (insert_entry_twice content _ _ n Hn
                 (new_entry_heading version1 (today env1) entry1)).
      reflexivity.
  - apply unreleased_section_end_none in Hn. congruence.
Qed.

Lemma update_changelog_newest_first_witness :
  exists before after,
    sample_changelog = before +:+ after /\
    contains "## [Unreleased]" before = true /\
    changelog_md
      (snd (update_changelog sample_changelog_env "1.2.0" "### Fixed"
              (snd (update_changelog sample_changelog_env "1.1.0" "### Added"
                      sample_changelog_state))))
    = Some (inr (before +:+ new_entry "1.2.0" (today sample_changelog_env) "### Fixed"
                 +:+ new_entry "1.1.0" (today sample_changelog_env) "### Added"
                 +:+ after)).
Proof.
  apply (update_changelog_newest_first sample_changelog_env sample_changelog_env
           "1.1.0" "### Added" "1.2.0" "### Fixed" sample_changelog_state
           sample_changelog).
  - reflexivity.
  - vm_compute. reflexivity.
  - reflexivity.
  - reflexivity.
  - vm_compute. reflexivity.
  - vm_compute. reflexivity.
Defined.

(** The sample changelog after the releases 1.1.0 and 1.2.0. *)
Lemma update_changelog_sample :
  changelog_md
    (snd (update_changelog sample_changelog_env "1.2.0" "### Fixed"
            (snd (update_changelog sample_changelog_env "1.1.0" "### Added"
                    sample_changelog_state))))
  = Some (inr (join LF
                 ["# Changelog";
                  "";
                  "## [Unreleased]";
                  "";
                  "### Added";
                  "- Pending change";
                  "";
                  "## [v1.2.0] - 2025-06-01";
                  "";
                  "### Fixed";
                  "";
                  "## [v1.1.0] - 2025-06-01";
                  "";
                  "### Added";
                  "";
                  "## [v1.0.0] - 2025-01-15";
                  "";
                  "### Added";
                  "- First release";
                  ""])).
Proof. vm_compute. reflexivity. Qed.

(** ** The variables section of the README *)

Lemma slice_from_add (i k : nat) (s : string) :
  slice_from (i + k) s = slice_from k (slice_from i s).
Proof.
  revert s. induction i as [|i IH]; intros s; [reflexivity|].
  destruct s as [|c s]; [destruct k; reflexivity|].
  simpl. apply IH.
Qed.

Lemma slice_to_add (i k : nat) (s : string) :
  slice_to (i + k) s = slice_to i s +:+ slice_to k (slice_from i s).
Proof.
  revert s. induction i as [|i IH]; intros s; [reflexivity|].
  destruct s as [|c s]; [destruct k; reflexivity|].
  simpl. rewrite append_cons, IH. reflexivity.
Qed.

Lemma find_found (sub s : string) :
  forall i, find sub s = Some i -> String.prefix sub (slice_from i s) = true.
Proof.
  induction s as [|c s IH]; intros i.
  - cbn [find]. destruct (String.prefix sub "") eqn:Hp; [|discriminate].
    intros [= <-]. exact Hp.
  - cbn [find]. destruct (String.prefix sub (String c s)) eqn:Hp.
    + intros [= <-]. exact Hp.
    + destruct (find sub s) as [i'|]; [|discriminate].
      simpl. intros [= <-]. simpl. apply IH. reflexivity.
Qed.

Lemma prefix_nonempty (a : ascii) (sub s : string) :
  String.prefix (String a sub) s = true -> s <> "".
Proof. destruct s; [discriminate | discriminate]. Qed.

(** X28. What [update_readme_with_ai] replaces in the README is what it
    showed to the provider: when the README has the heading of the
    variables and the heading of the dependencies does not come before it,
    the README is the text before the heading of the variables, the
    section extracted, and the rest; the new README keeps the text before
    and the rest as they are and has the section of the provider in
    between, followed by an empty line unless the section was the last
    one. *)
Theorem readme_section_replaced_in_place (readme_content updated_section : string)
  (start_idx : nat) :
  find start_marker readme_content = Some start_idx ->
  (forall end_idx, find end_marker readme_content = Some end_idx ->
                   (start_idx <= end_idx)%nat) ->
  exists before after,
    readme_content = before +:+ current_variables_section readme_content +:+ after /\
    before = slice_to start_idx readme_content /\
    replace_variables_section readme_content updated_section
    = Some (before +:+ updated_section
            +:+ match after with
                | "" => ""
                | _ => LF +:+ LF +:+ after
                end).
Proof.
  intros Hstart Horder.
  unfold current_variables_section, replace_variables_section. rewrite Hstart.
  exists (slice_to start_idx readme_content).
  destruct (find end_marker readme_content) as [end_idx|] eqn:Hend.
  - specialize (Horder end_idx eq_refl).
    exists (slice_from end_idx readme_content).
    assert (Hidx : end_idx = (start_idx + (end_idx - start_idx))%nat) by lia.
    split; [|split; [reflexivity|]].
    + unfold slice. rewrite Hidx at 2. rewrite slice_from_add, slice_to_from.
      symmetry. apply slice_to_from.
    + pose proof (find_found _ _ _ Hend) as Hprefix.
      destruct (slice_from end_idx readme_content); [discriminate | reflexivity].
  - cbv zeta.
    destruct (find (LF +:+ "## ") (slice_from 3 (slice_from start_idx readme_content)))
      as [next_section|] eqn:Hnext.
    + exists (slice_from (start_idx + next_section + 3) readme_content).
      assert (Hrest : slice_from (start_idx + next_section + 3) readme_content
                      = slice_from (next_section + 3)
                          (slice_from start_idx readme_content)).
      { rewrite <- Nat.add_assoc. apply slice_from_add. }
      split; [|split; [reflexivity|]].
      * rewrite Hrest, slice_to_from. symmetry. apply slice_to_from.
      * pose proof (find_found _ _ _ Hnext) as Hprefix.
        rewrite <- slice_from_add in Hprefix.
        rewrite Hrest, (Nat.add_comm next_section 3).
        destruct (slice_from (3 + next_section) (slice_from start_idx readme_content));
          [discriminate | reflexivity].
    + exists "". rewrite !append_empty_r.
      split; [symmetry; apply slice_to_from|]. split; reflexivity.
Qed.

Lemma readme_section_replaced_in_place_witness :
  exists before after,
    sample_readme = before +:+ current_variables_section sample_readme +:+ after /\
    before = slice_to 25 sample_readme /\
    replace_variables_section sample_readme "## Role Variables"
    = Some (before +:+ "## Role Variables"
            +:+ match after with
                | "" => ""
                | _ => LF +:+ LF +:+ after
                end).
Proof.
  apply (readme_section_replaced_in_place sample_readme "## Role Variables" 25).
  - reflexivity.
  - intros end_idx H. vm_compute in H. injection H as <-. lia.
Defined.

(** X29. A README whose heading of the dependencies comes before the
    heading of the variables is not handled: the provider is shown an
    empty section, and the new README keeps everything up to the heading
    of the variables, puts the section of the provider there and then
    repeats the README from the heading of the dependencies on, so that
    the text between the two headings is there twice. *)
Theorem readme_section_misplaced_end (readme_content updated_section : string)
  (start_idx end_idx : nat) :
  find start_marker readme_content = Some start_idx ->
  find end_marker readme_content = Some end_idx ->
  (end_idx < start_idx)%nat ->
  exists before between rest,
    readme_content = before +:+ between +:+ rest /\
    String.prefix end_marker between = true /\
    String.prefix start_marker rest = true /\
    current_variables_section readme_content = "" /\
    replace_variables_section readme_content updated_section
    = Some (before +:+ between +:+ updated_section +:+ LF +:+ LF
            +:+ between +:+ rest).
Proof.
  intros Hstart Hend Horder.
  unfold current_variables_section, replace_variables_section. rewrite Hstart, Hend.
  pose proof (find_found _ _ _ Hstart) as Hs.
  pose proof (find_found _ _ _ Hend) as He.
  assert (Hk : exists k, start_idx = (end_idx + k)%nat /\ (0 < k)%nat)
    by (exists (start_idx - end_idx)%nat; lia).
  destruct Hk as (k & Hidx & Hpos).
  set (tail := slice_from end_idx readme_content) in *.
  assert (Htail : tail = end_marker +:+ slice_from 15 tail)
    by exact (prefix_slice _ _ He).
  assert (Hlong : exists k', k = (15 + k')%nat).
  { destruct (le_lt_dec 15 k) as [Hle|Hlt]; [exists (k - 15)%nat; lia|].
    exfalso. rewrite Hidx, slice_from_add in Hs. fold tail in Hs.
    rewrite Htail in Hs. clear - Hs Hpos Hlt.
    do 15 (destruct k as [|k]; [try lia; simpl in Hs; discriminate|]). lia. }
  destruct Hlong as (k' & ->).
  exists (slice_to end_idx readme_content), (slice_to (15 + k') tail),
         (slice_from start_idx readme_content).
  assert (Hto : slice_to start_idx readme_content
                = slice_to end_idx readme_content +:+ slice_to (15 + k') tail).
  { rewrite Hidx. apply slice_to_add. }
  assert (Hfrom : tail = slice_to (15 + k') tail +:+ slice_from start_idx readme_content).
  { rewrite Hidx, slice_from_add. symmetry. apply slice_to_from. }
  split; [|split; [|split; [exact Hs|split]]].
  - rewrite <- append_associative, <- Hto. symmetry. apply slice_to_from.
  - rewrite Htail.
    change (slice_to (15 + k') (end_marker +:+ slice_from 15 tail))
      with (end_marker +:+ slice_to k' (slice_from 15 tail)).
    apply prefix_append. reflexivity.
  - unfold slice. replace (end_idx - start_idx)%nat with O by lia.
    destruct (slice_from start_idx readme_content); reflexivity.
  - rewrite Hto, append_associative, <- Hfrom. reflexivity.
Qed.

Lemma readme_section_misplaced_end_witness :
  exists before between rest,
    readme_dependencies_first = before +:+ between +:+ rest /\
    String.prefix end_marker between = true /\
    String.prefix start_marker rest = true /\
    current_variables_section readme_dependencies_first = "" /\
    replace_variables_section readme_dependencies_first "## Role Variables"
    = Some (before +:+ between +:+ "## Role Variables" +:+ LF +:+ LF
            +:+ between +:+ rest).
Proof.
  apply (readme_section_misplaced_end readme_dependencies_first "## Role Variables"
           48 25).
  - reflexivity.
  - reflexivity.
  - lia.
Defined.

(** ** The changed files *)

(** The category a path goes to and the paths of a category. *)
Lemma add_item_lookup (changes : dict (list string)) (item : diff_item) (key : string) :
  exists added,
    dict_lookup key (add_item changes item)
    = (if dict_mem key changes
       then Some (default [] (dict_lookup key changes) ++ added)
       else match added with
            | [] => None
            | _ => Some added
            end) /\
    (key = "defaults" -> added = []) /\
    (forall path,
       py_or (a_path item) (b_path item) = Some path -> path <> "" ->
       starts_with path "vars/" || starts_with path "defaults/" = true ->
       key = "vars" -> added = [path]).
Proof.
  assert (Hkeep : exists added,
            dict_lookup key changes
            = (if dict_mem key changes
               then Some (default [] (dict_lookup key changes) ++ added)
               else match added with
                    | [] => None
                    | _ => Some added
                    end) /\ added = []).
  { exists []. split; [|reflexivity]. unfold dict_mem.
    destruct (dict_lookup key changes); simpl; rewrite ?app_nil_r; reflexivity. }
  assert (Happend : forall k path,
            exists added,
              dict_lookup key (append_path k path changes)
              = (if dict_mem key changes
                 then Some (default [] (dict_lookup key changes) ++ added)
                 else match added with
                      | [] => None
                      | _ => Some added
                      end) /\
              added = if String.eqb k key then [path] else []).
  { intros k path. unfold append_path. rewrite dict_lookup_set. unfold dict_mem.
    destruct (String.eqb_spec k key) as [->|Hne].
    - exists [path]. split; [|reflexivity].
      destruct (dict_lookup key changes); reflexivity.
    - exists []. split; [|reflexivity].
      destruct (dict_lookup key changes); simpl; rewrite ?app_nil_r; reflexivity. }
  unfold add_item.
  destruct (py_or (a_path item) (b_path item)) as [path|] eqn:Hpath.
  2:{ destruct Hkeep as (added & Hlookup & ->). exists []. simpl.
      split; [exact Hlookup|]. split; [reflexivity | discriminate]. }
  destruct (str_truthy (Some path)) eqn:Htruthy; unfold negb; cbv iota zeta.
  2:{ destruct Hkeep as (added & Hlookup & ->). exists [].
      split; [exact Hlookup|]. split; [reflexivity|].
      intros p [= <-] Hne. simpl in Htruthy. apply String.eqb_neq in Hne.
      rewrite Hne in Htruthy. discriminate. }
  simpl default.
  assert (Htasks : starts_with path "vars/" || starts_with path "defaults/" = true ->
                   starts_with path "tasks/" = false).
  { unfold starts_with. destruct path as [|c path]; [discriminate|].
    rewrite !prefix_cons.
    destruct (Ascii.eqb_spec "t" c) as [<-|]; [discriminate | reflexivity]. }
  destruct (starts_with path "tasks/") eqn:H1.
  { destruct (Happend "tasks" path) as (added & Hlookup & ->). eexists.
    split; [exact Hlookup|]. split; [intros ->; reflexivity|].
    intros p [= <-] _ Hvars. pose proof (Htasks Hvars). discriminate. }
  destruct (starts_with path "vars/" || starts_with path "defaults/") eqn:H2.
  { destruct (Happend "vars" path) as (added & Hlookup & ->). eexists.
    split; [exact Hlookup|]. split; [intros ->; reflexivity|].
    intros p [= <-] _ _ ->. reflexivity. }
  destruct (starts_with path "meta/").
  { destruct (Happend "meta" path) as (added & Hlookup & ->). eexists.
    split; [exact Hlookup|]. split; [intros ->; reflexivity|].
    intros p [= <-] _ Hvars. congruence. }
  destruct (starts_with path "tests/" || starts_with path "molecule/").
  { destruct (Happend "tests" path) as (added & Hlookup & ->). eexists.
    split; [exact Hlookup|]. split; [intros ->; reflexivity|].
    intros p [= <-] _ Hvars. congruence. }
  destruct (ends_with path ".md" || starts_with path "docs/").
  { destruct (Happend "docs" path) as (added & Hlookup & ->). eexists.
    split; [exact Hlookup|]. split; [intros ->; reflexivity|].
    intros p [= <-] _ Hvars. congruence. }
  destruct (starts_with path ".github/").
  { destruct (Happend "ci" path) as (added & Hlookup & ->). eexists.
    split; [exact Hlookup|]. split; [intros ->; reflexivity|].
    intros p [= <-] _ Hvars. congruence. }
  destruct (Happend "other" path) as (added & Hlookup & ->). eexists.
  split; [exact Hlookup|]. split; [intros ->; reflexivity|].
  intros p [= <-] _ Hvars. congruence.
Qed.

Lemma dict_lookup_map_values {V W} (f : V -> W) (key : string) (d : dict V) :
  dict_lookup key (map (fun kv => (fst kv, f (snd kv))) d)
  = option_map f (dict_lookup key d).
Proof.
  induction d as [|[k v] d IH]; [reflexivity|].
  simpl. rewrite IH. destruct (dict_lookup key d); simpl; [reflexivity|].
  destruct (String.eqb key k); reflexivity.
Qed.

Lemma add_items_lookup (items : list diff_item) (key : string) :
  forall (changes : dict (list string)) (paths : list string),
    dict_lookup key changes = Some paths ->
    exists added,
      dict_lookup key (fold_left add_item items changes) = Some (paths ++ added) /\
      (key = "defaults" -> added = []) /\
      (forall item path,
         In item items ->
         py_or (a_path item) (b_path item) = Some path -> path <> "" ->
         starts_with path "vars/" || starts_with path "defaults/" = true ->
         key = "vars" -> In path added).
Proof.
  induction items as [|item items IH]; intros changes paths Hpaths.
  - exists []. simpl. rewrite app_nil_r. split; [exact Hpaths|].
    split; [reflexivity|]. intros item path [].
  - destruct (add_item_lookup changes item key) as (added1 & Hlookup & Hdefaults1 & Hvars1).
    unfold dict_mem in Hlookup. rewrite Hpaths in Hlookup. simpl in Hlookup.
    destruct (IH (add_item changes item) (paths ++ added1) Hlookup)
      as (added2 & Hrest & Hdefaults2 & Hvars2).
    exists (added1 ++ added2). simpl fold_left. rewrite Hrest, <- app_assoc.
    split; [reflexivity|]. split.
    + intros Hkey. rewrite (Hdefaults1 Hkey), (Hdefaults2 Hkey). reflexivity.
    + intros item' path [<-|Hin] Hpath Hne Hprefix Hkey; apply in_or_app.
      * left. rewrite (Hvars1 path Hpath Hne Hprefix Hkey). left. reflexivity.
      * right. eapply Hvars2; eassumption.
Qed.

Section ChangedFilesFacts.

Variable lower : string -> string.
Variable diff : commit -> exn + list diff_item.
Variable list_set : list string -> list string.

Lemma add_commits_lookup (commits : list commit) (key : string) :
  forall (changes : dict (list string)) (paths : list string),
    dict_lookup key changes = Some paths ->
    exists added,
      dict_lookup key (fold_left (add_commit diff) commits changes)
      = Some (paths ++ added) /\
      (key = "defaults" -> added = []) /\
      (forall c items item path,
         In c commits -> diff c = inr items -> In item items ->
         py_or (a_path item) (b_path item) = Some path -> path <> "" ->
         starts_with path "vars/" || starts_with path "defaults/" = true ->
         key = "vars" -> In path added).
Proof.
  induction commits as [|c commits IH]; intros changes paths Hpaths.
  - exists []. simpl. rewrite app_nil_r. split; [exact Hpaths|].
    split; [reflexivity|]. intros c items item path [].
  - assert (Hfirst : exists added1,
              dict_lookup key (add_commit diff changes c) = Some (paths ++ added1) /\
              (key = "defaults" -> added1 = []) /\
              (forall items item path,
                 diff c = inr items -> In item items ->
                 py_or (a_path item) (b_path item) = Some path -> path <> "" ->
                 starts_with path "vars/" || starts_with path "defaults/" = true ->
                 key = "vars" -> In path added1)).
    { unfold add_commit. destruct (diff c) as [e|items0].
      - exists []. rewrite app_nil_r. split; [exact Hpaths|].
        split; [reflexivity | discriminate].
      - destruct (add_items_lookup items0 key changes paths Hpaths)
          as (added & Hlookup & Hdefaults & Hvars).
        exists added. split; [exact Hlookup|]. split; [exact Hdefaults|].
        intros items item path [= <-]. apply Hvars. }
    destruct Hfirst as (added1 & Hlookup & Hdefaults1 & Hvars1).
    destruct (IH (add_commit diff changes c) (paths ++ added1) Hlookup)
      as (added2 & Hrest & Hdefaults2 & Hvars2).
    exists (added1 ++ added2). simpl fold_left. rewrite Hrest, <- app_assoc.
    split; [reflexivity|]. split.
    + intros Hkey. rewrite (Hdefaults1 Hkey), (Hdefaults2 Hkey). reflexivity.
    + intros c' items item path [<-|Hin] Hdiff Hitem Hpath Hne Hprefix Hkey;
        apply in_or_app.
      * left. eapply Hvars1; eassumption.
      * right. eapply Hvars2; eassumption.
Qed.

(** X30. A file under [defaults/] is counted as a change of [vars]: the
    category [defaults] of [get_changed_files] is never filled, whatever
    the commits hold, while a path under [vars/] or [defaults/] in a diff
    that can be read is listed in the category [vars]. With the changed
    files it is given, the rule-based analysis then never ends on a
    ['patch'] bump. *)
Theorem defaults_change_is_minor_bump (commits : list commit) (c : commit)
  (items : list diff_item) (item : diff_item) (path : string) :
  (forall paths, paths <> [] -> list_set paths <> []) ->
  In c commits ->
  diff c = inr items ->
  In item items ->
  py_or (a_path item) (b_path item) = Some path ->
  path <> "" ->
  starts_with path "vars/" || starts_with path "defaults/" = true ->
  dict_lookup "defaults" (get_changed_files diff list_set commits) = Some (list_set []) /\
  (exists paths,
     dict_lookup "vars" (get_changed_files diff list_set commits) = Some (list_set paths) /\
     In path paths) /\
  exists r,
    rule_based_result lower commits (get_changed_files diff list_set commits) = inr r /\
    version_bump r <> "patch".
Proof.
  intros Hset Hc Hdiff Hitem Hpath Hne Hprefix.
  unfold get_changed_files.
  destruct (add_commits_lookup commits "defaults" no_changes [] eq_refl)
    as (nothing & Hdefaults & Hnothing & _).
  rewrite (Hnothing eq_refl) in Hdefaults.
  destruct (add_commits_lookup commits "vars" no_changes [] eq_refl)
    as (paths & Hvars & _ & Hin).
  specialize (Hin c items item path Hc Hdiff Hitem Hpath Hne Hprefix eq_refl).
  set (changes := fold_left (add_commit diff) commits no_changes) in *.
  assert (Hlookup : dict_lookup "vars"
                      (map (fun kv => (fst kv, list_set (snd kv))) changes)
                    = Some (list_set paths)).
  { rewrite dict_lookup_map_values, Hvars. reflexivity. }
  split; [rewrite dict_lookup_map_values, Hdefaults; reflexivity|].
  split; [exists paths; split; [exact Hlookup | exact Hin]|].
  destruct (rule_based_result_value lower commits
              (map (fun kv => (fst kv, list_set (snd kv))) changes))
    as (r & Hr & _ & Hbump & _).
  exists r. split; [exact Hr|]. rewrite Hbump, Hlookup.
  assert (Htruthy : list_truthy (Some (list_set paths)) = true).
  { assert (Hpaths : paths <> []) by (intros ->; destruct Hin).
    specialize (Hset paths Hpaths). simpl.
    destruct (list_set paths); [congruence | reflexivity]. }
  rewrite Htruthy, orb_true_r. simpl.
  destruct (existsb (is_breaking lower) commits); discriminate.
Qed.

End ChangedFilesFacts.

Lemma defaults_change_is_minor_bump_witness :
  dict_lookup "defaults" (get_changed_files sample_diff first_occurrences sample_commits)
  = Some (first_occurrences []) /\
  (exists paths,
     dict_lookup "vars" (get_changed_files sample_diff first_occurrences sample_commits)
     = Some (first_occurrences paths) /\
     In "defaults/main.yml" paths) /\
  exists r,
    rule_based_result ascii_lower sample_commits
      (get_changed_files sample_diff first_occurrences sample_commits) = inr r /\
    version_bump r <> "patch".
Proof.
  apply (defaults_change_is_minor_bump ascii_lower sample_diff first_occurrences
           sample_commits
           {| commit_message := "fix: correct the grub timeout" +:+ LF;
              commit_summary := "fix: correct the grub timeout" |}
           [{| a_path := Some "defaults/main.yml"; b_path := Some "defaults/main.yml" |};
            {| a_path := None; b_path := Some "tasks/grub.yml" |}]
           {| a_path := Some "defaults/main.yml"; b_path := Some "defaults/main.yml" |}
           "defaults/main.yml").
  - intros [|p paths] H; [congruence | discriminate].
  - simpl. auto.
  - reflexivity.
  - simpl. auto.
  - reflexivity.
  - discriminate.
  - reflexivity.
Defined.

(** The changed files of the sample commits. *)
Lemma get_changed_files_sample :
  get_changed_files sample_diff first_occurrences sample_commits
  = [("tasks", ["tasks/grub.yml"]); ("vars", ["defaults/main.yml"]);
     ("defaults", []); ("meta", []); ("tests", []); ("docs", ["README.md"]);
     ("ci", []); ("other", [])].
Proof. vm_compute. reflexivity. Qed.
